(** * tick_taker.py: a shallow embedding and its verified properties

    The development follows the classes of [tick_taker.py]: [Quote],
    [Order], [TickTakerStrategy] and [Runner], one module each.

    Conventions of the embedding.
    - Python floats and ints that hold prices, sizes and share counts are
      exact rationals ([Q]); [==], [<], [<=] are [Qeq_bool], [Qlt_bool],
      [Qle_bool].  Sums, differences and products are exact, where the
      source rounds each to a double.
    - Timestamps are integers ([Z]), in nanoseconds.
    - [str] values are [string]s of ASCII characters.
    - A Python [dict] is an association list in insertion order.
    - [Order] objects live in a heap (a list indexed by address) so that the
      registry and the strategies refer to the same mutable object.
    - Calls to the broker are answered by a record of oracles ([REST]); what
      the program prints and sends is collected in a list of [Effect]s.
    - Methods are computations in a monad of state, output and exceptions
      ([M]). *)

From Stdlib Require Import List String Ascii Bool ZArith QArith Qround Lia Lqa.
Import ListNotations.

Local Open Scope Q_scope.

(** ** Python primitives *)

Module Py.

Definition Qlt_bool (x y : Q) : bool := negb (Qle_bool y x).

(** [round(x)]: nearest integer, ties to the even one. *)
Definition round_half_even (x : Q) : Z :=
  let f := Qfloor x in
  let r := x - inject_Z f in
  if Qlt_bool r (1 # 2) then f
  else if Qlt_bool (1 # 2) r then (f + 1)%Z
  else if Z.even f then f else (f + 1)%Z.

(** [round(x, 2)] of an exact rational: a tie goes to the even hundredth. *)
Definition round2 (x : Q) : Q :=
  inject_Z (round_half_even (x * 100)) / 100.

(** [min(a, b)]: the first argument unless the second is smaller. *)
Definition min (a b : Q) : Q := if Qlt_bool b a then b else a.

(** [sum(l)]: left to right from [0]. *)
Definition sum (l : list Q) : Q := fold_left Qplus l 0.

Definition ascii_upper (c : ascii) : ascii :=
  let n := nat_of_ascii c in
  if ((97 <=? n) && (n <=? 122))%nat then ascii_of_nat (n - 32) else c.

Definition ascii_lower (c : ascii) : ascii :=
  let n := nat_of_ascii c in
  if ((65 <=? n) && (n <=? 90))%nat then ascii_of_nat (n + 32) else c.

Fixpoint map_string (f : ascii -> ascii) (s : string) : string :=
  match s with
  | EmptyString => EmptyString
  | String c r => String (f c) (map_string f r)
  end.

(** [s.upper()] and [s.lower()]. *)
Definition upper : string -> string := map_string ascii_upper.
Definition lower : string -> string := map_string ascii_lower.

(** *** dict with [str] keys *)
Section Dict.
Context {V : Type}.

Definition dict := list (string * V).

Fixpoint get (d : dict) (k : string) : option V :=
  match d with
  | [] => None
  | (k', v) :: r => if String.eqb k' k then Some v else get r k
  end.

(** [k in d] *)
Definition contains (d : dict) (k : string) : bool :=
  match get d k with Some _ => true | None => false end.

(** [d[k] = v]: in place when [k] is present, appended otherwise. *)
Fixpoint set (d : dict) (k : string) (v : V) : dict :=
  match d with
  | [] => [(k, v)]
  | (k', v') :: r =>
      if String.eqb k' k then (k', v) :: r else (k', v') :: set r k v
  end.

Fixpoint remove (d : dict) (k : string) : dict :=
  match d with
  | [] => []
  | (k', v) :: r => if String.eqb k' k then r else (k', v) :: remove r k
  end.

(** [del d[k]]: [None] stands for [KeyError]. *)
Definition del (d : dict) (k : string) : option dict :=
  if contains d k then Some (remove d k) else None.

(** [d.values()] and [d.keys()] *)
Definition values (d : dict) : list V := map snd d.
Definition keys (d : dict) : list string := map fst d.
End Dict.
Arguments dict : clear implicits.

End Py.

(** ** Exceptions and effects *)

Inductive exn : Type :=
| KeyError (key : string)
| APIError (code : Z)
| OtherError (what : string).

(** [api.submit_order(symbol=.., qty=.., side=.., type='limit',
    time_in_force='ioc', limit_price=..)] *)
Record OrderRequest : Type := mkOrderRequest {
  req_symbol : string;
  req_qty : Q;
  req_side : string;
  req_type : string;
  req_time_in_force : string;
  req_limit_price : Q
}.

(** ** class Quote *)

Module Quote.

(** The market-data notification a quote is built from. *)
Record Data : Type := mkData {
  data_symbol : string;
  bid_price : Q;
  ask_price : Q;
  data_bid_size : Q;
  data_ask_size : Q;
  data_timestamp : Z
}.

(** [traded] is the attribute that [on_trade] assigns; [__init__] does not
    create it, so it starts absent. *)
Record t : Type := mk {
  symbol : string;
  bid : Q;
  ask : Q;
  bid_size : Q;
  ask_size : Q;
  timestamp : Z;
  has_traded : bool;
  traded : option bool
}.

(** [Quote.__init__] *)
Definition init (_symbol : string) (_bid _ask _bid_size _ask_size : Q)
           (_timestamp : Z) : t :=
  mk _symbol _bid _ask _bid_size _ask_size _timestamp false None.

(** [spread]: the difference, rounded to two decimals.  The difference and
    the rounding are exact here.  In the source [bid] and [ask] are doubles,
    as is their difference: a quote given by decimal prices such as 0.50 and
    0.505, whose exact difference is the tie 0.005, has there a difference
    just off the tie and the spread 0.01.  The theorems below use of the
    spread no more than the comparison with 0.01 that [on_quote] makes, and
    that a quote whose ask is its bid has not the spread 0.01. *)
Definition spread (self : t) : Q := Py.round2 (ask self - bid self).

Definition from_data (data : Data) : t :=
  init (data_symbol data) (bid_price data) (ask_price data)
       (data_bid_size data) (data_ask_size data) (data_timestamp data).

(** [quote.traded = True] *)
Definition set_traded (self : t) : t :=
  mk (symbol self) (bid self) (ask self) (bid_size self) (ask_size self)
     (timestamp self) (has_traded self) (Some true).

End Quote.

(** ** class Order *)

Module Order.

(** The [order] snapshot of an order-update notification, with its event. *)
Record Data : Type := mkData {
  event : string;
  data_id : string;
  data_symbol : string;
  data_side : string;
  qty : Q;
  filled_qty : Q
}.

Record t : Type := mk {
  id : string;
  symbol : string;
  side : string;
  quantity : Q;
  filled_quantity : Q
}.

(** [Order.__init__] *)
Definition init (_id _symbol _side : string) (_quantity : Q) : t :=
  mk _id (Py.upper _symbol) (Py.lower _side) _quantity 0.

Definition from_data (data : Data) : t :=
  init (data_id data) (data_symbol data) (data_side data) (qty data).

Definition is_buy (self : t) : bool := String.eqb (side self) "buy".
Definition is_sell (self : t) : bool := String.eqb (side self) "sell".

Definition directional_quantity (self : t) : Q :=
  quantity self * (if is_buy self then 1 else -1).

Definition is_filled (self : t) : bool :=
  Qeq_bool (quantity self) (filled_quantity self).

Definition pending (self : t) : Q := quantity self - filled_quantity self.

(** [order.filled_quantity = x] *)
Definition set_filled_quantity (self : t) (x : Q) : t :=
  mk (id self) (symbol self) (side self) (quantity self) x.

End Order.

(** ** The heap of Order objects and what a strategy reaches through
    [self.runner] *)

Definition ref : Type := nat.

Module Heap.

Definition t : Type := list Order.t.

Definition read (h : t) (r : ref) : option Order.t := nth_error h r.

(** A new object gets the next free address; objects are never freed. *)
Definition alloc (h : t) (o : Order.t) : t * ref := (h ++ [o], List.length h).

(** Assignment through a reference; every reference the program holds is
    to an allocated object, and [write] leaves the heap alone otherwise. *)
Fixpoint write (h : t) (r : ref) (o : Order.t) : t :=
  match h, r with
  | [], _ => []
  | _ :: rest, O => o :: rest
  | x :: rest, S r' => x :: write rest r' o
  end.

End Heap.

(** [runner.orders] maps a broker order id to the Order object registered
    under it; [heap] holds the objects. *)
Module Shared.
Record t : Type := mk {
  heap : Heap.t;
  orders : Py.dict ref
}.
End Shared.

(** ** The broker *)

Record Clock : Type := mkClock {
  is_open : bool;
  clock_timestamp : Z;
  next_open : Z;
  next_close : Z
}.

(** What each REST call answers: a value or a raised exception. *)
Record REST : Type := mkREST {
  get_clock : Clock + exn;
  get_position : string -> Q + exn;
  submit_order : OrderRequest -> unit + exn;
  close_position : string -> unit + exn
}.

Inductive LogLine : Type :=
| LogCreatingAPI
| LogMarketsClosed
| LogWillLiquidate (at_time : Z)
| LogStartingConnection (symbols : list string)
| LogPositionData (qty : Q)
| LogFoundPositions (qty : Q) (symbol : string)
| LogNoPositions (symbol : string) (e : exn)
| LogLevelChange (previous current : Quote.t)
| LogReceivedTrade (symbol : string) (size price : Q)
| LogIgnoreAlreadyTraded
| LogIgnoreTooRecent
| LogIgnoreTooSmall
| LogCurrentQuote (q : Quote.t)
| LogBuyAt (price : Q)
| LogSellAt (price : Q)
| LogException (e : exn)
| LogNoBuy (ask imbalance can_buy : bool)
| LogNoSell (bid imbalance can_sell : bool)
| LogOrderSettled (o : Order.t)
| LogOrderCancelled (event : string) (o : Order.t).

(** What the program does to the outside, in order. *)
Inductive Effect : Type :=
| Print (l : LogLine)
| CallGetClock
| CallGetPosition (symbol : string)
| CallSubmitOrder (req : OrderRequest)
| CallClosePosition (symbol : string)
| SubscribeQuotes (symbols : list string)
| SubscribeTrades (symbols : list string)
| SubscribeTradeUpdates
| ConnectionRun
| ConnectionStop.

(** ** The monad of methods: state [S], output, exceptions *)

Definition M (S A : Type) : Type := S -> S * list Effect * (A + exn).

Definition ret {S A : Type} (a : A) : M S A := fun s => (s, [], inl a).

Definition bind {S A B : Type} (m : M S A) (k : A -> M S B) : M S B :=
  fun s =>
    match m s with
    | (s1, out1, inl a) =>
        match k a s1 with
        | (s2, out2, r) => (s2, out1 ++ out2, r)
        end
    | (s1, out1, inr e) => (s1, out1, inr e)
    end.

Definition raise {S A : Type} (e : exn) : M S A := fun s => (s, [], inr e).
Definition emit {S : Type} (x : Effect) : M S unit := fun s => (s, [x], inl tt).
Definition get {S : Type} : M S S := fun s => (s, [], inl s).
Definition modify {S : Type} (f : S -> S) : M S unit := fun s => (f s, [], inl tt).

(** The answer of a broker call, returned or raised. *)
Definition answer {S A : Type} (r : A + exn) : M S A :=
  match r with inl a => ret a | inr e => raise e end.

(** [try: m except Exception as e: h e] *)
Definition try_except {S A : Type} (m : M S A) (h : exn -> M S A) : M S A :=
  fun s =>
    match m s with
    | (s1, out1, inr e) =>
        match h e s1 with
        | (s2, out2, r) => (s2, out1 ++ out2, r)
        end
    | done => done
    end.

Notation "x <- m ;; k" := (bind m (fun x => k))
  (at level 61, m at next level, right associativity).
Notation "m ;; k" := (bind m (fun _ => k))
  (at level 61, right associativity).

(** [for x in l: body x] *)
Fixpoint for_each {S A : Type} (l : list A) (body : A -> M S unit) : M S unit :=
  match l with
  | [] => ret tt
  | x :: rest => body x ;; for_each rest body
  end.

(** The state, the output and the result of a run. *)
Definition state_of {S A : Type} (r : S * list Effect * (A + exn)) : S := fst (fst r).
Definition output_of {S A : Type} (r : S * list Effect * (A + exn)) : list Effect :=
  snd (fst r).
Definition result_of {S A : Type} (r : S * list Effect * (A + exn)) : A + exn := snd r.

Definition ABORT_IF_CLOSED : bool := false.
Definition IMBALANCE_THRESHOLD : Q := 18 # 10.

(** [pd.Timedelta(np.timedelta64(50, 'ms'))] and [pd.Timedelta(minutes=5)],
    in nanoseconds. *)
Definition ms50 : Z := 50000000.
Definition minutes5 : Z := 300000000000.

(** The trade notification. *)
Record Trade : Type := mkTrade {
  trade_symbol : string;
  price : Q;
  size : Q;
  trade_timestamp : Z
}.

(** A reference to an address that holds no object: Python cannot build
    one, and [registry_wf] excludes it. *)
Definition dangling : exn := OtherError "dangling reference".

(** ** class TickTakerStrategy(Strategy) *)

Module TickTakerStrategy.

Record t : Type := mk {
  symbol : string;
  max_quantity : Q;
  quantity_per_trade : Q;
  current_quote : Quote.t;
  previous_quote : Quote.t;
  position : Q;
  level_changes : Z
}.

(** A method runs on the strategy object and on what it reaches through
    [self.runner]. *)
Definition world : Type := (t * Shared.t)%type.

(** [__init__]; [now1] and [now2] are the two readings of the clock. *)
Definition init (_symbol : string) (max_quantity quantity_per_trade : Q)
           (now1 now2 : Z) : t :=
  mk _symbol max_quantity quantity_per_trade
     (Quote.init _symbol 0 0 0 0 now1)
     (Quote.init _symbol 0 0 0 0 now2)
     0 0%Z.

Definition set_position (p : Q) (w : world) : world :=
  let self := fst w in
  (mk (symbol self) (max_quantity self) (quantity_per_trade self)
      (current_quote self) (previous_quote self) p (level_changes self),
   snd w).

Definition set_current_quote (q : Quote.t) (w : world) : world :=
  let self := fst w in
  (mk (symbol self) (max_quantity self) (quantity_per_trade self)
      q (previous_quote self) (position self) (level_changes self),
   snd w).

(** [self.previous_quote = self.current_quote; self.current_quote = quote;
    self.level_changes += 1] *)
Definition shift_level (quote : Quote.t) (w : world) : world :=
  let self := fst w in
  (mk (symbol self) (max_quantity self) (quantity_per_trade self)
      quote (current_quote self) (position self) (level_changes self + 1)%Z,
   snd w).

Definition set_orders (d : Py.dict ref) (w : world) : world :=
  (fst w, Shared.mk (Shared.heap (snd w)) d).

Definition write_order (r : ref) (o : Order.t) (w : world) : world :=
  (fst w, Shared.mk (Heap.write (Shared.heap (snd w)) r o) (Shared.orders (snd w))).

(** Reading through a reference to an Order. *)
Definition deref (order : ref) : M world Order.t :=
  w <- get ;;
  match Heap.read (Shared.heap (snd w)) order with
  | Some o => ret o
  | None => raise dangling
  end.

(** [Strategy.orders]: the registered orders whose symbol is the
    strategy's, keyed again by their own id; [collect] is one step of the
    comprehension.  A registered address with no object behind it cannot
    arise (see [registry_wf]) and is skipped. *)
Definition collect (w : world) (acc : Py.dict Order.t) (r : ref) : Py.dict Order.t :=
  match Heap.read (Shared.heap (snd w)) r with
  | Some order =>
      if String.eqb (Order.symbol order) (symbol (fst w))
      then Py.set acc (Order.id order) order
      else acc
  | None => acc
  end.

Definition orders (w : world) : Py.dict Order.t :=
  fold_left (collect w) (Py.values (Shared.orders (snd w))) [].

(** [start]: the position query, with the not-found code absorbed. *)
Definition start (api : REST) : M world unit :=
  w <- get ;;
  try_except
    (emit (CallGetPosition (symbol (fst w))) ;;
     qty <- answer (get_position api (symbol (fst w))) ;;
     emit (Print (LogPositionData qty)) ;;
     modify (set_position qty) ;;
     emit (Print (LogFoundPositions qty (symbol (fst w)))))
    (fun ex =>
       match ex with
       | APIError code =>
           emit (Print (LogNoPositions (symbol (fst w)) ex)) ;;
           if (code =? 40410000)%Z
           then modify (set_position 0)
           else raise ex
       | _ => raise ex
       end).

(** [stop] *)
Definition stop (api : REST) : M world unit :=
  w <- get ;;
  emit (CallClosePosition (symbol (fst w))) ;;
  answer (close_position api (symbol (fst w))).

Definition total_position (w : world) : Q :=
  position (fst w)
  + Py.sum (map Order.directional_quantity (Py.values (orders w))).

Definition can_buy (w : world) : bool :=
  Py.Qlt_bool (total_position w) (max_quantity (fst w)).

Definition buyable_quantity (w : world) : Q :=
  Py.min (quantity_per_trade (fst w)) (max_quantity (fst w) - total_position w).

Definition can_sell (w : world) : bool :=
  Py.Qlt_bool 0 (total_position w).

Definition sellable_quantity (w : world) : Q :=
  Py.min (quantity_per_trade (fst w)) (total_position w).

(** The test of [on_quote]. *)
Definition level_changed (self : t) (quote : Quote.t) : bool :=
  negb (Qeq_bool (Quote.bid (current_quote self)) (Quote.bid quote))
  && negb (Qeq_bool (Quote.ask (current_quote self)) (Quote.ask quote))
  && Qeq_bool (Quote.spread quote) (1 # 100).

Definition on_quote (quote : Quote.t) : M world unit :=
  w <- get ;;
  if level_changed (fst w) quote
  then
    modify (shift_level quote) ;;
    w' <- get ;;
    emit (Print (LogLevelChange (previous_quote (fst w')) (current_quote (fst w'))))
  else ret tt.

(** The four tests at the head of [on_trade], in order: [None] when the
    trade passes all of them, otherwise what is printed on the way out. *)
Definition ignore_trade (self : t) (data : Trade) : option (list LogLine) :=
  if negb (String.eqb (trade_symbol data) (symbol self)) then Some []
  else if Quote.has_traded (current_quote self) then Some [LogIgnoreAlreadyTraded]
  else if (trade_timestamp data <=? Quote.timestamp (current_quote self) + ms50)%Z
       then Some [LogIgnoreTooRecent]
  else if Py.Qlt_bool (size data) 100 then Some [LogIgnoreTooSmall]
  else None.

(** The conditions of the two [if]s of [on_trade], on the current quote. *)
Definition ask_hit (w : world) (data : Trade) : bool :=
  Qeq_bool (price data) (Quote.ask (current_quote (fst w))).
Definition bid_imbalance (w : world) : bool :=
  let quote := current_quote (fst w) in
  Py.Qlt_bool (Quote.ask_size quote * IMBALANCE_THRESHOLD) (Quote.bid_size quote).
Definition buy_signal (w : world) (data : Trade) : bool :=
  ask_hit w data && bid_imbalance w && can_buy w.

Definition bid_hit (w : world) (data : Trade) : bool :=
  Qeq_bool (price data) (Quote.bid (current_quote (fst w))).
Definition ask_imbalance (w : world) : bool :=
  let quote := current_quote (fst w) in
  Py.Qlt_bool (Quote.bid_size quote * IMBALANCE_THRESHOLD) (Quote.ask_size quote).
Definition sell_signal (w : world) (data : Trade) : bool :=
  bid_hit w data && ask_imbalance w && can_sell w.

Definition buy_request (w : world) : OrderRequest :=
  mkOrderRequest (symbol (fst w)) (buyable_quantity w) "buy" "limit" "ioc"
                 (Quote.ask (current_quote (fst w))).

Definition sell_request (w : world) : OrderRequest :=
  mkOrderRequest (symbol (fst w)) (sellable_quantity w) "sell" "limit" "ioc"
                 (Quote.bid (current_quote (fst w))).

(** [quote.traded = True], [quote] being [self.current_quote]. *)
Definition mark_traded (w : world) : world :=
  set_current_quote (Quote.set_traded (current_quote (fst w))) w.

Definition on_trade (api : REST) (data : Trade) : M world unit :=
  w <- get ;;
  match ignore_trade (fst w) data with
  | Some lines => for_each lines (fun l => emit (Print l))
  | None =>
      emit (Print (LogCurrentQuote (current_quote (fst w)))) ;;
      (if buy_signal w data
       then
         try_except
           (modify mark_traded ;;
            w1 <- get ;;
            emit (CallSubmitOrder (buy_request w1)) ;;
            answer (submit_order api (buy_request w1)) ;;
            emit (Print (LogBuyAt (Quote.ask (current_quote (fst w1))))))
           (fun e => emit (Print (LogException e)))
       else
         emit (Print (LogNoBuy (ask_hit w data) (bid_imbalance w) (can_buy w)))) ;;
      w2 <- get ;;
      (if sell_signal w2 data
       then
         try_except
           (modify mark_traded ;;
            w3 <- get ;;
            emit (CallSubmitOrder (sell_request w3)) ;;
            answer (submit_order api (sell_request w3)) ;;
            emit (Print (LogSellAt (Quote.bid (current_quote (fst w3))))))
           (fun e => emit (Print (LogException e)))
       else
         emit (Print (LogNoSell (bid_hit w2 data) (ask_imbalance w2) (can_sell w2))))
  end.

(** [del self.runner.orders[key]] *)
Definition del_order (key : string) : M world unit :=
  w <- get ;;
  match Py.del (Shared.orders (snd w)) key with
  | Some d => modify (set_orders d)
  | None => raise (KeyError key)
  end.

Definition on_order_settled (order : ref) : M world unit :=
  o <- deref order ;;
  emit (Print (LogOrderSettled o)) ;;
  w <- get ;;
  modify (set_position (position (fst w) + Order.directional_quantity o)) ;;
  del_order (Order.id o).

Definition on_order_cancelled (event : string) (order : ref) : M world unit :=
  o <- deref order ;;
  emit (Print (LogOrderCancelled event o)) ;;
  del_order (Order.id o).

Definition on_trade_updates (event : string) (order : ref) (data : Order.Data)
  : M world unit :=
  o <- deref order ;;
  w <- get ;;
  if negb (String.eqb (Order.symbol o) (symbol (fst w))) then ret tt
  else
    (if String.eqb event "fill" || String.eqb event "partial_fill"
     then
       modify (write_order order (Order.set_filled_quantity o (Order.filled_qty data))) ;;
       o' <- deref order ;;
       if Order.is_filled o' then on_order_settled order else ret tt
     else ret tt) ;;
    (if String.eqb event "canceled" || String.eqb event "rejected"
     then on_order_cancelled event order
     else ret tt).

End TickTakerStrategy.

(** ** class Runner *)

Module Runner.

(** [strategies] and [orders] of the source; [shared] holds [orders] and
    the Order objects. *)
Record t : Type := mk {
  strategies : list TickTakerStrategy.t;
  shared : Shared.t
}.

(** [Runner.__init__] *)
Definition init : t := mk [] (Shared.mk [] []).

Definition add_strategy (new : list TickTakerStrategy.t) (self : t) : t :=
  mk (strategies self ++ new) (shared self).

(** [for strategy in self.strategies: body], the body being a method of the
    strategy: it runs on each strategy in turn and on the shared part, and
    an exception ends the loop. *)
Fixpoint run_strategies (body : M TickTakerStrategy.world unit)
         (todo : list TickTakerStrategy.t) (sh : Shared.t)
  : (list TickTakerStrategy.t * Shared.t) * list Effect * (unit + exn) :=
  match todo with
  | [] => (([], sh), [], inl tt)
  | strategy :: rest =>
      match body (strategy, sh) with
      | ((strategy', sh'), out, inl _) =>
          match run_strategies body rest sh' with
          | ((rest', sh''), out', r) => ((strategy' :: rest', sh''), out ++ out', r)
          end
      | ((strategy', sh'), out, inr e) => ((strategy' :: rest, sh'), out, inr e)
      end
  end.

Definition for_strategies (body : M TickTakerStrategy.world unit) : M t unit :=
  fun self =>
    match run_strategies body (strategies self) (shared self) with
    | ((ss, sh), out, r) => (mk ss sh, out, r)
    end.

(** [start], up to [self.connection.run()].  [abort_if_closed] is the
    module constant [ABORT_IF_CLOSED]. *)
Definition start (abort_if_closed : bool) (api : REST) : M t unit :=
  emit (Print LogCreatingAPI) ;;
  emit CallGetClock ;;
  clock <- answer (get_clock api) ;;
  if abort_if_closed && negb (is_open clock)
  then emit (Print LogMarketsClosed)
  else
    let liquidate_at := (next_close clock - minutes5)%Z in
    emit (Print (LogWillLiquidate liquidate_at)) ;;
    for_strategies (TickTakerStrategy.start api) ;;
    self <- get ;;
    let symbols := map TickTakerStrategy.symbol (strategies self) in
    emit (Print (LogStartingConnection symbols)) ;;
    emit (SubscribeQuotes symbols) ;;
    emit (SubscribeTrades symbols) ;;
    emit SubscribeTradeUpdates ;;
    emit ConnectionRun.

(** The callback [on_quote] of [start]; [liquidate_at] is the variable it
    captures and [now] the reading of the clock. *)
Definition on_quote (api : REST) (liquidate_at now : Z) (data : Quote.Data)
  : M t unit :=
  let quote := Quote.from_data data in
  for_strategies (TickTakerStrategy.on_quote quote) ;;
  if (liquidate_at <=? now)%Z
  then
    emit ConnectionStop ;;
    for_strategies (TickTakerStrategy.stop api)
  else ret tt.

(** The callback [on_trade] of [start]. *)
Definition on_trade (api : REST) (data : Trade) : M t unit :=
  emit (Print (LogReceivedTrade (trade_symbol data) (size data) (price data))) ;;
  for_strategies (TickTakerStrategy.on_trade api data).

(** [self.orders[order_id] = Order.from_data(data)] *)
Definition register (data : Order.Data) (self : t) : t :=
  let '(h, r) := Heap.alloc (Shared.heap (shared self)) (Order.from_data data) in
  mk (strategies self) (Shared.mk h (Py.set (Shared.orders (shared self)) (Order.data_id data) r)).

(** [self.orders[order_id]], evaluated in the loop for each strategy. *)
Definition lookup (order_id : string) : M TickTakerStrategy.world ref :=
  w <- get ;;
  match Py.get (Shared.orders (snd w)) order_id with
  | Some r => ret r
  | None => raise (KeyError order_id)
  end.

(** The callback [on_trade_updates] of [start]. *)
Definition on_trade_updates (data : Order.Data) : M t unit :=
  let order_id := Order.data_id data in
  self <- get ;;
  (if negb (Py.contains (Shared.orders (shared self)) order_id)
   then modify (register data)
   else ret tt) ;;
  for_strategies
    (order <- lookup order_id ;;
     TickTakerStrategy.on_trade_updates (Order.event data) order data).

(** The notifications of the stream. *)
Inductive Event : Type :=
| QuoteEvent (now : Z) (data : Quote.Data)
| TradeEvent (data : Trade)
| TradeUpdateEvent (data : Order.Data).

Definition dispatch (api : REST) (liquidate_at : Z) (ev : Event) : M t unit :=
  match ev with
  | QuoteEvent now data => on_quote api liquidate_at now data
  | TradeEvent data => on_trade api data
  | TradeUpdateEvent data => on_trade_updates data
  end.

(** The notifications of a stream, handled one after the other; the run
    ends with the first exception that leaves a callback. *)
Definition run (api : REST) (liquidate_at : Z) (evs : list Event) : M t unit :=
  for_each evs (dispatch api liquidate_at).

End Runner.

(** ** Derived notions used by the statements *)

(** The strategy after a sequence of quote notifications. *)
Definition feed_quotes (qs : list Quote.t) (w : TickTakerStrategy.world)
  : TickTakerStrategy.world :=
  state_of (for_each qs TickTakerStrategy.on_quote w).

(** Signal evaluation is reached when the current quote is printed, the
    first statement after the four tests of [on_trade]. *)
Definition reaches_evaluation (out : list Effect) : Prop :=
  exists q, In (Print (LogCurrentQuote q)) out.

(** An order is submitted when [submit_order] is called. *)
Definition submits (out : list Effect) : Prop :=
  exists req, In (CallSubmitOrder req) out.

(** The four conditions under which [on_trade] goes on to evaluate the
    signals. *)
Definition passes_filters (self : TickTakerStrategy.t) (data : Trade) : Prop :=
  trade_symbol data = TickTakerStrategy.symbol self
  /\ Quote.has_traded (TickTakerStrategy.current_quote self) = false
  /\ (Quote.timestamp (TickTakerStrategy.current_quote self) + ms50 < trade_timestamp data)%Z
  /\ 100 <= size data.

(** A trade is blocked: nothing changes, nothing is evaluated or sent. *)
Definition blocked (api : REST) (data : Trade) (w : TickTakerStrategy.world) : Prop :=
  state_of (TickTakerStrategy.on_trade api data w) = w
  /\ result_of (TickTakerStrategy.on_trade api data w) = inl tt
  /\ ~ reaches_evaluation (output_of (TickTakerStrategy.on_trade api data w))
  /\ ~ submits (output_of (TickTakerStrategy.on_trade api data w)).

(** What the buy block and the sell block of [on_trade] print after the
    submission call, by its answer. *)
Definition buy_report (api : REST) (w : TickTakerStrategy.world) : LogLine :=
  match submit_order api (TickTakerStrategy.buy_request w) with
  | inl _ => LogBuyAt (Quote.ask (TickTakerStrategy.current_quote (fst w)))
  | inr e => LogException e
  end.

Definition sell_report (api : REST) (w : TickTakerStrategy.world) : LogLine :=
  match submit_order api (TickTakerStrategy.sell_request w) with
  | inl _ => LogSellAt (Quote.bid (TickTakerStrategy.current_quote (fst w)))
  | inr e => LogException e
  end.

(** The registry as [Runner.on_trade_updates] keeps it: every key is the id
    of the Order object registered under it, and that object exists. *)
Definition registry_wf (sh : Shared.t) : Prop :=
  NoDup (Py.keys (Shared.orders sh))
  /\ Forall (fun kr => exists o, Heap.read (Shared.heap sh) (snd kr) = Some o
                                /\ Order.id o = fst kr)
            (Shared.orders sh).

(** The objects behind a list of addresses. *)
Definition derefs (h : Heap.t) (rs : list ref) : list Order.t :=
  flat_map (fun r => match Heap.read h r with Some o => [o] | None => [] end) rs.

(** An entry of the dict that [Strategy.orders] builds. *)
Definition entry (o : Order.t) : string * Order.t := (Order.id o, o).

(** The Order objects of the registry, in its order. *)
Definition registered (sh : Shared.t) : list Order.t :=
  derefs (Shared.heap sh) (Py.values (Shared.orders sh)).

(** The live orders of a strategy: the registered orders for its symbol. *)
Definition live_orders (w : TickTakerStrategy.world) : list Order.t :=
  filter (fun o => String.eqb (Order.symbol o) (TickTakerStrategy.symbol (fst w)))
         (registered (snd w)).

(** The quantity of an order that is not filled yet, signed by its side. *)
Definition signed_pending (o : Order.t) : Q :=
  Order.pending o * (if Order.is_buy o then 1 else -1).

(** The filled quantity of an order, signed by its side. *)
Definition signed_filled (o : Order.t) : Q :=
  Order.filled_quantity o * (if Order.is_buy o then 1 else -1).

(** Total exposure as the glossary words it: the position plus the signed
    pending quantities of the live orders. *)
Definition pending_exposure (w : TickTakerStrategy.world) : Q :=
  TickTakerStrategy.position (fst w) + Py.sum (map signed_pending (live_orders w)).

(** The notification by which the broker first reports an order that was
    submitted with [req] and got the id [order_id]. *)
Definition acknowledgement (ev order_id : string) (req : OrderRequest) : Order.Data :=
  Order.mkData ev order_id (req_symbol req) (req_side req) (req_qty req) 0.

(** The orders that a run asked the broker for. *)
Definition submitted (out : list Effect) : list OrderRequest :=
  flat_map (fun x => match x with CallSubmitOrder req => [req] | _ => [] end) out.

(** The two kinds of event that [on_trade_updates] reacts to. *)
Definition is_fill (event : string) : Prop :=
  event = "fill"%string \/ event = "partial_fill"%string.

Definition is_cancel (event : string) : Prop :=
  event = "canceled"%string \/ event = "rejected"%string.

(** The Order objects that a strategy reaches. *)
Definition heap_of (w : TickTakerStrategy.world) : Heap.t := Shared.heap (snd w).

(** A computation of a strategy that writes to no Order object. *)
Definition keeps_heap {A : Type} (m : M TickTakerStrategy.world A) : Prop :=
  forall w, heap_of (state_of (m w)) = heap_of w.

(** Two states of one Order object: the fields set at construction are the
    same. *)
Definition same_order (o o' : Order.t) : Prop :=
  Order.id o' = Order.id o
  /\ Order.symbol o' = Order.symbol o
  /\ Order.side o' = Order.side o
  /\ Order.quantity o' = Order.quantity o.


(** From one heap to a later one while an order update of kind [ev] that
    notifies the filled quantity [x] is handled: every object is still there,
    is the same order, and its filled quantity is the old one or, on a fill,
    [x]. *)
Definition heap_step (ev : string) (x : Q) (h h' : Heap.t) : Prop :=
  forall r o, Heap.read h r = Some o ->
    exists o', Heap.read h' r = Some o'
               /\ same_order o o'
               /\ (Order.filled_quantity o' = Order.filled_quantity o
                   \/ (is_fill ev /\ Order.filled_quantity o' = x)).

(** The position queries that a run sent to the broker. *)
Definition position_queries (out : list Effect) : list string :=
  flat_map (fun x => match x with CallGetPosition s => [s] | _ => [] end) out.

(** What a run did to the stream: subscriptions, run and stop. *)
Definition is_stream_effect (x : Effect) : bool :=
  match x with
  | SubscribeQuotes _ | SubscribeTrades _ | SubscribeTradeUpdates
  | ConnectionRun | ConnectionStop => true
  | _ => false
  end.

Definition stream_effects (out : list Effect) : list Effect :=
  filter is_stream_effect out.

(** The broker knows the position of the strategy's symbol, or answers that
    there is none: the two answers with which [start] returns. *)
Definition position_known (api : REST) (s : TickTakerStrategy.t) : Prop :=
  match get_position api (TickTakerStrategy.symbol s) with
  | inl _ => True
  | inr (APIError code) => code = 40410000%Z
  | inr _ => False
  end.

(** A strategy after its [start], run beside the registry [sh]. *)
Definition started (api : REST) (sh : Shared.t) (s : TickTakerStrategy.t)
  : TickTakerStrategy.t :=
  fst (state_of (TickTakerStrategy.start api (s, sh))).

(** ** Concrete inputs

    The scenarios of the specification: a strategy for SNAP, a quote at
    10.00/10.01 with sizes 500/100 at time 1 s, a trade of 200 at 10.01
    100 ms later and a second one 10 ms after the first. *)

Module Scenario.

(** A broker that has no position for any symbol and accepts every call. *)
Definition broker : REST :=
  mkREST (inl (mkClock true 0 0 86400000000000))
         (fun _ => inr (APIError 40410000))
         (fun _ => inl tt)
         (fun _ => inl tt).

Definition snap (max_quantity : Q) : TickTakerStrategy.world :=
  (TickTakerStrategy.init "SNAP" max_quantity 100 0 0, Shared.mk [] []).

Definition quote1 : Quote.t :=
  Quote.from_data (Quote.mkData "SNAP" (1000 # 100) (1001 # 100) 500 100 1000000000).

Definition trade1 : Trade := mkTrade "SNAP" (1001 # 100) 200 1100000000.
Definition trade2 : Trade := mkTrade "SNAP" (1001 # 100) 200 1110000000.

(** The strategy once [quote1] is its current level. *)
Definition at_level1 (max_quantity : Q) : TickTakerStrategy.world :=
  state_of (TickTakerStrategy.on_quote quote1 (snap max_quantity)).

Definition buy_100_at_1001 : OrderRequest :=
  mkOrderRequest "SNAP" 100 "buy" "limit" "ioc" (1001 # 100).

(** Two levels, a buy signal on each, and only then the broker's first
    reports of the two orders; the cap is 100 shares. *)
Definition quote2_data : Quote.Data :=
  Quote.mkData "SNAP" (1001 # 100) (1002 # 100) 500 100 2000000000.

Definition trade3 : Trade := mkTrade "SNAP" (1002 # 100) 200 2100000000.

Definition buy_100_at_1002 : OrderRequest :=
  mkOrderRequest "SNAP" 100 "buy" "limit" "ioc" (1002 # 100).

Definition runner100 : Runner.t :=
  Runner.add_strategy [TickTakerStrategy.init "SNAP" 100 100 0 0] Runner.init.

Definition late_reports : list Runner.Event :=
  [Runner.QuoteEvent 0 (Quote.mkData "SNAP" (1000 # 100) (1001 # 100) 500 100 1000000000);
   Runner.TradeEvent trade1;
   Runner.QuoteEvent 0 quote2_data;
   Runner.TradeEvent trade3;
   Runner.TradeUpdateEvent (acknowledgement "new" "x1" buy_100_at_1001);
   Runner.TradeUpdateEvent (acknowledgement "new" "x2" buy_100_at_1002)].

(** The liquidation deadline of the runs, far in the future. *)
Definition liquidate_at : Z := 86100000000000.

(** A strategy with no position and one live buy order of 100 shares, 40 of
    them filled. *)
Definition partly_filled : TickTakerStrategy.world :=
  (TickTakerStrategy.init "SNAP" 500 100 0 0,
   Shared.mk [Order.mk "x1" "SNAP" "buy" 100 40] [("x1"%string, 0%nat)]).

(** The order of [partly_filled] and the notification of its last fill. *)
Definition order_x1 : Order.t := Order.mk "x1" "SNAP" "buy" 100 40.

Definition fill_x1 : Order.Data := Order.mkData "fill" "x1" "SNAP" "buy" 100 100.

(** A partial fill of the order x1 of 100 shares, with the filled quantity
    that the notification reports. *)
Definition partial_x1 (filled : Q) : Order.Data :=
  Order.mkData "partial_fill" "x1" "SNAP" "buy" 100 filled.

(** A Runner that has [partly_filled]'s strategy and registry. *)
Definition runner_x1 : Runner.t :=
  Runner.mk [fst partly_filled] (snd partly_filled).

(** A broker whose position query fails with the API error 500, and a
    Runner with two strategies. *)
Definition broker_500 : REST :=
  mkREST (inl (mkClock true 0 0 86400000000000))
         (fun _ => inr (APIError 500))
         (fun _ => inl tt)
         (fun _ => inl tt).

Definition runner_two : Runner.t :=
  Runner.add_strategy [TickTakerStrategy.init "SNAP" 500 100 0 0;
                       TickTakerStrategy.init "UVXY" 500 100 0 0] Runner.init.

(** A broker that reports the market closed. *)
Definition broker_closed : REST :=
  mkREST (inl (mkClock false 0 3600000000000 86400000000000))
         (fun _ => inr (APIError 40410000))
         (fun _ => inl tt)
         (fun _ => inl tt).


End Scenario.


(** ** Further notions used by the statements *)

(** The level changes that a run printed: the pairs (previous, current). *)
Definition level_change_prints (out : list Effect) : list (Quote.t * Quote.t) :=
  flat_map (fun x => match x with
                     | Print (LogLevelChange p c) => [(p, c)]
                     | _ => []
                     end) out.

(** The positions that a run asked the broker to close. *)
Definition closed_positions (out : list Effect) : list string :=
  flat_map (fun x => match x with CallClosePosition s => [s] | _ => [] end) out.

(** Two states of one strategy that differ at most in the position. *)
Definition same_but_position (s s' : TickTakerStrategy.t) : Prop :=
  TickTakerStrategy.symbol s' = TickTakerStrategy.symbol s
  /\ TickTakerStrategy.max_quantity s' = TickTakerStrategy.max_quantity s
  /\ TickTakerStrategy.quantity_per_trade s' = TickTakerStrategy.quantity_per_trade s
  /\ TickTakerStrategy.current_quote s' = TickTakerStrategy.current_quote s
  /\ TickTakerStrategy.previous_quote s' = TickTakerStrategy.previous_quote s
  /\ TickTakerStrategy.level_changes s' = TickTakerStrategy.level_changes s.

(** Two states of one strategy that differ at most in the attribute
    [traded] of the current quote. *)
Definition same_but_traded (s s' : TickTakerStrategy.t) : Prop :=
  s' = s \/ s' = fst (TickTakerStrategy.mark_traded (s, Shared.mk [] [])).

(** The current level of a strategy is the empty one of [__init__] (sizes 0)
    or a level of spread 0.01. *)
Definition level_ok (s : TickTakerStrategy.t) : Prop :=
  (Quote.bid_size (TickTakerStrategy.current_quote s) == 0
   /\ Quote.ask_size (TickTakerStrategy.current_quote s) == 0)
  \/ Quote.spread (TickTakerStrategy.current_quote s) == 1 # 100.

(** No quote of the strategy carries [has_traded]. *)
Definition never_traded (s : TickTakerStrategy.t) : Prop :=
  Quote.has_traded (TickTakerStrategy.current_quote s) = false
  /\ Quote.has_traded (TickTakerStrategy.previous_quote s) = false.

(** A strategy that holds 100 shares, at a level 10.00/10.01 with sizes
    100/500, and a trade of 200 at the bid. *)
Definition holding : TickTakerStrategy.world :=
  state_of
    (TickTakerStrategy.on_quote
       (Quote.from_data (Quote.mkData "SNAP" (1000 # 100) (1001 # 100) 100 500 1000000000))
       (TickTakerStrategy.set_position 100 (Scenario.snap 500))).

Definition trade_at_bid : Trade := mkTrade "SNAP" (1000 # 100) 200 1100000000.

Definition sell_100_at_1000 : OrderRequest :=
  mkOrderRequest "SNAP" 100 "sell" "limit" "ioc" (1000 # 100).

(** A computation of a strategy that changes at most its position. *)
Definition only_position {A : Type} (m : M TickTakerStrategy.world A) : Prop :=
  forall w, same_but_position (fst w) (fst (state_of (m w))).

(** Two states of one strategy with the same position, symbol and limits. *)
Definition same_position (s s' : TickTakerStrategy.t) : Prop :=
  TickTakerStrategy.position s' = TickTakerStrategy.position s
  /\ TickTakerStrategy.symbol s' = TickTakerStrategy.symbol s
  /\ TickTakerStrategy.max_quantity s' = TickTakerStrategy.max_quantity s
  /\ TickTakerStrategy.quantity_per_trade s' = TickTakerStrategy.quantity_per_trade s.

(** A property of a strategy that holds afterwards when it held before. *)
Definition keeps (P : TickTakerStrategy.t -> Prop) (s s' : TickTakerStrategy.t) : Prop :=
  P s -> P s'.

(** A strategy after [on_quote], run beside the registry [sh]. *)
Definition after_quote (quote : Quote.t) (sh : Shared.t) (s : TickTakerStrategy.t)
  : TickTakerStrategy.t :=
  fst (state_of (TickTakerStrategy.on_quote quote (s, sh))).

(** The broker closes the position of the strategy's symbol without error. *)
Definition can_close (api : REST) (s : TickTakerStrategy.t) : Prop :=
  close_position api (TickTakerStrategy.symbol s) = inl tt.

(** An update that ends the life of the order [o]: a cancellation or a
    rejection, or a fill whose notified filled quantity is the whole
    quantity. *)
Definition terminal (data : Order.Data) (o : Order.t) : Prop :=
  is_cancel (Order.event data)
  \/ (is_fill (Order.event data)
      /\ Order.is_filled (Order.set_filled_quantity o (Order.filled_qty data)) = true).

(** The UVXY strategy beside the registry of [Scenario.partly_filled], and a
    notification that cancels its order x1. *)
Definition uvxy_beside_x1 : TickTakerStrategy.world :=
  (TickTakerStrategy.init "UVXY" 500 100 0 0, snd Scenario.partly_filled).

Definition cancel_x1 : Order.Data := Order.mkData "canceled" "x1" "SNAP" "buy" 100 40.

Definition partial_60_x1 : Order.Data := Order.mkData "partial_fill" "x1" "SNAP" "buy" 100 60.

(** A first report for a UVXY order. *)
Definition new_uvxy : Order.Data := Order.mkData "new" "u1" "uvxy" "buy" 50 0.

(** A Runner with the strategies for SNAP and UVXY and the registry of
    [Scenario.partly_filled]. *)
Definition runner_two_x1 : Runner.t :=
  Runner.mk (Runner.strategies Scenario.runner_two) (snd Scenario.partly_filled).

(** The notification of the complete fill of an order that the registry
    does not know (yet, or any longer). *)
Definition fill_y1 : Order.Data := Order.mkData "fill" "y1" "SNAP" "buy" 100 100.

(** ** Order objects over a stream *)

(** The filled quantity of an order lies between 0 and its quantity. *)
Definition within_quantity (o : Order.t) : Prop :=
  0 <= Order.filled_quantity o /\ Order.filled_quantity o <= Order.quantity o.

(** An order update as a broker that reports cumulative fills in order sends
    it; only a fill or partial fill is constrained, the code reading the
    notified filled quantity of no other event.  For an order of the
    registry, the filled quantity that a fill notifies is not below the one
    the Order object holds and not above the order's quantity.  For an id
    that the registry does not know, the notified quantity, from which the
    new Order object is built, is not negative, and the filled quantity that
    a fill notifies lies between 0 and it. *)
Definition well_formed (data : Order.Data) (sh : Shared.t) : Prop :=
  match Py.get (Shared.orders sh) (Order.data_id data) with
  | Some r =>
      match Heap.read (Shared.heap sh) r with
      | Some o =>
          is_fill (Order.event data) ->
          Order.filled_quantity o <= Order.filled_qty data
          /\ Order.filled_qty data <= Order.quantity o
      | None => True
      end
  | None =>
      0 <= Order.qty data
      /\ (is_fill (Order.event data) ->
          0 <= Order.filled_qty data /\ Order.filled_qty data <= Order.qty data)
  end.

(** The Runner after the callback of one notification, and after those of a
    list of notifications, whether or not a callback raised. *)
Definition after_event (api : REST) (liquidate_at : Z) (rn : Runner.t) (ev : Runner.Event)
  : Runner.t :=
  state_of (Runner.dispatch api liquidate_at ev rn).

Definition after_events (api : REST) (liquidate_at : Z) (evs : list Runner.Event)
           (rn : Runner.t) : Runner.t :=
  fold_left (after_event api liquidate_at) evs rn.

(** A stream whose order updates are each well formed when they arrive. *)
Fixpoint well_formed_stream (api : REST) (liquidate_at : Z) (evs : list Runner.Event)
         (rn : Runner.t) : Prop :=
  match evs with
  | [] => True
  | ev :: rest =>
      match ev with
      | Runner.TradeUpdateEvent data => well_formed data (Runner.shared rn)
      | _ => True
      end
      /\ well_formed_stream api liquidate_at rest (after_event api liquidate_at rn ev)
  end.

(** From one state of the registry and the Order objects to a later one
    while the update [data] is handled: no object is added, no id is added to
    the registry, and every object is the same order with the filled
    quantity it had or, if [data] is a fill and the object is the one
    registered under the id of [data], the notified one. *)
Definition update_step (data : Order.Data) (sh sh' : Shared.t) : Prop :=
  List.length (Shared.heap sh') = List.length (Shared.heap sh)
  /\ (forall k r, Py.get (Shared.orders sh') k = Some r ->
                  Py.get (Shared.orders sh) k = Some r)
  /\ (forall r o, Heap.read (Shared.heap sh) r = Some o ->
        exists o', Heap.read (Shared.heap sh') r = Some o'
                   /\ same_order o o'
                   /\ (Order.filled_quantity o' = Order.filled_quantity o
                       \/ (is_fill (Order.event data)
                           /\ Py.get (Shared.orders sh) (Order.data_id data) = Some r
                           /\ Order.filled_quantity o' = Order.filled_qty data))).

(** An Order object at two times: the same order, its filled quantity not
    smaller at the later one. *)
Definition grown (o o' : Order.t) : Prop :=
  same_order o o' /\ Order.filled_quantity o <= Order.filled_quantity o'.

(** Every Order object of [h] is in [h'], grown. *)
Definition heap_grown (h h' : Heap.t) : Prop :=
  forall r o, Heap.read h r = Some o ->
    exists o', Heap.read h' r = Some o' /\ grown o o'.

(** A stream for the order x1 of [Scenario.runner100], in two parts: the
    first report, a quote and a partial fill of 40; then a trade and the fill
    of all 100. *)
Definition stream_x1_begin : list Runner.Event :=
  [Runner.TradeUpdateEvent (Order.mkData "new" "x1" "SNAP" "buy" 100 0);
   Runner.QuoteEvent 0 (Quote.mkData "SNAP" (1000 # 100) (1001 # 100) 500 100 1000000000);
   Runner.TradeUpdateEvent (Scenario.partial_x1 40)].

Definition stream_x1_end : list Runner.Event :=
  [Runner.TradeEvent Scenario.trade1;
   Runner.TradeUpdateEvent Scenario.fill_x1].

(** A Runner whose SNAP strategy, capped at 100 shares, holds 100 shares
    beside a live sell order s1 of 100; and a stream in which a buy is
    submitted on a level, the sell order is canceled, and only then the buy
    order is first reported. *)
Definition runner_short : Runner.t :=
  Runner.mk [fst (TickTakerStrategy.set_position 100 (Scenario.snap 100))]
            (Shared.mk [Order.mk "s1" "SNAP" "sell" 100 0] [("s1"%string, 0%nat)]).

Definition cancel_between : list Runner.Event :=
  [Runner.QuoteEvent 0 (Quote.mkData "SNAP" (1000 # 100) (1001 # 100) 500 100 1000000000);
   Runner.TradeEvent Scenario.trade1;
   Runner.TradeUpdateEvent (Order.mkData "canceled" "s1" "SNAP" "sell" 100 0);
   Runner.TradeUpdateEvent (acknowledgement "new" "x1" Scenario.buy_100_at_1001)].
(** * Properties *)

(** ** Equations of the monad *)

Section MonadEquations.

Context {S A : Type}.

Lemma bind_ret {B : Type} (a : B) (k : B -> M S A) (s : S) : bind (ret a) k s = k a s.
Proof. unfold bind, ret. destruct (k a s) as [[s2 out2] r]. reflexivity. Qed.

Lemma bind_get (k : S -> M S A) (s : S) : bind get k s = k s s.
Proof. unfold bind, get. destruct (k s s) as [[s2 out2] r]. reflexivity. Qed.

Lemma bind_modify (f : S -> S) (k : unit -> M S A) (s : S) :
  bind (modify f) k s = k tt (f s).
Proof. unfold bind, modify. destruct (k tt (f s)) as [[s2 out2] r]. reflexivity. Qed.

Lemma bind_emit (x : Effect) (k : unit -> M S A) (s : S) :
  bind (emit x) k s =
    (state_of (k tt s), x :: output_of (k tt s), result_of (k tt s)).
Proof. unfold bind, emit. destruct (k tt s) as [[s2 out2] r]. reflexivity. Qed.

Lemma bind_raise {B : Type} (e : exn) (k : B -> M S A) (s : S) :
  bind (raise e) k s = (s, [], inr e).
Proof. reflexivity. Qed.

Lemma bind_eq {B : Type} (m : M S B) (k : B -> M S A) (s s1 : S)
      (out1 : list Effect) (a : B) :
  m s = (s1, out1, inl a) ->
  bind m k s = (state_of (k a s1), out1 ++ output_of (k a s1), result_of (k a s1)).
Proof.
  intros E. unfold bind. rewrite E. destruct (k a s1) as [[s2 out2] r]. reflexivity.
Qed.

Lemma bind_eq_raised {B : Type} (m : M S B) (k : B -> M S A) (s s1 : S)
      (out1 : list Effect) (e : exn) :
  m s = (s1, out1, inr e) -> bind m k s = (s1, out1, inr e).
Proof. intros E. unfold bind. rewrite E. reflexivity. Qed.

Lemma bind_silent {B : Type} (m : M S B) (k : B -> M S A) (s s1 : S) (a : B) :
  m s = (s1, [], inl a) -> bind m k s = k a s1.
Proof.
  intros E. unfold bind. rewrite E. destruct (k a s1) as [[s2 out2] r]. reflexivity.
Qed.

Lemma bind_ret_tt (m : M S unit) (s : S) : bind m (fun _ => ret tt) s = m s.
Proof.
  unfold bind, ret. destruct (m s) as [[s1 out1] [[]|e]]; [|reflexivity].
  rewrite app_nil_r. reflexivity.
Qed.

Lemma bind_assoc {B C : Type} (m : M S B) (k1 : B -> M S C) (k2 : C -> M S A) (s : S) :
  bind (bind m k1) k2 s = bind m (fun a => bind (k1 a) k2) s.
Proof.
  unfold bind. destruct (m s) as [[s1 out1] [a|e]]; [|reflexivity].
  destruct (k1 a s1) as [[s2 out2] [c|e]]; [|reflexivity].
  destruct (k2 c s2) as [[s3 out3] r]. rewrite app_assoc. reflexivity.
Qed.

Lemma state_of_bind {B : Type} (m : M S B) (k : B -> M S A) (s : S) :
  state_of (bind m k s)
  = match result_of (m s) with
    | inl a => state_of (k a (state_of (m s)))
    | inr _ => state_of (m s)
    end.
Proof.
  unfold bind. destruct (m s) as [[s1 out1] [a|e]]; [|reflexivity].
  cbn [state_of result_of fst snd].
  destruct (k a s1) as [[s2 out2] r]. reflexivity.
Qed.

Lemma run_eta (r : S * list Effect * (A + exn)) :
  r = (state_of r, output_of r, result_of r).
Proof. destruct r as [[s o] x]. reflexivity. Qed.

End MonadEquations.

(** ** Quote handling: level changes *)

Section LevelChange.

Import TickTakerStrategy.

(** What [on_quote] does, in one equation. *)
Lemma on_quote_eq (quote : Quote.t) (w : world) :
  on_quote quote w =
    if level_changed (fst w) quote
    then (shift_level quote w,
          [Print (LogLevelChange (current_quote (fst w)) quote)], inl tt)
    else (w, [], inl tt).
Proof.
  unfold on_quote, bind, get, modify, emit, ret; cbn.
  destruct (level_changed (fst w) quote); reflexivity.
Qed.

Lemma for_each_on_quote_returns (qs : list Quote.t) (w : world) :
  result_of (for_each qs on_quote w) = inl tt.
Proof.
  revert w; induction qs as [|q qs IH]; intros w; [reflexivity|].
  cbn [for_each]; unfold bind. rewrite on_quote_eq.
  destruct (level_changed (fst w) q);
    [specialize (IH (shift_level q w)) | specialize (IH w)];
    destruct (for_each qs on_quote _) as [[s o] r]; exact IH.
Qed.

Lemma feed_quotes_cons (q : Quote.t) (qs : list Quote.t) (w : world) :
  feed_quotes (q :: qs) w = feed_quotes qs (state_of (on_quote q w)).
Proof.
  unfold feed_quotes; cbn [for_each]; unfold bind. rewrite on_quote_eq.
  destruct (level_changed (fst w) q); cbn [state_of fst];
    destruct (for_each qs on_quote _) as [[s o] r]; reflexivity.
Qed.

Lemma feed_quotes_app (qs1 qs2 : list Quote.t) (w : world) :
  feed_quotes (qs1 ++ qs2) w = feed_quotes qs2 (feed_quotes qs1 w).
Proof.
  revert w; induction qs1 as [|q qs1 IH]; intros w; [reflexivity|].
  rewrite <- app_comm_cons, !feed_quotes_cons. apply IH.
Qed.

Lemma feed_quotes_rejected (qs : list Quote.t) (w : world) :
  Forall (fun q => level_changed (fst w) q = false) qs ->
  feed_quotes qs w = w.
Proof.
  induction 1 as [|q qs Hq _ IH]; [reflexivity|].
  rewrite feed_quotes_cons, on_quote_eq, Hq. exact IH.
Qed.

(** The sequence either holds no quote that changes the level, or splits
    around the last one that does. *)
Lemma feed_quotes_last (qs : list Quote.t) (w : world) :
  (Forall (fun q => level_changed (fst w) q = false) qs /\ feed_quotes qs w = w)
  \/ exists pre q post,
      qs = pre ++ q :: post
      /\ level_changed (fst (feed_quotes pre w)) q = true
      /\ Forall (fun q' => level_changed (fst (shift_level q (feed_quotes pre w))) q' = false) post
      /\ feed_quotes qs w = shift_level q (feed_quotes pre w).
Proof.
  induction qs as [|x qs IH] using rev_ind.
  - left; split; [constructor | reflexivity].
  - rewrite feed_quotes_app.
    assert (Hstep : feed_quotes [x] (feed_quotes qs w) =
                    state_of (on_quote x (feed_quotes qs w))) by apply feed_quotes_cons.
    rewrite Hstep, on_quote_eq.
    destruct (level_changed (fst (feed_quotes qs w)) x) eqn:Hx; cbn [state_of fst].
    + right; exists qs, x, []. repeat split; trivial.
    + destruct IH as [[Hall Hw] | (pre & q & post & -> & Hq & Hpost & Hw)].
      * left; split; [|exact Hw].
        apply Forall_app; split; [exact Hall|].
        constructor; [|constructor]. rewrite <- Hw; exact Hx.
      * right; exists pre, q, (post ++ [x]).
        rewrite <- app_assoc, <- app_comm_cons. repeat split; trivial.
        apply Forall_app; split; [exact Hpost|].
        constructor; [|constructor]. rewrite <- Hw; exact Hx.
Qed.

(** C5. A quote is accepted exactly when its bid differs from the tracked
    bid, its ask differs from the tracked ask and its spread is 0.01.  A quote
    that fails the test leaves the strategy (current, previous, level_changes
    and all the rest) as it was; an accepted quote becomes current, the old
    current becomes previous and level_changes grows by one.  After any
    sequence of quotes, either none was accepted and nothing changed, or the
    sequence splits around the last accepted quote, which is then current. *)
Theorem level_change_determinism (qs : list Quote.t) (quote : Quote.t) (w : world) :
  (level_changed (fst w) quote = true <->
     ~ Quote.bid (current_quote (fst w)) == Quote.bid quote
     /\ ~ Quote.ask (current_quote (fst w)) == Quote.ask quote
     /\ Quote.spread quote == 1 # 100)
  /\ (level_changed (fst w) quote = false -> on_quote quote w = (w, [], inl tt))
  /\ (level_changed (fst w) quote = true ->
      let w' := state_of (on_quote quote w) in
      result_of (on_quote quote w) = inl tt
      /\ current_quote (fst w') = quote
      /\ previous_quote (fst w') = current_quote (fst w)
      /\ level_changes (fst w') = (level_changes (fst w) + 1)%Z
      /\ position (fst w') = position (fst w)
      /\ snd w' = snd w)
  /\ (let w' := feed_quotes qs w in
      (Forall (fun q => level_changed (fst w) q = false) qs /\ w' = w)
      \/ exists pre q post,
          qs = pre ++ q :: post
          /\ level_changed (fst (feed_quotes pre w)) q = true
          /\ Forall (fun q' => level_changed (fst w') q' = false) post
          /\ current_quote (fst w') = q
          /\ previous_quote (fst w') = current_quote (fst (feed_quotes pre w))
          /\ level_changes (fst w') = (level_changes (fst (feed_quotes pre w)) + 1)%Z).
Proof.
  split; [|split; [|split]].
  - unfold level_changed. rewrite !andb_true_iff, !negb_true_iff, Qeq_bool_iff.
    rewrite <- !not_true_iff_false, !Qeq_bool_iff. tauto.
  - intros H. rewrite on_quote_eq, H. reflexivity.
  - intros H. rewrite on_quote_eq, H. cbn. repeat split.
  - cbv zeta. destruct (feed_quotes_last qs w)
      as [H | (pre & q & post & Hqs & Hq & Hpost & Hw)]; [left; exact H|].
    right; exists pre, q, post. rewrite Hw. repeat split; trivial.
Qed.

(** Scenario 1: the quote 10.00/10.01 has the spread 0.01 and is accepted
    by a fresh strategy, whose current quote is 0/0. *)
Example scenario_quote_accepted :
  Quote.spread Scenario.quote1 == 1 # 100
  /\ level_changed (fst (Scenario.snap 500)) Scenario.quote1 = true
  /\ current_quote (fst (Scenario.at_level1 500)) = Scenario.quote1.
Proof. repeat split. Qed.

End LevelChange.

(** ** Trade handling: the four filters *)

Section TradeFilters.

Import TickTakerStrategy.

Lemma Qlt_bool_iff (x y : Q) : Py.Qlt_bool x y = true <-> x < y.
Proof.
  unfold Py.Qlt_bool. rewrite negb_true_iff, <- not_true_iff_false, Qle_bool_iff.
  split; [apply Qnot_le_lt | apply Qlt_not_le].
Qed.

Lemma Qlt_bool_false_iff (x y : Q) : Py.Qlt_bool x y = false <-> y <= x.
Proof.
  unfold Py.Qlt_bool. rewrite negb_false_iff. apply Qle_bool_iff.
Qed.

Lemma ignore_trade_None (self : t) (data : Trade) :
  ignore_trade self data = None <-> passes_filters self data.
Proof.
  unfold ignore_trade, passes_filters.
  destruct (String.eqb_spec (trade_symbol data) (symbol self)) as [Hs|Hs]; cbn [negb].
  2:{ split; [discriminate | intros [H _]; contradiction]. }
  destruct (Quote.has_traded (current_quote self)).
  { split; [discriminate | intros (_ & H & _); discriminate]. }
  destruct (Z.leb_spec (trade_timestamp data) (Quote.timestamp (current_quote self) + ms50)) as [Ht|Ht].
  { split; [discriminate | intros (_ & _ & H & _); lia]. }
  destruct (Py.Qlt_bool (size data) 100) eqn:Hz.
  - apply Qlt_bool_iff in Hz.
    split; [discriminate | intros (_ & _ & _ & H); exfalso; lra].
  - apply Qlt_bool_false_iff in Hz. split; [intros _; auto | reflexivity].
Qed.

(** A trade that fails a test only prints why. *)
Lemma on_trade_ignored (api : REST) (data : Trade) (w : world) (lines : list LogLine) :
  ignore_trade (fst w) data = Some lines ->
  on_trade api data w = (w, map Print lines, inl tt)
  /\ Forall (fun l => l = LogIgnoreAlreadyTraded \/ l = LogIgnoreTooRecent
                      \/ l = LogIgnoreTooSmall) lines.
Proof.
  intros H. unfold on_trade, bind, get; cbn. rewrite H.
  unfold ignore_trade in H.
  repeat match type of H with
         | (if ?c then _ else _) = _ => destruct c
         end; inversion H; subst; cbn;
    (split; [reflexivity | repeat (apply Forall_cons; [auto|]); apply Forall_nil]).
Qed.

Lemma on_trade_ignored_blocked (api : REST) (data : Trade) (w : world) :
  ignore_trade (fst w) data <> None -> blocked api data w.
Proof.
  destruct (ignore_trade (fst w) data) as [lines|] eqn:H; [intros _ | congruence].
  destruct (on_trade_ignored api data w lines H) as [E Hl].
  unfold blocked. rewrite E; cbn. repeat split.
  - intros [q Hq]. apply in_map_iff in Hq. destruct Hq as (l & El & Hin).
    rewrite Forall_forall in Hl. destruct (Hl l Hin) as [->| [->| ->]]; discriminate.
  - intros [q Hq]. apply in_map_iff in Hq. destruct Hq as (l & El & _). discriminate.
Qed.

(** A trade that passes the tests gets to the evaluation of the signals. *)
Lemma on_trade_evaluated (api : REST) (data : Trade) (w : world) :
  ignore_trade (fst w) data = None ->
  exists rest,
    output_of (on_trade api data w) = Print (LogCurrentQuote (current_quote (fst w))) :: rest.
Proof.
  intros H. unfold on_trade. rewrite bind_get, H, bind_emit.
  eexists. reflexivity.
Qed.

End TradeFilters.

(** ** Trade handling: the signals *)

Section Signals.

Import TickTakerStrategy.

(** The buy block of [on_trade]: the quote is marked, the order is sent, and
    an exception of the broker is printed and dropped. *)
Lemma buy_block_eq (api : REST) (w : world) :
  try_except
    (modify mark_traded ;;
     w1 <- get ;;
     emit (CallSubmitOrder (buy_request w1)) ;;
     answer (submit_order api (buy_request w1)) ;;
     emit (Print (LogBuyAt (Quote.ask (current_quote (fst w1))))))
    (fun e => emit (Print (LogException e))) w
  = (mark_traded w,
     [CallSubmitOrder (buy_request (mark_traded w)); Print (buy_report api (mark_traded w))],
     inl tt).
Proof.
  unfold try_except, buy_report. rewrite bind_modify, bind_get, bind_emit.
  unfold bind, answer, emit, ret, raise.
  destruct (submit_order api (buy_request (mark_traded w))) as [[]|e]; reflexivity.
Qed.

Lemma sell_block_eq (api : REST) (w : world) :
  try_except
    (modify mark_traded ;;
     w3 <- get ;;
     emit (CallSubmitOrder (sell_request w3)) ;;
     answer (submit_order api (sell_request w3)) ;;
     emit (Print (LogSellAt (Quote.bid (current_quote (fst w3))))))
    (fun e => emit (Print (LogException e))) w
  = (mark_traded w,
     [CallSubmitOrder (sell_request (mark_traded w)); Print (sell_report api (mark_traded w))],
     inl tt).
Proof.
  unfold try_except, sell_report. rewrite bind_modify, bind_get, bind_emit.
  unfold bind, answer, emit, ret, raise.
  destruct (submit_order api (sell_request (mark_traded w))) as [[]|e]; reflexivity.
Qed.

(** [on_trade] on a trade that passes the four tests. *)
Lemma on_trade_eq (api : REST) (data : Trade) (w : world) :
  ignore_trade (fst w) data = None ->
  on_trade api data w =
    let w1 := if buy_signal w data then mark_traded w else w in
    let out1 :=
      if buy_signal w data
      then [CallSubmitOrder (buy_request (mark_traded w));
            Print (buy_report api (mark_traded w))]
      else [Print (LogNoBuy (ask_hit w data) (bid_imbalance w) (can_buy w))] in
    let w2 := if sell_signal w1 data then mark_traded w1 else w1 in
    let out2 :=
      if sell_signal w1 data
      then [CallSubmitOrder (sell_request (mark_traded w1));
            Print (sell_report api (mark_traded w1))]
      else [Print (LogNoSell (bid_hit w1 data) (ask_imbalance w1) (can_sell w1))] in
    (w2, Print (LogCurrentQuote (current_quote (fst w))) :: out1 ++ out2, inl tt).
Proof.
  intros H. unfold on_trade. rewrite bind_get, H, bind_emit. cbv zeta.
  destruct (buy_signal w data).
  - rewrite (bind_eq _ _ _ _ _ _ (buy_block_eq api w)), bind_get.
    destruct (sell_signal (mark_traded w) data).
    + rewrite sell_block_eq. reflexivity.
    + reflexivity.
  - rewrite bind_emit, bind_get.
    destruct (sell_signal w data).
    + rewrite sell_block_eq. reflexivity.
    + reflexivity.
Qed.

Lemma mark_traded_idem (w : world) : mark_traded (mark_traded w) = mark_traded w.
Proof. reflexivity. Qed.

(** [on_trade] changes nothing but the attribute [traded] of the current
    quote. *)
Lemma on_trade_state (api : REST) (data : Trade) (w : world) :
  state_of (on_trade api data w) = w \/ state_of (on_trade api data w) = mark_traded w.
Proof.
  destruct (ignore_trade (fst w) data) as [lines|] eqn:H.
  - destruct (on_trade_ignored api data w lines H) as [E _]. rewrite E. left; reflexivity.
  - rewrite (on_trade_eq api data w H). cbv zeta.
    destruct (buy_signal w data).
    + right. destruct (sell_signal (mark_traded w) data); reflexivity.
    + destruct (sell_signal w data); [right | left]; reflexivity.
Qed.

Lemma on_trade_returns (api : REST) (data : Trade) (w : world) :
  result_of (on_trade api data w) = inl tt.
Proof.
  destruct (ignore_trade (fst w) data) as [lines|] eqn:H.
  - destruct (on_trade_ignored api data w lines H) as [E _]. rewrite E. reflexivity.
  - rewrite (on_trade_eq api data w H). reflexivity.
Qed.

(** C4. A trade notification is acted upon if and only if its instrument is
    the strategy's, the current level has not traded, its timestamp is later
    than the current quote's plus 50 ms, and its size is at least 100.  Acted
    upon means: the current quote is printed, both signals are evaluated, and
    [on_trade] submits the buy request exactly when the buy signal holds and
    the sell request exactly when the sell signal holds, marks the quote when
    either holds, and returns.  Each of the four opposite conditions alone
    blocks the trade: the strategy and the registry are unchanged, [on_trade]
    returns, nothing is evaluated and no order is submitted. *)
Theorem trade_ignore_completeness (api : REST) (data : Trade) (w : world) :
  (reaches_evaluation (output_of (on_trade api data w)) <-> passes_filters (fst w) data)
  /\ (passes_filters (fst w) data ->
      result_of (on_trade api data w) = inl tt
      /\ submitted (output_of (on_trade api data w))
         = (if buy_signal w data then [buy_request w] else [])
           ++ (if sell_signal w data then [sell_request w] else [])
      /\ state_of (on_trade api data w)
         = if buy_signal w data || sell_signal w data then mark_traded w else w)
  /\ (trade_symbol data <> symbol (fst w) -> blocked api data w)
  /\ (Quote.has_traded (current_quote (fst w)) = true -> blocked api data w)
  /\ ((trade_timestamp data <= Quote.timestamp (current_quote (fst w)) + ms50)%Z ->
      blocked api data w)
  /\ (size data < 100 -> blocked api data w).
Proof.
  split; [|split].
  - rewrite <- ignore_trade_None. split.
    + intros Hr. destruct (ignore_trade (fst w) data) eqn:H; [|reflexivity].
      exfalso. assert (Hb : blocked api data w)
        by (apply on_trade_ignored_blocked; congruence).
      destruct Hb as (_ & _ & Hn & _). exact (Hn Hr).
    + intros H. destruct (on_trade_evaluated api data w H) as [rest E].
      exists (current_quote (fst w)). rewrite E. left; reflexivity.
  - intros Hp. apply ignore_trade_None in Hp.
    rewrite (on_trade_eq api data w Hp). cbv zeta.
    destruct (buy_signal w data).
    + change (sell_signal (mark_traded w) data) with (sell_signal w data).
      destruct (sell_signal w data);
        (split; [reflexivity|split; [reflexivity|]]);
        cbn [state_of fst orb]; [apply mark_traded_idem | reflexivity].
    + destruct (sell_signal w data);
        (split; [reflexivity|split; reflexivity]).
  - split; [|split; [|split]]; intros Hc; apply on_trade_ignored_blocked;
      rewrite ignore_trade_None; unfold passes_filters; intros (H1 & H2 & H3 & H4).
    + contradiction.
    + congruence.
    + lia.
    + lra.
Qed.

Lemma trade_ignore_completeness_witness :
  passes_filters (fst (Scenario.at_level1 500)) Scenario.trade1
  /\ buy_signal (Scenario.at_level1 500) Scenario.trade1 = true
  /\ submitted (output_of (on_trade Scenario.broker Scenario.trade1 (Scenario.at_level1 500)))
     = [Scenario.buy_100_at_1001].
Proof.
  assert (Hp : passes_filters (fst (Scenario.at_level1 500)) Scenario.trade1).
  { split; [reflexivity|]. split; [reflexivity|]. split; [reflexivity|].
    vm_compute. discriminate. }
  split; [exact Hp|]. split; [reflexivity|].
  destruct (proj1 (proj2 (trade_ignore_completeness Scenario.broker Scenario.trade1
                            (Scenario.at_level1 500))) Hp) as (_ & Hsub & _).
  rewrite Hsub. reflexivity.
Defined.

(** C1. [on_trade] assigns the attribute [traded], which nothing reads, and
    never [has_traded], which its second test reads: for every trade the
    current quote's [has_traded] is after the call what it was before.  In
    the scenario of the specification the first trade at 10.01 submits a buy
    of 100 and leaves [has_traded] false, and the second trade on the same
    level, 10 ms later, submits the same buy again. *)
Theorem has_traded_never_set :
  (forall (api : REST) (data : Trade) (w : world),
      Quote.has_traded (current_quote (fst (state_of (on_trade api data w))))
      = Quote.has_traded (current_quote (fst w)))
  /\ (let first := on_trade Scenario.broker Scenario.trade1 (Scenario.at_level1 500) in
      let second := on_trade Scenario.broker Scenario.trade2 (state_of first) in
      In (CallSubmitOrder Scenario.buy_100_at_1001) (output_of first)
      /\ Quote.has_traded (current_quote (fst (state_of first))) = false
      /\ Quote.traded (current_quote (fst (state_of first))) = Some true
      /\ In (CallSubmitOrder Scenario.buy_100_at_1001) (output_of second)).
Proof.
  split.
  - intros api data w.
    destruct (on_trade_state api data w) as [-> | ->]; reflexivity.
  - vm_compute. repeat split; auto.
Qed.

End Signals.

(** ** The registry and the orders of a strategy *)

Section Registry.

Import TickTakerStrategy.

Lemma get_None_keys {V : Type} (d : Py.dict V) (k : string) :
  Py.get d k = None <-> ~ In k (Py.keys d).
Proof.
  induction d as [|[k' v] d IH]; cbn.
  - tauto.
  - destruct (String.eqb_spec k' k) as [->|Hne].
    + split; [discriminate | intros H; exfalso; apply H; left; reflexivity].
    + rewrite IH. split; [intros H [E|Hin]; [congruence | exact (H Hin)] | tauto].
Qed.

Lemma set_fresh {V : Type} (d : Py.dict V) (k : string) (v : V) :
  ~ In k (Py.keys d) -> Py.set d k v = d ++ [(k, v)].
Proof.
  induction d as [|[k' v'] d IH]; cbn; intros H; [reflexivity|].
  destruct (String.eqb_spec k' k) as [->|Hne]; [exfalso; apply H; left; reflexivity|].
  rewrite IH; [reflexivity | tauto].
Qed.

Lemma keys_of_entries (l : list Order.t) :
  map (fun x => fst (entry x)) l = map Order.id l.
Proof. reflexivity. Qed.

Lemma fold_collect (w : world) (rs : list ref) (acc : list Order.t) :
  NoDup (map Order.id acc ++ map Order.id (derefs (Shared.heap (snd w)) rs)) ->
  fold_left (collect w) rs (map entry acc)
  = map entry
        (acc ++ filter (fun o => String.eqb (Order.symbol o) (symbol (fst w)))
                       (derefs (Shared.heap (snd w)) rs)).
Proof.
  unfold derefs.
  revert acc; induction rs as [|r rs IH]; intros acc Hnd; cbn [fold_left flat_map] in *.
  - rewrite app_nil_r. reflexivity.
  - unfold collect at 2.
    destruct (Heap.read (Shared.heap (snd w)) r) as [o|]; cbn [app map filter] in *.
    + destruct (String.eqb (Order.symbol o) (symbol (fst w))).
      * rewrite set_fresh.
        2:{ unfold Py.keys. rewrite map_map; cbn. rewrite keys_of_entries.
            apply NoDup_remove_2 in Hnd. intros Hin; apply Hnd.
            apply in_or_app; left; exact Hin. }
        change [(Order.id o, o)] with (map entry [o]). rewrite <- map_app.
        rewrite IH.
        -- rewrite <- app_assoc. reflexivity.
        -- rewrite map_app, <- app_assoc. exact Hnd.
      * apply IH. apply NoDup_remove_1 in Hnd. exact Hnd.
    + apply IH. exact Hnd.
Qed.

Lemma registered_ids (sh : Shared.t) :
  registry_wf sh -> map Order.id (registered sh) = Py.keys (Shared.orders sh).
Proof.
  intros [_ Hall]. unfold registered, derefs, Py.values, Py.keys.
  induction Hall as [|[k r] d (o & Hr & Hid) _ IH]; cbn in *; [reflexivity|].
  rewrite Hr; cbn. rewrite Hid, IH. reflexivity.
Qed.

(** With a well-formed registry the orders of a strategy are the registered
    orders for its symbol, in the order of the registry. *)
Lemma orders_wf (w : world) :
  registry_wf (snd w) -> Py.values (orders w) = live_orders w.
Proof.
  intros Hwf. unfold orders.
  change (@nil (string * Order.t)) with (map entry []).
  rewrite fold_collect.
  - unfold Py.values. rewrite map_map. cbn. apply map_id.
  - cbn. fold (registered (snd w)). rewrite registered_ids by exact Hwf.
    apply Hwf.
Qed.

Lemma total_position_wf (w : world) :
  registry_wf (snd w) ->
  total_position w
  = position (fst w) + Py.sum (map Order.directional_quantity (live_orders w)).
Proof. intros Hwf. unfold total_position. rewrite orders_wf by exact Hwf. reflexivity. Qed.

Lemma fold_Qplus_shift (l : list Q) (a : Q) :
  fold_left Qplus l a == a + fold_left Qplus l 0.
Proof.
  revert a; induction l as [|x l IH]; intros a; cbn.
  - lra.
  - rewrite (IH (a + x)), (IH (0 + x)). lra.
Qed.

Lemma sum_cons (x : Q) (l : list Q) : Py.sum (x :: l) == x + Py.sum l.
Proof. unfold Py.sum; cbn. rewrite fold_Qplus_shift. lra. Qed.

Lemma sum_app (l1 l2 : list Q) : Py.sum (l1 ++ l2) == Py.sum l1 + Py.sum l2.
Proof.
  induction l1 as [|x l1 IH]; cbn [app].
  - unfold Py.sum at 2; cbn. lra.
  - rewrite !sum_cons, IH. lra.
Qed.

Lemma sum_map_split (l : list Order.t) :
  Py.sum (map Order.directional_quantity l)
  == Py.sum (map signed_pending l) + Py.sum (map signed_filled l).
Proof.
  induction l as [|o l IH]; cbn [map].
  - reflexivity.
  - rewrite !sum_cons, IH.
    unfold Order.directional_quantity, signed_pending, signed_filled, Order.pending.
    destruct (Order.is_buy o); lra.
Qed.

Lemma read_alloc_old (h : Heap.t) (x o : Order.t) (r : ref) :
  Heap.read h r = Some o -> Heap.read (h ++ [x]) r = Some o.
Proof.
  unfold Heap.read. intros H. rewrite nth_error_app1; [exact H|].
  apply nth_error_Some. congruence.
Qed.

Lemma read_alloc_new (h : Heap.t) (x : Order.t) :
  Heap.read (h ++ [x]) (List.length h) = Some x.
Proof.
  unfold Heap.read. rewrite nth_error_app2 by lia. rewrite Nat.sub_diag. reflexivity.
Qed.

Lemma derefs_alloc (h : Heap.t) (x : Order.t) (rs : list ref) :
  Forall (fun r => exists o, Heap.read h r = Some o) rs ->
  derefs (h ++ [x]) rs = derefs h rs.
Proof.
  unfold derefs. induction 1 as [|r rs [o Hr] _ IH]; cbn; [reflexivity|].
  rewrite (read_alloc_old h x o r Hr), Hr, IH. reflexivity.
Qed.

Lemma derefs_app (h : Heap.t) (rs1 rs2 : list ref) :
  derefs h (rs1 ++ rs2) = derefs h rs1 ++ derefs h rs2.
Proof. unfold derefs. apply flat_map_app. Qed.

Lemma wf_values_valid (sh : Shared.t) :
  registry_wf sh ->
  Forall (fun r => exists o, Heap.read (Shared.heap sh) r = Some o)
         (Py.values (Shared.orders sh)).
Proof.
  intros [_ Hall]. unfold Py.values. apply Forall_map.
  eapply Forall_impl; [|exact Hall]. intros [k r] (o & Hr & _). exists o. exact Hr.
Qed.

Lemma contains_false_keys {V : Type} (d : Py.dict V) (k : string) :
  Py.contains d k = false <-> ~ In k (Py.keys d).
Proof.
  rewrite <- get_None_keys. unfold Py.contains.
  destruct (Py.get d k); split; congruence.
Qed.

(** Registering the order of a notification with a new id. *)
Lemma register_shared (data : Order.Data) (ss : list t) (sh : Shared.t) :
  Py.contains (Shared.orders sh) (Order.data_id data) = false ->
  Runner.shared (Runner.register data (Runner.mk ss sh))
  = Shared.mk (Shared.heap sh ++ [Order.from_data data])
              (Shared.orders sh ++ [(Order.data_id data, List.length (Shared.heap sh))]).
Proof.
  intros H. apply contains_false_keys in H.
  unfold Runner.register, Heap.alloc; cbn. rewrite set_fresh by exact H. reflexivity.
Qed.

Lemma register_wf (data : Order.Data) (ss : list t) (sh : Shared.t) :
  registry_wf sh ->
  Py.contains (Shared.orders sh) (Order.data_id data) = false ->
  registry_wf (Runner.shared (Runner.register data (Runner.mk ss sh))).
Proof.
  intros Hwf H. rewrite register_shared by exact H.
  apply contains_false_keys in H. destruct Hwf as [Hnd Hall]. split; cbn.
  - unfold Py.keys in *. rewrite map_app; cbn.
    apply NoDup_app; [exact Hnd | |].
    + apply NoDup_cons; [intros [] | apply NoDup_nil].
    + intros k Hk [<-|[]]. exact (H Hk).
  - apply Forall_app; split.
    + eapply Forall_impl; [|exact Hall]. intros [k r] (o & Hr & Hid).
      exists o. split; [apply read_alloc_old; exact Hr | exact Hid].
    + apply Forall_cons; [|apply Forall_nil]. cbn.
      exists (Order.from_data data). split; [apply read_alloc_new | reflexivity].
Qed.

Lemma register_registered (data : Order.Data) (ss : list t) (sh : Shared.t) :
  registry_wf sh ->
  Py.contains (Shared.orders sh) (Order.data_id data) = false ->
  registered (Runner.shared (Runner.register data (Runner.mk ss sh)))
  = registered sh ++ [Order.from_data data].
Proof.
  intros Hwf H. rewrite register_shared by exact H.
  unfold registered, Py.values; cbn [Shared.heap Shared.orders].
  rewrite map_app, derefs_app; cbn [map snd].
  rewrite derefs_alloc by (apply wf_values_valid; exact Hwf).
  unfold derefs at 2; cbn [flat_map]. rewrite read_alloc_new. reflexivity.
Qed.

Ltac solve_registry_wf :=
  split;
  [ repeat (apply NoDup_cons; [cbn; intuition discriminate|]); apply NoDup_nil
  | repeat (apply Forall_cons; [eexists; split; reflexivity|]); apply Forall_nil ].

(** C3, as the code has it.  With the registry as the Runner keeps it, the
    total position used by the signals is the position plus the sum, over the
    live orders for the strategy's symbol, of the whole requested quantity
    signed by side.  The filled quantity plays no part: the total exceeds the
    position plus the signed pending quantities by the signed filled
    quantities of the live orders. *)
Theorem total_position_counts_requested_quantity (w : world) :
  registry_wf (snd w) ->
  total_position w
  = position (fst w) + Py.sum (map Order.directional_quantity (live_orders w))
  /\ total_position w == pending_exposure w + Py.sum (map signed_filled (live_orders w)).
Proof.
  intros Hwf. split; [apply total_position_wf; exact Hwf|].
  rewrite total_position_wf by exact Hwf. unfold pending_exposure.
  rewrite sum_map_split. lra.
Qed.

Lemma total_position_counts_requested_quantity_witness :
  registry_wf (snd Scenario.partly_filled)
  /\ total_position Scenario.partly_filled
     = position (fst Scenario.partly_filled)
       + Py.sum (map Order.directional_quantity (live_orders Scenario.partly_filled))
  /\ total_position Scenario.partly_filled
     == pending_exposure Scenario.partly_filled
        + Py.sum (map signed_filled (live_orders Scenario.partly_filled)).
Proof.
  split; [|apply total_position_counts_requested_quantity]; solve_registry_wf.
Defined.

(** C3, as the claim words it, fails: a live buy order of 100 shares with 40
    filled counts for 100 in the total position, not for its remainder 60. *)
Lemma partly_filled_order_counts_whole :
  total_position Scenario.partly_filled == 100
  /\ pending_exposure Scenario.partly_filled == 60
  /\ ~ total_position Scenario.partly_filled == pending_exposure Scenario.partly_filled.
Proof.
  repeat split; try reflexivity. vm_compute. discriminate.
Qed.

End Registry.

(** ** The exposure cap *)

Section ExposureCap.

Import TickTakerStrategy.

(** An order that [on_trade] submits as a buy comes from its buy block. *)
Lemma buy_submitted (api : REST) (data : Trade) (w : world) (req : OrderRequest) :
  In (CallSubmitOrder req) (output_of (on_trade api data w)) ->
  req_side req = "buy"%string ->
  buy_signal w data = true /\ req = buy_request w.
Proof.
  intros Hin Hside.
  destruct (ignore_trade (fst w) data) as [lines|] eqn:H.
  - destruct (on_trade_ignored api data w lines H) as [E _]. rewrite E in Hin.
    cbn in Hin. apply in_map_iff in Hin. destruct Hin as (l & El & _). discriminate.
  - rewrite (on_trade_eq api data w H) in Hin. cbv zeta in Hin.
    unfold output_of in Hin; cbn [fst snd] in Hin.
    destruct Hin as [E|Hin]; [discriminate|]. apply in_app_or in Hin.
    destruct (buy_signal w data) eqn:Hb.
    + destruct Hin as [[E|[E|[]]] | Hin]; try discriminate.
      * inversion E. split; reflexivity.
      * destruct (sell_signal (mark_traded w) data);
          [destruct Hin as [E|[E|[]]] | destruct Hin as [E|[]]]; try discriminate.
        inversion E; subst req. discriminate.
    + destruct Hin as [[E|[]] | Hin]; try discriminate.
      destruct (sell_signal w data);
        [destruct Hin as [E|[E|[]]] | destruct Hin as [E|[]]]; try discriminate.
      inversion E; subst req. discriminate.
Qed.

Lemma min_le_r (a b : Q) : Py.min a b <= b.
Proof.
  unfold Py.min. destruct (Py.Qlt_bool b a) eqn:H.
  - apply Qle_refl.
  - apply Qlt_bool_false_iff in H. exact H.
Qed.

Lemma min_constrained (a b : Q) : b < a -> Py.min a b = b.
Proof. intros H. unfold Py.min. apply Qlt_bool_iff in H. rewrite H. reflexivity. Qed.

(** The total position once the first report of a submitted order has put
    it into the registry. *)
Lemma acknowledged_total_position (self : t) (sh : Shared.t) (ss : list t)
      (ev order_id : string) (req : OrderRequest) :
  registry_wf sh ->
  Py.contains (Shared.orders sh) order_id = false ->
  Py.upper (req_symbol req) = symbol self ->
  req_side req = "buy"%string ->
  total_position
    (self, Runner.shared (Runner.register (acknowledgement ev order_id req) (Runner.mk ss sh)))
  == total_position (self, sh) + req_qty req.
Proof.
  intros Hwf Hfresh Hsym Hside.
  rewrite total_position_wf by (apply register_wf; assumption).
  rewrite total_position_wf by exact Hwf.
  unfold live_orders; cbn [fst snd].
  rewrite register_registered by assumption.
  rewrite filter_app; cbn [filter].
  replace (Order.symbol (Order.from_data (acknowledgement ev order_id req)))
    with (symbol self) by (symmetry; exact Hsym).
  rewrite String.eqb_refl, map_app, sum_app; cbn [map].
  rewrite sum_cons.
  assert (Hbuy : Order.is_buy (Order.from_data (acknowledgement ev order_id req)) = true).
  { unfold Order.is_buy, Order.from_data, Order.init, acknowledgement.
    cbn [Order.side Order.data_side]. rewrite Hside. reflexivity. }
  unfold Order.directional_quantity at 2. rewrite Hbuy.
  change (Order.quantity (Order.from_data (acknowledgement ev order_id req)))
    with (req_qty req).
  change (Py.sum []) with 0. lra.
Qed.

(** C2, as the code has it.  A buy is submitted only when the total position
    is below [max_quantity]; its quantity is
    [min(quantity_per_trade, max_quantity - total position)], which is exactly
    the headroom when [quantity_per_trade] exceeds it, so the total position
    plus the submitted quantity is at most [max_quantity].  [on_trade] itself
    puts nothing into the registry and leaves the total position as it was.
    When the broker's first report of the order is registered on the registry
    as [on_trade] left it, nothing else having changed the registry or the
    position, and the strategy's symbol is in upper case, the total position
    becomes the former one plus the submitted quantity and stays within the
    cap.  Whenever it is registered, the total position of that moment grows
    by the submitted quantity. *)
Theorem exposure_cap_per_buy (api : REST) (data : Trade) (w : world) (req : OrderRequest) :
  In (CallSubmitOrder req) (output_of (on_trade api data w)) ->
  req_side req = "buy"%string ->
  total_position w < max_quantity (fst w)
  /\ req_qty req
     = Py.min (quantity_per_trade (fst w)) (max_quantity (fst w) - total_position w)
  /\ (max_quantity (fst w) - total_position w < quantity_per_trade (fst w) ->
      req_qty req = max_quantity (fst w) - total_position w)
  /\ total_position w + req_qty req <= max_quantity (fst w)
  /\ total_position (state_of (on_trade api data w)) = total_position w
  /\ (forall (ev order_id : string) (ss : list t),
        registry_wf (snd w) ->
        Py.upper (symbol (fst w)) = symbol (fst w) ->
        Py.contains (Shared.orders (snd w)) order_id = false ->
        let w' := state_of (on_trade api data w) in
        let registered_after :=
          Runner.shared
            (Runner.register (acknowledgement ev order_id req) (Runner.mk ss (snd w'))) in
        total_position (fst w', registered_after) == total_position w + req_qty req
        /\ total_position (fst w', registered_after) <= max_quantity (fst w'))
  /\ (forall (self' : t) (sh : Shared.t) (ev order_id : string) (ss : list t),
        registry_wf sh ->
        symbol self' = symbol (fst w) ->
        Py.upper (symbol (fst w)) = symbol (fst w) ->
        Py.contains (Shared.orders sh) order_id = false ->
        total_position
          (self', Runner.shared
                    (Runner.register (acknowledgement ev order_id req) (Runner.mk ss sh)))
        == total_position (self', sh) + req_qty req).
Proof.
  intros Hin Hside.
  destruct (buy_submitted api data w req Hin Hside) as [Hb ->].
  unfold buy_signal in Hb. apply andb_true_iff in Hb. destruct Hb as [_ Hcan].
  unfold can_buy in Hcan. apply Qlt_bool_iff in Hcan.
  assert (Hle : total_position w + req_qty (buy_request w) <= max_quantity (fst w)).
  { cbn [req_qty buy_request]. unfold buyable_quantity.
    pose proof (min_le_r (quantity_per_trade (fst w)) (max_quantity (fst w) - total_position w)).
    lra. }
  assert (Hst : total_position (state_of (on_trade api data w)) = total_position w)
    by (destruct (on_trade_state api data w) as [-> | ->]; reflexivity).
  split; [exact Hcan|]. split; [reflexivity|].
  split; [intros Hc; apply min_constrained; exact Hc|].
  split; [exact Hle|]. split; [exact Hst|].
  split.
  2:{ intros self' sh ev order_id ss Hwf Hsym Hup Hfresh.
      apply acknowledged_total_position;
        [exact Hwf | exact Hfresh | cbn [req_symbol buy_request]; congruence | reflexivity]. }
  intros ev order_id ss Hwf Hup Hfresh. cbv zeta.
  assert (E : total_position
                (fst (state_of (on_trade api data w)),
                 Runner.shared
                   (Runner.register (acknowledgement ev order_id (buy_request w))
                      (Runner.mk ss (snd (state_of (on_trade api data w))))))
              == total_position w + req_qty (buy_request w)).
  { destruct (on_trade_state api data w) as [-> | ->];
      (rewrite acknowledged_total_position;
       [reflexivity | exact Hwf | exact Hfresh | exact Hup | reflexivity]). }
  split; [exact E|]. rewrite E.
  destruct (on_trade_state api data w) as [-> | ->]; exact Hle.
Qed.

Lemma exposure_cap_per_buy_witness :
  In (CallSubmitOrder Scenario.buy_100_at_1001)
     (output_of (on_trade Scenario.broker Scenario.trade1 (Scenario.at_level1 500)))
  /\ req_side Scenario.buy_100_at_1001 = "buy"%string
  /\ total_position (Scenario.at_level1 500) + req_qty Scenario.buy_100_at_1001
     <= max_quantity (fst (Scenario.at_level1 500)).
Proof.
  assert (Hin : In (CallSubmitOrder Scenario.buy_100_at_1001)
                   (output_of (on_trade Scenario.broker Scenario.trade1
                                        (Scenario.at_level1 500))))
    by (vm_compute; auto).
  split; [exact Hin|]. split; [reflexivity|].
  exact (proj1 (proj2 (proj2 (proj2
           (exposure_cap_per_buy Scenario.broker Scenario.trade1 (Scenario.at_level1 500)
                                 Scenario.buy_100_at_1001 Hin eq_refl))))).
Defined.

(** C2, as the claim words it, fails.  The registry learns of an order from
    the broker's first report of it, not from its submission: two buy signals
    on two successive levels, both handled before the first report arrives,
    are both accepted against an exposure of 0, and once the two orders are
    registered the total exposure is 200 with a cap of 100. *)
Lemma exposure_cap_exceeded :
  let r := Runner.run Scenario.broker Scenario.liquidate_at Scenario.late_reports
                      Scenario.runner100 in
  result_of r = inl tt
  /\ submitted (output_of r) = [Scenario.buy_100_at_1001; Scenario.buy_100_at_1002]
  /\ exists s, Runner.strategies (state_of r) = [s]
               /\ max_quantity s == 100
               /\ total_position (s, Runner.shared (state_of r)) == 200
               /\ ~ total_position (s, Runner.shared (state_of r)) <= max_quantity s.
Proof.
  cbv zeta. split; [vm_compute; reflexivity|].
  split; [vm_compute; reflexivity|].
  eexists. split; [vm_compute; reflexivity|].
  split; [reflexivity|]. split; [reflexivity|].
  vm_compute. intros H; apply H; reflexivity.
Qed.

(** The same happens with one buy when the registry changes between the
    submission and the first report.  The strategy holds 100 shares beside a
    live sell order of 100, with a cap of 100: the buy of 100 is accepted
    against an exposure of 0, the sell order is canceled, and once the buy
    order is registered the total exposure is 200. *)
Remark exposure_cap_exceeded_after_cancel :
  let r := Runner.run Scenario.broker Scenario.liquidate_at cancel_between runner_short in
  result_of r = inl tt
  /\ submitted (output_of r) = [Scenario.buy_100_at_1001]
  /\ exists s, Runner.strategies (state_of r) = [s]
               /\ max_quantity s == 100
               /\ total_position (s, Runner.shared (state_of r)) == 200.
Proof.
  cbv zeta. split; [vm_compute; reflexivity|].
  split; [vm_compute; reflexivity|].
  eexists. split; [vm_compute; reflexivity|].
  split; reflexivity.
Qed.

End ExposureCap.

(** ** Order updates *)

Section Updates.

Import TickTakerStrategy.

Lemma read_write_same (h : Heap.t) (r : ref) (o o' : Order.t) :
  Heap.read h r = Some o -> Heap.read (Heap.write h r o') r = Some o'.
Proof.
  unfold Heap.read. revert r; induction h as [|x h IH]; intros [|r] H; cbn in *;
    try discriminate; [reflexivity | apply IH; exact H].
Qed.

Lemma read_write_other (h : Heap.t) (r r' : ref) (o' : Order.t) :
  r <> r' -> Heap.read (Heap.write h r o') r' = Heap.read h r'.
Proof.
  unfold Heap.read. revert r r'; induction h as [|x h IH]; intros [|r] [|r'] H; cbn;
    try reflexivity; [contradiction | apply IH; congruence].
Qed.

Lemma deref_ok (order : ref) (w : world) (o : Order.t) :
  Heap.read (Shared.heap (snd w)) order = Some o -> deref order w = (w, [], inl o).
Proof. intros H. unfold deref. rewrite bind_get, H. reflexivity. Qed.

Lemma del_order_ok (key : string) (w : world) (r : ref) :
  Py.get (Shared.orders (snd w)) key = Some r ->
  del_order key w = (set_orders (Py.remove (Shared.orders (snd w)) key) w, [], inl tt).
Proof.
  intros H. unfold del_order, Py.del, Py.contains. rewrite bind_get, H. reflexivity.
Qed.

Lemma del_order_missing (key : string) (w : world) :
  Py.get (Shared.orders (snd w)) key = None ->
  del_order key w = (w, [], inr (KeyError key)).
Proof.
  intros H. unfold del_order, Py.del, Py.contains. rewrite bind_get, H. reflexivity.
Qed.

Lemma on_order_settled_ok (order : ref) (w : world) (o : Order.t) :
  Heap.read (Shared.heap (snd w)) order = Some o ->
  Py.get (Shared.orders (snd w)) (Order.id o) = Some order ->
  on_order_settled order w
  = (set_orders (Py.remove (Shared.orders (snd w)) (Order.id o))
       (set_position (position (fst w) + Order.directional_quantity o) w),
     [Print (LogOrderSettled o)], inl tt).
Proof.
  intros Hr Hg. unfold on_order_settled.
  rewrite (bind_silent _ _ _ _ _ (deref_ok _ _ _ Hr)).
  rewrite bind_emit, bind_get, bind_modify.
  erewrite del_order_ok by exact Hg. reflexivity.
Qed.

Lemma on_order_cancelled_ok (event : string) (order : ref) (w : world) (o : Order.t) :
  Heap.read (Shared.heap (snd w)) order = Some o ->
  Py.get (Shared.orders (snd w)) (Order.id o) = Some order ->
  on_order_cancelled event order w
  = (set_orders (Py.remove (Shared.orders (snd w)) (Order.id o)) w,
     [Print (LogOrderCancelled event o)], inl tt).
Proof.
  intros Hr Hg. unfold on_order_cancelled.
  rewrite (bind_silent _ _ _ _ _ (deref_ok _ _ _ Hr)).
  rewrite bind_emit. erewrite del_order_ok by exact Hg. reflexivity.
Qed.

(** Comparisons of two string literals are evaluated. *)
Ltac eval_eqb :=
  repeat match goal with
         | |- context [String.eqb ?a ?b] =>
             let v := eval vm_compute in (String.eqb a b) in
             match v with
             | true => change (String.eqb a b) with true
             | false => change (String.eqb a b) with false
             end
         end;
  cbn [orb negb].

(** An update for an order of another instrument. *)
Lemma update_foreign (event : string) (order : ref) (data : Order.Data) (w : world)
      (o : Order.t) :
  Heap.read (Shared.heap (snd w)) order = Some o ->
  Order.symbol o <> symbol (fst w) ->
  on_trade_updates event order data w = (w, [], inl tt).
Proof.
  intros Hr Hs. unfold on_trade_updates.
  rewrite (bind_silent _ _ _ _ _ (deref_ok _ _ _ Hr)), bind_get.
  apply String.eqb_neq in Hs. rewrite Hs. reflexivity.
Qed.

(** A fill that completes the order. *)
Lemma update_fill_settles (event : string) (order : ref) (data : Order.Data) (w : world)
      (o : Order.t) :
  Heap.read (Shared.heap (snd w)) order = Some o ->
  Py.get (Shared.orders (snd w)) (Order.id o) = Some order ->
  Order.symbol o = symbol (fst w) ->
  is_fill event ->
  Order.is_filled (Order.set_filled_quantity o (Order.filled_qty data)) = true ->
  on_trade_updates event order data w
  = (set_orders (Py.remove (Shared.orders (snd w)) (Order.id o))
       (set_position (position (fst w) + Order.directional_quantity o)
          (write_order order (Order.set_filled_quantity o (Order.filled_qty data)) w)),
     [Print (LogOrderSettled (Order.set_filled_quantity o (Order.filled_qty data)))],
     inl tt).
Proof.
  intros Hr Hg Hs Hev Hfull. unfold on_trade_updates.
  rewrite (bind_silent _ _ _ _ _ (deref_ok _ _ _ Hr)), bind_get, Hs, String.eqb_refl.
  set (o' := Order.set_filled_quantity o (Order.filled_qty data)) in *.
  assert (Hr' : Heap.read (Shared.heap (snd (write_order order o' w))) order = Some o')
    by (apply (read_write_same _ _ o); exact Hr).
  destruct Hev as [-> | ->]; eval_eqb;
    rewrite bind_ret_tt, bind_modify,
      (bind_silent _ _ _ _ _ (deref_ok _ _ _ Hr')), Hfull;
    apply (on_order_settled_ok order (write_order order o' w) o' Hr' Hg).
Qed.

(** A fill that leaves the order incomplete. *)
Lemma update_fill_partial (event : string) (order : ref) (data : Order.Data) (w : world)
      (o : Order.t) :
  Heap.read (Shared.heap (snd w)) order = Some o ->
  Order.symbol o = symbol (fst w) ->
  is_fill event ->
  Order.is_filled (Order.set_filled_quantity o (Order.filled_qty data)) = false ->
  on_trade_updates event order data w
  = (write_order order (Order.set_filled_quantity o (Order.filled_qty data)) w,
     [], inl tt).
Proof.
  intros Hr Hs Hev Hfull. unfold on_trade_updates.
  rewrite (bind_silent _ _ _ _ _ (deref_ok _ _ _ Hr)), bind_get, Hs, String.eqb_refl.
  set (o' := Order.set_filled_quantity o (Order.filled_qty data)) in *.
  assert (Hr' : Heap.read (Shared.heap (snd (write_order order o' w))) order = Some o')
    by (apply (read_write_same _ _ o); exact Hr).
  destruct Hev as [-> | ->]; eval_eqb;
    rewrite bind_ret_tt, bind_modify,
      (bind_silent _ _ _ _ _ (deref_ok _ _ _ Hr')), Hfull; reflexivity.
Qed.

(** A cancellation or a rejection. *)
Lemma update_cancel (event : string) (order : ref) (data : Order.Data) (w : world)
      (o : Order.t) :
  Heap.read (Shared.heap (snd w)) order = Some o ->
  Py.get (Shared.orders (snd w)) (Order.id o) = Some order ->
  Order.symbol o = symbol (fst w) ->
  is_cancel event ->
  on_trade_updates event order data w
  = (set_orders (Py.remove (Shared.orders (snd w)) (Order.id o)) w,
     [Print (LogOrderCancelled event o)], inl tt).
Proof.
  intros Hr Hg Hs Hev. unfold on_trade_updates.
  rewrite (bind_silent _ _ _ _ _ (deref_ok _ _ _ Hr)), bind_get, Hs, String.eqb_refl.
  destruct Hev as [-> | ->]; eval_eqb; rewrite bind_ret;
    apply (on_order_cancelled_ok _ order w o Hr Hg).
Qed.

(** Any other event. *)
Lemma update_other (event : string) (order : ref) (data : Order.Data) (w : world)
      (o : Order.t) :
  Heap.read (Shared.heap (snd w)) order = Some o ->
  ~ is_fill event -> ~ is_cancel event ->
  on_trade_updates event order data w = (w, [], inl tt).
Proof.
  intros Hr Hf Hc. unfold on_trade_updates.
  rewrite (bind_silent _ _ _ _ _ (deref_ok _ _ _ Hr)), bind_get.
  destruct (negb (Order.symbol o =? symbol (fst w))%string); [reflexivity|].
  unfold is_fill, is_cancel in *.
  destruct (String.eqb_spec event "fill"); [tauto|].
  destruct (String.eqb_spec event "partial_fill"); [tauto|].
  destruct (String.eqb_spec event "canceled"); [tauto|].
  destruct (String.eqb_spec event "rejected"); [tauto|].
  reflexivity.
Qed.

Lemma get_remove_same {V : Type} (d : Py.dict V) (k : string) :
  NoDup (Py.keys d) -> Py.get (Py.remove d k) k = None.
Proof.
  induction d as [|[k' v] d IH]; cbn; intros Hnd; [reflexivity|].
  inversion Hnd as [|? ? Hnotin Hnd']; subst.
  destruct (String.eqb_spec k' k) as [->|Hne].
  - apply get_None_keys. exact Hnotin.
  - cbn. apply String.eqb_neq in Hne. rewrite Hne. apply IH. exact Hnd'.
Qed.

Lemma get_remove_other {V : Type} (d : Py.dict V) (k k' : string) :
  k' <> k -> Py.get (Py.remove d k) k' = Py.get d k'.
Proof.
  intros Hne. induction d as [|[k0 v] d IH]; cbn; [reflexivity|].
  destruct (String.eqb_spec k0 k) as [->|Hne0].
  - apply not_eq_sym in Hne. apply String.eqb_neq in Hne. rewrite Hne. reflexivity.
  - cbn. rewrite IH. reflexivity.
Qed.

(** C6. The hook is called on an Order object of the registry, as the Runner
    does.  For an order of another instrument nothing changes.  For an order
    of the strategy's instrument: on [fill] and [partial_fill] the order's
    filled quantity becomes the notified one, and if the order is then filled
    its directional quantity is added to the position (one addition) and its
    entry is removed from the registry, otherwise position and registry are
    unchanged; on [canceled] and [rejected] the entry is removed and the
    position and the Order objects are unchanged; any other event changes
    nothing.  Removing the entry makes the order's id unknown to the registry
    and leaves every other id as it was. *)
Theorem order_update_handling (event : string) (order : ref) (data : Order.Data)
        (w : world) (o : Order.t) :
  Heap.read (Shared.heap (snd w)) order = Some o ->
  Py.get (Shared.orders (snd w)) (Order.id o) = Some order ->
  NoDup (Py.keys (Shared.orders (snd w))) ->
  let r := on_trade_updates event order data w in
  let filled := Order.set_filled_quantity o (Order.filled_qty data) in
  let removed := Py.remove (Shared.orders (snd w)) (Order.id o) in
  (Order.symbol o <> symbol (fst w) -> r = (w, [], inl tt))
  /\ (Order.symbol o = symbol (fst w) ->
      (is_fill event ->
         result_of r = inl tt
         /\ Heap.read (Shared.heap (snd (state_of r))) order = Some filled
         /\ if Order.is_filled filled
            then position (fst (state_of r))
                 = position (fst w) + Order.directional_quantity filled
                 /\ Shared.orders (snd (state_of r)) = removed
            else position (fst (state_of r)) = position (fst w)
                 /\ Shared.orders (snd (state_of r)) = Shared.orders (snd w))
      /\ (is_cancel event ->
         result_of r = inl tt
         /\ position (fst (state_of r)) = position (fst w)
         /\ Shared.heap (snd (state_of r)) = Shared.heap (snd w)
         /\ Shared.orders (snd (state_of r)) = removed)
      /\ (~ is_fill event -> ~ is_cancel event -> r = (w, [], inl tt)))
  /\ Py.get removed (Order.id o) = None
  /\ (forall k, k <> Order.id o -> Py.get removed k = Py.get (Shared.orders (snd w)) k).
Proof.
  intros Hr Hg Hnd. cbv zeta.
  split; [intros Hs; apply (update_foreign _ _ _ _ o Hr Hs)|].
  split; [intros Hs; split; [|split]|].
  - intros Hev.
    destruct (Order.is_filled (Order.set_filled_quantity o (Order.filled_qty data))) eqn:Hfull.
    + rewrite (update_fill_settles _ _ _ _ o Hr Hg Hs Hev Hfull). cbn.
      repeat split. apply (read_write_same _ _ o); exact Hr.
    + rewrite (update_fill_partial _ _ _ _ o Hr Hs Hev Hfull). cbn.
      repeat split. apply (read_write_same _ _ o); exact Hr.
  - intros Hev. rewrite (update_cancel _ _ data _ o Hr Hg Hs Hev). cbn. repeat split.
  - intros Hf Hc. apply (update_other _ _ _ _ o Hr Hf Hc).
  - split; [apply get_remove_same; exact Hnd|].
    intros k Hk. apply get_remove_other; exact Hk.
Qed.

Lemma order_update_handling_witness :
  let w := Scenario.partly_filled in
  Heap.read (Shared.heap (snd w)) 0%nat = Some Scenario.order_x1
  /\ Py.get (Shared.orders (snd w)) (Order.id Scenario.order_x1) = Some 0%nat
  /\ NoDup (Py.keys (Shared.orders (snd w)))
  /\ position (fst (state_of (on_trade_updates "fill" 0%nat Scenario.fill_x1 w)))
     = position (fst w) + 100 * 1
  /\ Shared.orders (snd (state_of (on_trade_updates "fill" 0%nat Scenario.fill_x1 w))) = [].
Proof.
  cbv zeta.
  assert (H1 : Heap.read (Shared.heap (snd Scenario.partly_filled)) 0%nat
               = Some Scenario.order_x1) by reflexivity.
  assert (H2 : Py.get (Shared.orders (snd Scenario.partly_filled))
                      (Order.id Scenario.order_x1) = Some 0%nat) by reflexivity.
  assert (H3 : NoDup (Py.keys (Shared.orders (snd Scenario.partly_filled))))
    by (apply NoDup_cons; [intros [] | apply NoDup_nil]).
  split; [exact H1|]. split; [exact H2|]. split; [exact H3|].
  exact (proj2 (proj2 (proj1 (proj1 (proj2
           (order_update_handling "fill" 0%nat Scenario.fill_x1 Scenario.partly_filled
                                  Scenario.order_x1 H1 H2 H3))
           eq_refl) (or_introl eq_refl)))).
Defined.

End Updates.

(** ** The Order objects over time *)

Section Objects.

Import TickTakerStrategy.

Lemma keeps_heap_bind {A B : Type} (m : M world A) (k : A -> M world B) :
  keeps_heap m -> (forall a, keeps_heap (k a)) -> keeps_heap (bind m k).
Proof.
  intros Hm Hk w. rewrite state_of_bind.
  destruct (result_of (m w)); [rewrite Hk|]; apply Hm.
Qed.

Lemma keeps_heap_ret {A : Type} (a : A) : keeps_heap (ret a).
Proof. intros w. reflexivity. Qed.

Lemma keeps_heap_raise {A : Type} (e : exn) : keeps_heap (@raise world A e).
Proof. intros w. reflexivity. Qed.

Lemma keeps_heap_emit (x : Effect) : keeps_heap (emit x).
Proof. intros w. reflexivity. Qed.

Lemma keeps_heap_get : keeps_heap get.
Proof. intros w. reflexivity. Qed.

Lemma keeps_heap_deref (order : ref) : keeps_heap (deref order).
Proof.
  unfold deref. apply keeps_heap_bind; [apply keeps_heap_get|]. intros w.
  destruct (Heap.read (Shared.heap (snd w)) order);
    [apply keeps_heap_ret | apply keeps_heap_raise].
Qed.

Lemma keeps_heap_del_order (key : string) : keeps_heap (del_order key).
Proof.
  unfold del_order. apply keeps_heap_bind; [apply keeps_heap_get|]. intros w.
  destruct (Py.del (Shared.orders (snd w)) key);
    [intros w'; reflexivity | apply keeps_heap_raise].
Qed.

Lemma keeps_heap_on_order_settled (order : ref) : keeps_heap (on_order_settled order).
Proof.
  unfold on_order_settled.
  apply keeps_heap_bind; [apply keeps_heap_deref | intros o].
  apply keeps_heap_bind; [apply keeps_heap_emit | intros _].
  apply keeps_heap_bind; [apply keeps_heap_get | intros w].
  apply keeps_heap_bind; [intros w'; reflexivity | intros _].
  apply keeps_heap_del_order.
Qed.

Lemma keeps_heap_on_order_cancelled (event : string) (order : ref) :
  keeps_heap (on_order_cancelled event order).
Proof.
  unfold on_order_cancelled.
  apply keeps_heap_bind; [apply keeps_heap_deref | intros o].
  apply keeps_heap_bind; [apply keeps_heap_emit | intros _].
  apply keeps_heap_del_order.
Qed.

Lemma deref_dangling (order : ref) (w : world) :
  Heap.read (Shared.heap (snd w)) order = None ->
  deref order w = (w, [], inr dangling).
Proof. intros H. unfold deref. rewrite bind_get, H. reflexivity. Qed.

(** The only write of [on_trade_updates] to an Order object: on a fill, the
    filled quantity of the order it was called on. *)
Lemma hook_heap (event : string) (order : ref) (data : Order.Data) (w : world) :
  heap_of (state_of (on_trade_updates event order data w)) = heap_of w
  \/ exists o, Heap.read (heap_of w) order = Some o
               /\ is_fill event
               /\ heap_of (state_of (on_trade_updates event order data w))
                  = Heap.write (heap_of w) order
                               (Order.set_filled_quantity o (Order.filled_qty data)).
Proof.
  unfold on_trade_updates.
  destruct (Heap.read (heap_of w) order) as [o|] eqn:Hr.
  2:{ left. rewrite (bind_eq_raised _ _ _ _ _ _ (deref_dangling _ _ Hr)). reflexivity. }
  rewrite (bind_silent _ _ _ _ _ (deref_ok _ _ _ Hr)), bind_get.
  destruct (negb (Order.symbol o =? symbol (fst w))%string); [left; reflexivity|].
  rewrite state_of_bind.
  match goal with
  | |- context [result_of (?A w)] =>
      assert (E : heap_of (match result_of (A w) with
                           | inl _ =>
                               state_of
                                 ((if (event =? "canceled")%string
                                      || (event =? "rejected")%string
                                   then on_order_cancelled event order
                                   else ret tt) (state_of (A w)))
                           | inr _ => state_of (A w)
                           end)
                  = heap_of (state_of (A w)))
  end.
  { destruct (result_of _); [|reflexivity].
    destruct ((event =? "canceled")%string || (event =? "rejected")%string);
      [apply keeps_heap_on_order_cancelled | reflexivity]. }
  rewrite E. clear E.
  destruct ((event =? "fill")%string || (event =? "partial_fill")%string) eqn:Hev.
  - right. exists o. split; [reflexivity|]. split.
    + apply orb_true_iff in Hev.
      destruct Hev as [H|H]; apply String.eqb_eq in H; [left | right]; exact H.
    + rewrite bind_modify.
      match goal with
      | |- heap_of (state_of (?m ?w')) = _ =>
          assert (K : keeps_heap m); [|apply (K w')]
      end.
      apply keeps_heap_bind; [apply keeps_heap_deref | intros o'].
      destruct (Order.is_filled o');
        [apply keeps_heap_on_order_settled | apply keeps_heap_ret].
  - left. reflexivity.
Qed.

Lemma same_order_refl (o : Order.t) : same_order o o.
Proof. repeat split. Qed.

Lemma same_order_trans (o1 o2 o3 : Order.t) :
  same_order o1 o2 -> same_order o2 o3 -> same_order o1 o3.
Proof. unfold same_order. intuition congruence. Qed.

Lemma heap_step_refl (ev : string) (x : Q) (h : Heap.t) : heap_step ev x h h.
Proof.
  intros r o Hr. exists o. split; [exact Hr|].
  split; [apply same_order_refl | left; reflexivity].
Qed.

Lemma heap_step_trans (ev : string) (x : Q) (h1 h2 h3 : Heap.t) :
  heap_step ev x h1 h2 -> heap_step ev x h2 h3 -> heap_step ev x h1 h3.
Proof.
  intros H12 H23 r o Hr.
  destruct (H12 r o Hr) as (o2 & Hr2 & Hs2 & Hf2).
  destruct (H23 r o2 Hr2) as (o3 & Hr3 & Hs3 & Hf3).
  exists o3. split; [exact Hr3|]. split; [eapply same_order_trans; eassumption|].
  destruct Hf3 as [Hf3|Hf3]; [rewrite Hf3; exact Hf2 | right; exact Hf3].
Qed.

Lemma heap_step_write (ev : string) (x : Q) (h : Heap.t) (order : ref) (o : Order.t) :
  is_fill ev ->
  Heap.read h order = Some o ->
  heap_step ev x h (Heap.write h order (Order.set_filled_quantity o x)).
Proof.
  intros Hev Ho r o0 Hr. destruct (Nat.eq_dec order r) as [<-|Hne].
  - exists (Order.set_filled_quantity o x).
    split; [apply (read_write_same _ _ o); exact Ho|].
    assert (o0 = o) by congruence. subst o0.
    split; [repeat split | right; split; [exact Hev | reflexivity]].
  - exists o0. split; [rewrite read_write_other by exact Hne; exact Hr|].
    split; [apply same_order_refl | left; reflexivity].
Qed.

Lemma heap_step_alloc (ev : string) (x : Q) (h : Heap.t) (o : Order.t) :
  heap_step ev x h (h ++ [o]).
Proof.
  intros r o0 Hr. exists o0. split; [apply read_alloc_old; exact Hr|].
  split; [apply same_order_refl | left; reflexivity].
Qed.

Lemma hook_heap_step (event : string) (order : ref) (data : Order.Data) (w : world) :
  heap_step event (Order.filled_qty data) (heap_of w)
            (heap_of (state_of (on_trade_updates event order data w))).
Proof.
  destruct (hook_heap event order data w) as [-> | (o & Hr & Hev & ->)].
  - apply heap_step_refl.
  - apply heap_step_write; assumption.
Qed.

Lemma keeps_heap_lookup (order_id : string) : keeps_heap (Runner.lookup order_id).
Proof.
  unfold Runner.lookup. apply keeps_heap_bind; [apply keeps_heap_get|]. intros w.
  destruct (Py.get (Shared.orders (snd w)) order_id);
    [apply keeps_heap_ret | apply keeps_heap_raise].
Qed.

(** The body of the loop of [Runner.on_trade_updates]. *)
Lemma deliver_heap_step (data : Order.Data) (w : world) :
  heap_step (Order.event data) (Order.filled_qty data) (heap_of w)
    (heap_of (state_of
       ((order <- Runner.lookup (Order.data_id data) ;;
         on_trade_updates (Order.event data) order data) w))).
Proof.
  rewrite state_of_bind.
  destruct (result_of (Runner.lookup (Order.data_id data) w)) as [order|e].
  - rewrite <- (keeps_heap_lookup (Order.data_id data) w) at 1.
    apply hook_heap_step.
  - rewrite keeps_heap_lookup. apply heap_step_refl.
Qed.

Lemma run_strategies_heap_step (ev : string) (x : Q) (body : M world unit) :
  (forall w, heap_step ev x (heap_of w) (heap_of (state_of (body w)))) ->
  forall (ss : list t) (sh : Shared.t),
    heap_step ev x (Shared.heap sh)
      (Shared.heap (snd (state_of (Runner.run_strategies body ss sh)))).
Proof.
  intros Hbody ss. induction ss as [|s ss IH]; intros sh; cbn [Runner.run_strategies].
  - apply heap_step_refl.
  - specialize (Hbody (s, sh)).
    destruct (body (s, sh)) as [[[s' sh'] out] [u|e]]; cbn in Hbody.
    + specialize (IH sh').
      destruct (Runner.run_strategies body ss sh') as [[[ss' sh''] out'] r]; cbn in *.
      eapply heap_step_trans; eassumption.
    + exact Hbody.
Qed.

Lemma for_strategies_shared (body : M world unit) (rn : Runner.t) :
  Runner.shared (state_of (Runner.for_strategies body rn))
  = snd (state_of (Runner.run_strategies body (Runner.strategies rn) (Runner.shared rn))).
Proof.
  unfold Runner.for_strategies.
  destruct (Runner.run_strategies _ _ _) as [[[ss sh] out] r]. reflexivity.
Qed.

Lemma on_trade_updates_heap_step (data : Order.Data) (rn : Runner.t) :
  heap_step (Order.event data) (Order.filled_qty data)
    (Shared.heap (Runner.shared rn))
    (Shared.heap (Runner.shared (state_of (Runner.on_trade_updates data rn)))).
Proof.
  unfold Runner.on_trade_updates. rewrite bind_get.
  destruct (negb (Py.contains (Shared.orders (Runner.shared rn)) (Order.data_id data))).
  - rewrite bind_modify, for_strategies_shared.
    eapply heap_step_trans;
      [|apply run_strategies_heap_step; intros w; apply deliver_heap_step].
    unfold Runner.register, Heap.alloc; cbn. apply heap_step_alloc.
  - rewrite bind_ret, for_strategies_shared.
    apply run_strategies_heap_step; intros w; apply deliver_heap_step.
Qed.

(** One order update.  While the Runner handles it, every Order object stays
    in place with its id, symbol, side and quantity, and its filled quantity
    is left alone or, on a fill or partial fill, replaced by the notified
    one.  A new Order starts with the filled quantity 0. *)
Lemma order_fields_immutable (data : Order.Data) (rn : Runner.t) (r : ref) (o : Order.t) :
  Heap.read (Shared.heap (Runner.shared rn)) r = Some o ->
  Order.filled_quantity (Order.from_data data) = 0
  /\ exists o',
      Heap.read (Shared.heap (Runner.shared (state_of (Runner.on_trade_updates data rn)))) r
      = Some o'
      /\ Order.id o' = Order.id o
      /\ Order.symbol o' = Order.symbol o
      /\ Order.side o' = Order.side o
      /\ Order.quantity o' = Order.quantity o
      /\ (Order.filled_quantity o' = Order.filled_quantity o
          \/ (is_fill (Order.event data)
              /\ Order.filled_quantity o' = Order.filled_qty data))
      /\ (0 <= Order.filled_quantity o <= Order.quantity o ->
          Order.filled_quantity o <= Order.filled_qty data <= Order.quantity o ->
          Order.filled_quantity o <= Order.filled_quantity o'
          /\ 0 <= Order.filled_quantity o' <= Order.quantity o').
Proof.
  intros Hr. split; [reflexivity|].
  destruct (on_trade_updates_heap_step data rn r o Hr) as (o' & Hr' & (Hi & Hs & Hd & Hq) & Hf).
  exists o'. repeat (split; [assumption|]).
  intros Hinv Hnew. rewrite Hq.
  destruct Hf as [-> | [_ ->]]; lra.
Qed.

Lemma order_fields_immutable_witness :
  Heap.read (Shared.heap (Runner.shared Scenario.runner_x1)) 0%nat = Some Scenario.order_x1
  /\ exists o',
      Heap.read (Shared.heap (Runner.shared
                   (state_of (Runner.on_trade_updates Scenario.fill_x1 Scenario.runner_x1))))
                0%nat = Some o'
      /\ Order.quantity o' = Order.quantity Scenario.order_x1.
Proof.
  assert (H : Heap.read (Shared.heap (Runner.shared Scenario.runner_x1)) 0%nat
              = Some Scenario.order_x1) by reflexivity.
  split; [exact H|].
  destruct (proj2 (order_fields_immutable Scenario.fill_x1 Scenario.runner_x1 0%nat
                                          Scenario.order_x1 H))
    as (o' & Hr' & _ & _ & _ & Hq & _).
  exists o'. split; [exact Hr' | exact Hq].
Defined.

(** The code compares the notified filled quantity with nothing.  Were the
    order x1 of 100 shares notified as partially filled with 40, then with
    30, then with 150, its filled quantity would go from 40 down to 30 and
    then above its quantity: the bounds and the growth of the filled quantity
    rest on the values that the broker notifies. *)
Remark filled_quantity_follows_notification :
  let after (filled : Q) (rn : Runner.t) :=
    state_of (Runner.on_trade_updates (Scenario.partial_x1 filled) rn) in
  let filled_of (rn : Runner.t) :=
    option_map Order.filled_quantity (Heap.read (Shared.heap (Runner.shared rn)) 0%nat) in
  let rn1 := after 40 Scenario.runner100 in
  let rn2 := after 30 rn1 in
  let rn3 := after 150 rn2 in
  filled_of rn1 = Some 40
  /\ filled_of rn2 = Some 30
  /\ filled_of rn3 = Some 150
  /\ ~ 40 <= 30
  /\ option_map Order.quantity (Heap.read (Shared.heap (Runner.shared rn3)) 0%nat) = Some 100
  /\ ~ 150 <= 100.
Proof.
  cbv zeta. repeat split; try (vm_compute; reflexivity);
    intros H; vm_compute in H; apply H; reflexivity.
Qed.

End Objects.
(** ** Start-up *)

Section StartUp.

Import TickTakerStrategy.

(** [start] by the answer of the position query. *)
Lemma start_eq (api : REST) (w : world) :
  start api w =
    match get_position api (symbol (fst w)) with
    | inl qty =>
        (set_position qty w,
         [CallGetPosition (symbol (fst w)); Print (LogPositionData qty);
          Print (LogFoundPositions qty (symbol (fst w)))],
         inl tt)
    | inr (APIError code) =>
        (if (code =? 40410000)%Z then set_position 0 w else w,
         [CallGetPosition (symbol (fst w));
          Print (LogNoPositions (symbol (fst w)) (APIError code))],
         if (code =? 40410000)%Z then inl tt else inr (APIError code))
    | inr e => (w, [CallGetPosition (symbol (fst w))], inr e)
    end.
Proof.
  unfold start. rewrite bind_get. unfold try_except. rewrite bind_emit.
  unfold bind, answer, emit, modify, ret, raise.
  destruct (get_position api (symbol (fst w))) as [qty|[k|code|what]]; cbn;
    try reflexivity.
  destruct (code =? 40410000)%Z; reflexivity.
Qed.

(** C8. [start] asks the broker once for the position of the strategy's
    symbol.  When the query answers a quantity, the position is that quantity
    and [start] returns; when it fails with the API error 40410000, the
    position is 0 and [start] returns; when it fails with anything else,
    [start] raises that same error and the strategy is unchanged. *)
Theorem start_position_query (api : REST) (w : world) :
  position_queries (output_of (start api w)) = [symbol (fst w)]
  /\ (forall qty, get_position api (symbol (fst w)) = inl qty ->
        result_of (start api w) = inl tt
        /\ state_of (start api w) = set_position qty w
        /\ position (fst (state_of (start api w))) = qty)
  /\ (get_position api (symbol (fst w)) = inr (APIError 40410000) ->
        result_of (start api w) = inl tt
        /\ state_of (start api w) = set_position 0 w
        /\ position (fst (state_of (start api w))) = 0)
  /\ (forall e, get_position api (symbol (fst w)) = inr e ->
        e <> APIError 40410000 ->
        result_of (start api w) = inr e /\ state_of (start api w) = w).
Proof.
  rewrite start_eq. split; [|split; [|split]].
  - destruct (get_position api (symbol (fst w))) as [qty|[k|code|what]]; reflexivity.
  - intros qty ->. repeat split.
  - intros ->. repeat split.
  - intros e -> Hne. destruct e as [k|code|what]; try (split; reflexivity).
    destruct (Z.eqb_spec code 40410000) as [->|Hc]; [congruence|].
    split; reflexivity.
Qed.

Lemma start_known (api : REST) (s : t) (sh : Shared.t) :
  position_known api s ->
  exists out,
    start api (s, sh) = ((started api sh s, sh), out, inl tt)
    /\ position_queries out = [symbol s] /\ stream_effects out = [].
Proof.
  unfold position_known, started. rewrite start_eq. cbn [fst snd].
  destruct (get_position api (symbol s)) as [qty|[k|code|what]]; try contradiction.
  - intros _. eexists. repeat split.
  - intros ->. eexists. repeat split.
Qed.

Lemma start_unknown (api : REST) (s : t) (sh : Shared.t) (e : exn) :
  get_position api (symbol s) = inr e ->
  e <> APIError 40410000 ->
  exists out,
    start api (s, sh) = ((s, sh), out, inr e)
    /\ position_queries out = [symbol s] /\ stream_effects out = [].
Proof.
  intros Hq Hne. rewrite start_eq. cbn [fst snd]. rewrite Hq.
  destruct e as [k|code|what].
  - eexists. repeat split.
  - destruct (Z.eqb_spec code 40410000) as [->|Hc]; [congruence|].
    eexists. repeat split.
  - eexists. repeat split.
Qed.

Lemma position_queries_app (o1 o2 : list Effect) :
  position_queries (o1 ++ o2) = position_queries o1 ++ position_queries o2.
Proof. apply flat_map_app. Qed.

Lemma stream_effects_app (o1 o2 : list Effect) :
  stream_effects (o1 ++ o2) = stream_effects o1 ++ stream_effects o2.
Proof. apply filter_app. Qed.

(** The loop of [Runner.start] when every [start] returns. *)
Lemma run_start_ok (api : REST) (sh : Shared.t) (ss : list t) :
  Forall (position_known api) ss ->
  exists out,
    Runner.run_strategies (start api) ss sh = ((map (started api sh) ss, sh), out, inl tt)
    /\ position_queries out = map symbol ss /\ stream_effects out = [].
Proof.
  induction 1 as [|s ss Hs _ (out' & E' & Hq' & Hst')]; cbn [Runner.run_strategies map].
  - exists []. repeat split.
  - destruct (start_known api s sh Hs) as (out & E & Hq & Hst).
    rewrite E, E'. exists (out ++ out'). split; [reflexivity|].
    rewrite position_queries_app, stream_effects_app, Hq, Hq', Hst, Hst'.
    split; reflexivity.
Qed.

(** The loop of [Runner.start] when a [start] raises: the loop ends there,
    with the error of that [start]. *)
Lemma run_start_raises (api : REST) (sh : Shared.t) (pre post : list t) (s : t)
      (e : exn) :
  Forall (position_known api) pre ->
  get_position api (symbol s) = inr e ->
  e <> APIError 40410000 ->
  exists out,
    Runner.run_strategies (start api) (pre ++ s :: post) sh
    = ((map (started api sh) pre ++ s :: post, sh), out, inr e)
    /\ position_queries out = map symbol (pre ++ [s]) /\ stream_effects out = [].
Proof.
  intros Hpre Hs Hne.
  induction Hpre as [|s0 pre Hs0 _ (out' & E' & Hq' & Hst')];
    cbn [Runner.run_strategies map app].
  - destruct (start_unknown api s sh e Hs Hne) as (out & E & Hq & Hst).
    rewrite E. exists out. repeat split; assumption.
  - destruct (start_known api s0 sh Hs0) as (out & E & Hq & Hst).
    rewrite E, E'. exists (out ++ out'). split; [reflexivity|].
    rewrite position_queries_app, stream_effects_app, Hq, Hq', Hst, Hst'.
    split; reflexivity.
Qed.

Lemma started_symbol (api : REST) (sh : Shared.t) (s : t) :
  symbol (started api sh s) = symbol s.
Proof.
  unfold started. rewrite start_eq. cbn [fst].
  destruct (get_position api (symbol s)) as [qty|[k|code|what]]; try reflexivity.
  destruct (code =? 40410000)%Z; reflexivity.
Qed.

Lemma for_strategies_eq (body : M world unit) (rn : Runner.t) (ss : list t)
      (sh : Shared.t) (out : list Effect) (r : unit + exn) :
  Runner.run_strategies body (Runner.strategies rn) (Runner.shared rn) = ((ss, sh), out, r) ->
  Runner.for_strategies body rn = (Runner.mk ss sh, out, r).
Proof. intros E. unfold Runner.for_strategies. rewrite E. reflexivity. Qed.

(** C9, as the code has it.  [Runner.start] first asks the broker for the
    clock.  When that query raises, [Runner.start] raises the same error: the
    Runner is unchanged, no strategy is started and nothing is subscribed.
    When it answers, the toggle is on and the market is closed,
    [Runner.start] prints and returns; the Runner is unchanged, no strategy
    is started and nothing is subscribed.  When it answers and the toggle is
    off or the market is open, the strategies are started in order.  When
    every [start] returns, [Runner.start] subscribes to quotes, trades and
    order updates, runs the stream and returns.  When the position query of a
    strategy fails with an error other than the API error 40410000, all the
    strategies before it having started, [Runner.start] raises that same
    error, which is the one the [start] of that strategy raises: the
    strategies before it have been started, that strategy and the ones after
    it are unchanged, the ones after it are not queried, and nothing is
    subscribed. *)
Theorem runner_start (abort_if_closed : bool) (api : REST) (rn : Runner.t) :
  let r := Runner.start abort_if_closed api rn in
  let symbols := map symbol (Runner.strategies rn) in
  (forall e, get_clock api = inr e ->
     r = (rn, [Print LogCreatingAPI; CallGetClock], inr e)
     /\ position_queries (output_of r) = []
     /\ stream_effects (output_of r) = [])
  /\ (forall clock, get_clock api = inl clock ->
      (abort_if_closed = true -> is_open clock = false ->
         r = (rn, [Print LogCreatingAPI; CallGetClock; Print LogMarketsClosed], inl tt)
         /\ position_queries (output_of r) = []
         /\ stream_effects (output_of r) = [])
      /\ (abort_if_closed = false \/ is_open clock = true ->
          (Forall (position_known api) (Runner.strategies rn) ->
             result_of r = inl tt
             /\ position_queries (output_of r) = symbols
             /\ stream_effects (output_of r)
                = [SubscribeQuotes symbols; SubscribeTrades symbols;
                   SubscribeTradeUpdates; ConnectionRun]
             /\ state_of r
                = Runner.mk (map (started api (Runner.shared rn)) (Runner.strategies rn))
                            (Runner.shared rn))
          /\ (forall pre s post e,
                Runner.strategies rn = pre ++ s :: post ->
                Forall (position_known api) pre ->
                get_position api (symbol s) = inr e ->
                e <> APIError 40410000 ->
                result_of r = inr e
                /\ result_of (start api (s, Runner.shared rn)) = inr e
                /\ position_queries (output_of r) = map symbol (pre ++ [s])
                /\ stream_effects (output_of r) = []
                /\ state_of r
                   = Runner.mk (map (started api (Runner.shared rn)) pre ++ s :: post)
                               (Runner.shared rn)))).
Proof.
  cbv zeta. unfold Runner.start. rewrite !bind_emit. split.
  - intros e Hclock. rewrite Hclock. cbn. repeat split.
  - intros clock Hclock. rewrite Hclock. cbn [answer]. rewrite !bind_ret.
    split.
    + intros -> ->. cbn. repeat split.
    + intros Hgo.
      assert (Hc : abort_if_closed && negb (is_open clock) = false)
        by (destruct Hgo as [-> | ->]; [reflexivity | apply andb_false_r]).
      rewrite Hc, bind_emit. split.
      * intros Hall.
        destruct (run_start_ok api (Runner.shared rn) _ Hall) as (out & E & Hq & Hst).
        rewrite (bind_eq _ _ _ _ _ _ (for_strategies_eq _ _ _ _ _ _ E)).
        rewrite bind_get, !bind_emit.
        cbn [state_of output_of result_of fst snd emit Runner.strategies].
        assert (Hsym : map symbol (map (started api (Runner.shared rn)) (Runner.strategies rn))
                       = map symbol (Runner.strategies rn)).
        { rewrite map_map. apply map_ext. intros s. apply started_symbol. }
        rewrite Hsym. split; [reflexivity|].
        unfold position_queries, stream_effects in *.
        cbn [flat_map filter is_stream_effect app].
        rewrite flat_map_app, filter_app, Hq, Hst. cbn.
        rewrite app_nil_r. repeat split.
      * intros pre s post e Hss Hpre Hs Hne.
        destruct (run_start_raises api (Runner.shared rn) pre post s e Hpre Hs Hne)
          as (out & E & Hq & Hst).
        rewrite <- Hss in E.
        rewrite (bind_eq_raised _ _ _ _ _ _ (for_strategies_eq _ _ _ _ _ _ E)).
        cbn [state_of output_of result_of fst snd].
        split; [reflexivity|]. split.
        { destruct (start_unknown api s (Runner.shared rn) e Hs Hne) as (o & Es & _).
          rewrite Es. reflexivity. }
        unfold position_queries, stream_effects in *.
        cbn [flat_map filter is_stream_effect app].
        rewrite Hq, Hst. repeat split.
Qed.

Lemma runner_start_witness :
  get_clock Scenario.broker_closed = inl (mkClock false 0 3600000000000 86400000000000)
  /\ Runner.start true Scenario.broker_closed Scenario.runner_two
     = (Scenario.runner_two,
        [Print LogCreatingAPI; CallGetClock; Print LogMarketsClosed], inl tt).
Proof.
  split; [reflexivity|].
  exact (proj1 (proj1 (proj2 (runner_start true Scenario.broker_closed Scenario.runner_two)
                         (mkClock false 0 3600000000000 86400000000000) eq_refl)
                  eq_refl eq_refl)).
Defined.

(** C9, as the claim words it, fails in its second half.  The toggle is
    off, the Runner has a strategy for SNAP and one for UVXY, and the
    position query fails with the API error 500: [Runner.start] raises that
    error from the first [start], never queries UVXY and subscribes to
    nothing. *)
Lemma runner_start_stops_at_first_error :
  let r := Runner.start ABORT_IF_CLOSED Scenario.broker_500 Scenario.runner_two in
  ABORT_IF_CLOSED = false
  /\ map symbol (Runner.strategies Scenario.runner_two) = ["SNAP"; "UVXY"]%string
  /\ result_of r = inr (APIError 500)
  /\ position_queries (output_of r) = ["SNAP"%string]
  /\ stream_effects (output_of r) = [].
Proof. cbv zeta. repeat split. Qed.

End StartUp.

(** ** Symbols in upper case *)

Section Symbols.

Import TickTakerStrategy.








End Symbols.

(** ** The registry stays well formed *)

Section RegistryInvariant.

Import TickTakerStrategy.

Lemma init_wf : registry_wf (Runner.shared Runner.init).
Proof. split; [apply NoDup_nil | apply Forall_nil]. Qed.

Lemma write_wf (h : Heap.t) (d : Py.dict ref) (r : ref) (o : Order.t) (x : Q) :
  registry_wf (Shared.mk h d) ->
  Heap.read h r = Some o ->
  registry_wf (Shared.mk (Heap.write h r (Order.set_filled_quantity o x)) d).
Proof.
  intros [Hnd Hall] Hr. split; [exact Hnd|]. cbn in *.
  eapply Forall_impl; [|exact Hall]. intros [k r'] (o' & Hr' & Hid). cbn in *.
  destruct (Nat.eq_dec r r') as [<-|Hne].
  - exists (Order.set_filled_quantity o x).
    split; [apply (read_write_same _ _ o); exact Hr|]. cbn.
    unfold Heap.read in Hr. congruence.
  - exists o'. split; [rewrite read_write_other by exact Hne; exact Hr' | exact Hid].
Qed.

Lemma remove_keys_incl {V : Type} (d : Py.dict V) (k k' : string) :
  In k' (Py.keys (Py.remove d k)) -> In k' (Py.keys d).
Proof.
  induction d as [|[k0 v] d IH]; cbn; [tauto|].
  destruct (String.eqb k0 k); cbn; [tauto|]. intros [H|H]; [left; exact H | right; apply IH; exact H].
Qed.

Lemma remove_wf (h : Heap.t) (d : Py.dict ref) (k : string) :
  registry_wf (Shared.mk h d) -> registry_wf (Shared.mk h (Py.remove d k)).
Proof.
  intros [Hnd Hall]. cbn in *. split; cbn.
  - induction d as [|[k0 v] d IH]; cbn in *; [apply NoDup_nil|].
    inversion Hnd as [|? ? Hnotin Hnd']; subst. inversion Hall; subst.
    destruct (String.eqb k0 k); [exact Hnd'|]. cbn. apply NoDup_cons.
    + intros Hin. apply Hnotin. apply (remove_keys_incl d k). exact Hin.
    + apply IH; assumption.
  - induction Hall as [|[k0 v] d Hkv Hall IH]; cbn; [apply Forall_nil|].
    inversion Hnd; subst.
    destruct (String.eqb k0 k); [exact Hall|]. apply Forall_cons; [exact Hkv | apply IH; assumption].
Qed.

Lemma get_in {V : Type} (d : Py.dict V) (k : string) (v : V) :
  Py.get d k = Some v -> In (k, v) d.
Proof.
  induction d as [|[k0 v0] d IH]; cbn; [discriminate|].
  destruct (String.eqb_spec k0 k) as [->|Hne].
  - intros E. inversion E. left; reflexivity.
  - intros E. right. apply IH. exact E.
Qed.

(** What the Runner hands to the hook: an Order object registered under its
    own id. *)
Lemma lookup_registered (sh : Shared.t) (order_id : string) (order : ref) :
  registry_wf sh ->
  Py.get (Shared.orders sh) order_id = Some order ->
  exists o, Heap.read (Shared.heap sh) order = Some o
            /\ Order.id o = order_id
            /\ Py.get (Shared.orders sh) (Order.id o) = Some order.
Proof.
  intros [_ Hall] Hg. rewrite Forall_forall in Hall.
  destruct (Hall _ (get_in _ _ _ Hg)) as (o & Hr & Hid). cbn in *.
  exists o. split; [exact Hr|]. split; [exact Hid|]. rewrite Hid. exact Hg.
Qed.

Lemma is_fill_dec (event : string) : {is_fill event} + {~ is_fill event}.
Proof.
  unfold is_fill.
  destruct (string_dec event "fill"); [left; left; assumption|].
  destruct (string_dec event "partial_fill"); [left; right; assumption|].
  right; tauto.
Qed.

Lemma is_cancel_dec (event : string) : {is_cancel event} + {~ is_cancel event}.
Proof.
  unfold is_cancel.
  destruct (string_dec event "canceled"); [left; left; assumption|].
  destruct (string_dec event "rejected"); [left; right; assumption|].
  right; tauto.
Qed.

Lemma is_fill_not_cancel (event : string) : is_fill event -> ~ is_cancel event.
Proof. intros [-> | ->] [H|H]; discriminate. Qed.

(** The body of the loop of [Runner.on_trade_updates] keeps the registry
    well formed. *)
Lemma deliver_wf (data : Order.Data) (w : world) :
  registry_wf (snd w) ->
  registry_wf (snd (state_of
    ((order <- Runner.lookup (Order.data_id data) ;;
      on_trade_updates (Order.event data) order data) w))).
Proof.
  intros Hwf. unfold Runner.lookup. rewrite bind_assoc, bind_get.
  destruct (Py.get (Shared.orders (snd w)) (Order.data_id data)) as [order|] eqn:Hg;
    [|exact Hwf].
  rewrite bind_ret.
  destruct (lookup_registered _ _ _ Hwf Hg) as (o & Hr & _ & Hg').
  destruct w as [self [h d]]. cbn [fst snd Shared.heap Shared.orders] in *.
  destruct (string_dec (Order.symbol o) (symbol self)) as [Hs|Hs].
  2:{ rewrite (update_foreign _ _ _ (self, Shared.mk h d) o Hr Hs). exact Hwf. }
  destruct (is_fill_dec (Order.event data)) as [Hf|Hf].
  - destruct (Order.is_filled (Order.set_filled_quantity o (Order.filled_qty data))) eqn:Hfull.
    + rewrite (update_fill_settles _ _ _ (self, Shared.mk h d) o Hr Hg' Hs Hf Hfull). cbn.
      apply remove_wf. apply write_wf; assumption.
    + rewrite (update_fill_partial _ _ _ (self, Shared.mk h d) o Hr Hs Hf Hfull). cbn.
      apply write_wf; assumption.
  - destruct (is_cancel_dec (Order.event data)) as [Hc|Hc].
    + rewrite (update_cancel _ _ data (self, Shared.mk h d) o Hr Hg' Hs Hc). cbn. apply remove_wf. exact Hwf.
    + rewrite (update_other _ _ _ (self, Shared.mk h d) o Hr Hf Hc). exact Hwf.
Qed.

Lemma run_strategies_wf (body : M world unit) :
  (forall w, registry_wf (snd w) -> registry_wf (snd (state_of (body w)))) ->
  forall (ss : list t) (sh : Shared.t),
    registry_wf sh ->
    registry_wf (snd (state_of (Runner.run_strategies body ss sh))).
Proof.
  intros Hbody ss. induction ss as [|s ss IH]; intros sh Hwf; cbn [Runner.run_strategies].
  - exact Hwf.
  - specialize (Hbody (s, sh) Hwf).
    destruct (body (s, sh)) as [[[s' sh'] out] [u|e]]; cbn in Hbody.
    + specialize (IH sh' Hbody).
      destruct (Runner.run_strategies body ss sh') as [[[ss' sh''] out'] r]. exact IH.
    + exact Hbody.
Qed.

Lemma on_trade_updates_wf (data : Order.Data) (rn : Runner.t) :
  registry_wf (Runner.shared rn) ->
  registry_wf (Runner.shared (state_of (Runner.on_trade_updates data rn))).
Proof.
  intros Hwf. unfold Runner.on_trade_updates. rewrite bind_get.
  destruct (Py.contains (Shared.orders (Runner.shared rn)) (Order.data_id data)) eqn:Hc;
    cbn [negb].
  - rewrite bind_ret, for_strategies_shared.
    apply run_strategies_wf; [intros w; apply deliver_wf | exact Hwf].
  - rewrite bind_modify, for_strategies_shared.
    apply run_strategies_wf; [intros w; apply deliver_wf|].
    destruct rn as [ss sh]. apply register_wf; assumption.
Qed.

Lemma run_strategies_keeps_shared (body : M world unit) :
  (forall w, snd (state_of (body w)) = snd w) ->
  forall (ss : list t) (sh : Shared.t),
    snd (state_of (Runner.run_strategies body ss sh)) = sh.
Proof.
  intros Hbody ss. induction ss as [|s ss IH]; intros sh; cbn [Runner.run_strategies].
  - reflexivity.
  - specialize (Hbody (s, sh)).
    destruct (body (s, sh)) as [[[s' sh'] out] [u|e]]; cbn in Hbody; subst sh'.
    + specialize (IH sh).
      destruct (Runner.run_strategies body ss sh) as [[[ss' sh''] out'] r]. exact IH.
    + reflexivity.
Qed.

Lemma for_strategies_keeps_shared (body : M world unit) (rn : Runner.t) :
  (forall w, snd (state_of (body w)) = snd w) ->
  Runner.shared (state_of (Runner.for_strategies body rn)) = Runner.shared rn.
Proof.
  intros H. rewrite for_strategies_shared. apply run_strategies_keeps_shared. exact H.
Qed.

Lemma on_quote_keeps_shared (quote : Quote.t) (w : world) :
  snd (state_of (on_quote quote w)) = snd w.
Proof. rewrite on_quote_eq. destruct (level_changed (fst w) quote); reflexivity. Qed.

Lemma on_trade_keeps_shared (api : REST) (data : Trade) (w : world) :
  snd (state_of (on_trade api data w)) = snd w.
Proof. destruct (on_trade_state api data w) as [-> | ->]; reflexivity. Qed.

Lemma stop_keeps_shared (api : REST) (w : world) :
  snd (state_of (stop api w)) = snd w.
Proof.
  unfold stop. rewrite bind_get, bind_emit. unfold answer, ret, raise.
  destruct (close_position api (symbol (fst w))); reflexivity.
Qed.

(** Quotes and trades leave the registry and the Order objects alone. *)
Lemma market_data_keeps_shared (api : REST) (liquidate_at : Z) (ev : Runner.Event)
      (rn : Runner.t) :
  (forall data, ev <> Runner.TradeUpdateEvent data) ->
  Runner.shared (state_of (Runner.dispatch api liquidate_at ev rn)) = Runner.shared rn.
Proof.
  intros Hev. destruct ev as [now data|data|data]; cbn [Runner.dispatch].
  - unfold Runner.on_quote. rewrite state_of_bind.
    assert (H1 : Runner.shared (state_of (Runner.for_strategies
                   (on_quote (Quote.from_data data)) rn)) = Runner.shared rn)
      by (apply for_strategies_keeps_shared; intros w; apply on_quote_keeps_shared).
    destruct (result_of _); [|exact H1].
    destruct (liquidate_at <=? now)%Z; [|exact H1].
    rewrite bind_emit. cbn [state_of fst].
    rewrite for_strategies_keeps_shared by (intros w; apply stop_keeps_shared).
    exact H1.
  - unfold Runner.on_trade. rewrite bind_emit. cbn [state_of fst].
    apply for_strategies_keeps_shared. intros w. apply on_trade_keeps_shared.
  - exfalso. exact (Hev data eq_refl).
Qed.

Lemma dispatch_wf (api : REST) (liquidate_at : Z) (ev : Runner.Event) (rn : Runner.t) :
  registry_wf (Runner.shared rn) ->
  registry_wf (Runner.shared (state_of (Runner.dispatch api liquidate_at ev rn))).
Proof.
  intros Hwf. destruct ev as [now data|data|data].
  - rewrite market_data_keeps_shared by discriminate. exact Hwf.
  - rewrite market_data_keeps_shared by discriminate. exact Hwf.
  - apply on_trade_updates_wf. exact Hwf.
Qed.

(** From an empty registry on, whatever the stream delivers, every key of
    the registry is the id of the Order object registered under it. *)
Lemma run_wf (api : REST) (liquidate_at : Z) (evs : list Runner.Event) (rn : Runner.t) :
  registry_wf (Runner.shared rn) ->
  registry_wf (Runner.shared (state_of (Runner.run api liquidate_at evs rn))).
Proof.
  unfold Runner.run. revert rn. induction evs as [|ev evs IH]; intros rn Hwf;
    cbn [for_each]; [exact Hwf|].
  rewrite state_of_bind.
  pose proof (dispatch_wf api liquidate_at ev rn Hwf) as Hstep.
  destruct (result_of _); [apply IH; exact Hstep | exact Hstep].
Qed.

Lemma run_strategies_idle (body : M world unit) (sh : Shared.t) (ss : list t) :
  (forall s, body (s, sh) = ((s, sh), [], inl tt)) ->
  Runner.run_strategies body ss sh = ((ss, sh), [], inl tt).
Proof.
  intros H. induction ss as [|s ss IH]; cbn [Runner.run_strategies]; [reflexivity|].
  rewrite H, IH. reflexivity.
Qed.

(** The first report of an order, of a kind that is neither a fill nor a
    cancellation, does nothing but register the order. *)
Lemma first_report_registers (data : Order.Data) (rn : Runner.t) :
  registry_wf (Runner.shared rn) ->
  Py.contains (Shared.orders (Runner.shared rn)) (Order.data_id data) = false ->
  ~ is_fill (Order.event data) ->
  ~ is_cancel (Order.event data) ->
  Runner.on_trade_updates data rn = (Runner.register data rn, [], inl tt).
Proof.
  intros Hwf Hfresh Hf Hc. unfold Runner.on_trade_updates.
  rewrite bind_get, Hfresh. cbn [negb]. rewrite bind_modify.
  destruct rn as [ss sh]. cbn [Runner.shared] in *.
  pose proof (register_wf data ss sh Hwf Hfresh) as Hwf'.
  pose proof (register_shared data ss sh Hfresh) as Hsh.
  assert (Hss : Runner.strategies (Runner.register data (Runner.mk ss sh)) = ss)
    by reflexivity.
  remember (Runner.register data (Runner.mk ss sh)) as rn' eqn:Ern'.
  destruct rn' as [ss' sh']. cbn [Runner.shared Runner.strategies] in *. subst ss'.
  apply for_strategies_eq. cbn [Runner.shared Runner.strategies].
  apply run_strategies_idle. intros s.
  assert (Hg : exists r, Py.get (Shared.orders sh') (Order.data_id data) = Some r).
  { destruct (Py.get (Shared.orders sh') (Order.data_id data)) as [r|] eqn:E;
      [exists r; reflexivity|].
    exfalso. apply get_None_keys in E. apply E. rewrite Hsh. cbn.
    unfold Py.keys. rewrite map_app. apply in_or_app. right. left. reflexivity. }
  destruct Hg as [r Hg].
  destruct (lookup_registered _ _ _ Hwf' Hg) as (o & Hr & _ & _).
  unfold Runner.lookup. rewrite bind_assoc, bind_get. cbn [snd]. rewrite Hg, bind_ret.
  apply (update_other _ _ _ (s, sh') o Hr Hf Hc).
Qed.

(** Two remarks on the loop of [Runner.on_trade_updates], on concrete runs.
    With a strategy for SNAP and one for UVXY, the fill that completes a SNAP
    order is settled by the first strategy, and the look-up for the second
    one raises [KeyError], the order being gone. *)
Remark lookup_after_settlement_raises :
  let r := Runner.on_trade_updates Scenario.fill_x1 Scenario.runner_two in
  result_of r = inr (KeyError "x1")
  /\ map position (Runner.strategies (state_of r)) = [0 + 100 * 1; 0]
  /\ Shared.orders (Runner.shared (state_of r)) = [].
Proof. cbv zeta. repeat split. Qed.

(** A fill that is delivered again after the settlement finds no order under
    its id, builds a new one and settles that one too. *)
Remark redelivered_fill_settles_again :
  let once := state_of (Runner.on_trade_updates Scenario.fill_x1 Scenario.runner100) in
  let twice := state_of (Runner.on_trade_updates Scenario.fill_x1 once) in
  map position (Runner.strategies once) = [0 + 100 * 1]
  /\ map position (Runner.strategies twice) = [0 + 100 * 1 + 100 * 1].
Proof. cbv zeta. split; reflexivity. Qed.

End RegistryInvariant.

(** * Further properties of the code *)

(** ** The spread of a quote *)

Section Spread.

(** A quote whose ask is its bid has the spread 0, not 0.01. *)
Lemma spread_tick_apart (q : Quote.t) :
  Quote.spread q == 1 # 100 -> ~ Quote.ask q == Quote.bid q.
Proof.
  unfold Quote.spread, Py.round2, Py.round_half_even. intros H E. cbv zeta in H.
  assert (E0 : (Quote.ask q - Quote.bid q) * 100 == 0) by (rewrite E; ring).
  assert (Ef : Qfloor ((Quote.ask q - Quote.bid q) * 100) = 0%Z)
    by (rewrite E0; reflexivity).
  rewrite Ef in H.
  assert (Hlt : Py.Qlt_bool ((Quote.ask q - Quote.bid q) * 100 - inject_Z 0) (1 # 2) = true).
  { unfold Py.Qlt_bool. apply negb_true_iff.
    destruct (Qle_bool (1 # 2) ((Quote.ask q - Quote.bid q) * 100 - inject_Z 0)) eqn:Hle;
      [|reflexivity].
    apply Qle_bool_iff in Hle. rewrite E0 in Hle. exfalso.
    change (inject_Z 0) with 0 in Hle. lra. }
  rewrite Hlt in H. cbv iota in H. change (inject_Z 0 / 100) with (0 / 100) in H.
  apply Qeq_bool_iff in H. discriminate.
Qed.

End Spread.

(** ** Quotes *)

Section Quotes.

Import TickTakerStrategy.

Lemma for_each_on_quote_cons (q : Quote.t) (qs : list Quote.t) (w : world) :
  for_each (q :: qs) on_quote w =
    (state_of (for_each qs on_quote (state_of (on_quote q w))),
     output_of (on_quote q w) ++ output_of (for_each qs on_quote (state_of (on_quote q w))),
     result_of (for_each qs on_quote (state_of (on_quote q w)))).
Proof.
  cbn [for_each].
  apply (bind_eq (on_quote q) (fun _ => for_each qs on_quote) w
                 (state_of (on_quote q w)) (output_of (on_quote q w)) tt).
  rewrite on_quote_eq. destruct (level_changed (fst w) q); reflexivity.
Qed.

Lemma level_change_prints_app (o1 o2 : list Effect) :
  level_change_prints (o1 ++ o2) = level_change_prints o1 ++ level_change_prints o2.
Proof. apply flat_map_app. Qed.

(** X2. A sequence of quotes never raises and touches nothing but the two
    quotes and the counter: [level_changes] grows by exactly the number of
    level changes printed, and symbol, limits, position and registry are as
    before. *)
Theorem level_changes_counts_prints (qs : list Quote.t) (w : world) :
  let r := for_each qs on_quote w in
  result_of r = inl tt
  /\ level_changes (fst (state_of r))
     = (level_changes (fst w)
        + Z.of_nat (List.length (level_change_prints (output_of r))))%Z
  /\ symbol (fst (state_of r)) = symbol (fst w)
  /\ max_quantity (fst (state_of r)) = max_quantity (fst w)
  /\ quantity_per_trade (fst (state_of r)) = quantity_per_trade (fst w)
  /\ position (fst (state_of r)) = position (fst w)
  /\ snd (state_of r) = snd w.
Proof.
  cbv zeta. revert w. induction qs as [|q qs IH]; intros w.
  - cbn. repeat split. lia.
  - rewrite for_each_on_quote_cons. cbn [state_of output_of result_of fst snd].
    specialize (IH (state_of (on_quote q w))).
    destruct IH as (Hr & Hl & Hs & Hm & Hq & Hp & Hsh).
    rewrite Hr, Hl, Hs, Hm, Hq, Hp, Hsh, level_change_prints_app, length_app.
    rewrite on_quote_eq.
    destruct (level_changed (fst w) q); cbn; repeat split; lia.
Qed.

End Quotes.

(** ** Trades *)

Section Trades.

Import TickTakerStrategy.

Lemma submitted_app (o1 o2 : list Effect) :
  submitted (o1 ++ o2) = submitted o1 ++ submitted o2.
Proof. apply flat_map_app. Qed.

Lemma submitted_prints (lines : list LogLine) : submitted (map Print lines) = [].
Proof. induction lines as [|l lines IH]; [reflexivity | exact IH]. Qed.

(** X6. [on_trade] returns whatever the broker answers to a submission: an
    error is printed and dropped.  The broker's answers change neither the
    strategy afterwards nor the orders that are submitted; at most two orders
    are submitted for one trade. *)
Theorem on_trade_absorbs_broker_errors (api api' : REST) (data : Trade) (w : world) :
  result_of (on_trade api data w) = inl tt
  /\ state_of (on_trade api data w) = state_of (on_trade api' data w)
  /\ submitted (output_of (on_trade api data w))
     = submitted (output_of (on_trade api' data w))
  /\ (List.length (submitted (output_of (on_trade api data w))) <= 2)%nat.
Proof.
  destruct (ignore_trade (fst w) data) as [lines|] eqn:H.
  - destruct (on_trade_ignored api data w lines H) as [E _].
    destruct (on_trade_ignored api' data w lines H) as [E' _].
    rewrite E, E'. cbn [state_of output_of result_of fst snd].
    rewrite submitted_prints. repeat split. cbn. lia.
  - rewrite (on_trade_eq api data w H), (on_trade_eq api' data w H). cbv zeta.
    destruct (buy_signal w data).
    + destruct (sell_signal (mark_traded w) data); cbn; repeat split; lia.
    + destruct (sell_signal w data); cbn; repeat split; lia.
Qed.

(** An order that [on_trade] submits as a sell comes from its sell block. *)
Lemma sell_submitted (api : REST) (data : Trade) (w : world) (req : OrderRequest) :
  In (CallSubmitOrder req) (output_of (on_trade api data w)) ->
  req_side req = "sell"%string ->
  sell_signal w data = true /\ req = sell_request w.
Proof.
  intros Hin Hside.
  destruct (ignore_trade (fst w) data) as [lines|] eqn:H.
  - destruct (on_trade_ignored api data w lines H) as [E _]. rewrite E in Hin.
    cbn in Hin. apply in_map_iff in Hin. destruct Hin as (l & El & _). discriminate.
  - rewrite (on_trade_eq api data w H) in Hin. cbv zeta in Hin.
    unfold output_of in Hin; cbn [fst snd] in Hin.
    destruct Hin as [E|Hin]; [discriminate|]. apply in_app_or in Hin.
    destruct (buy_signal w data) eqn:Hb.
    + destruct Hin as [[E|[E|[]]] | Hin]; try discriminate.
      * inversion E; subst req. discriminate.
      * change (sell_signal (mark_traded w) data) with (sell_signal w data) in Hin.
        destruct (sell_signal w data);
          [destruct Hin as [E|[E|[]]] | destruct Hin as [E|[]]]; try discriminate.
        inversion E. split; reflexivity.
    + destruct Hin as [[E|[]] | Hin]; try discriminate.
      destruct (sell_signal w data);
        [destruct Hin as [E|[E|[]]] | destruct Hin as [E|[]]]; try discriminate.
      inversion E. split; reflexivity.
Qed.

(** X8. A sell is submitted only at the current bid and only when the total
    position is positive; its quantity is
    [min(quantity_per_trade, total position)], so it never asks for more than
    the total position and the total position less the submitted quantity is
    not negative. *)
Theorem sell_within_total_position (api : REST) (data : Trade) (w : world)
        (req : OrderRequest) :
  In (CallSubmitOrder req) (output_of (on_trade api data w)) ->
  req_side req = "sell"%string ->
  0 < total_position w
  /\ price data == Quote.bid (current_quote (fst w))
  /\ req_limit_price req = Quote.bid (current_quote (fst w))
  /\ req_qty req = Py.min (quantity_per_trade (fst w)) (total_position w)
  /\ req_qty req <= total_position w
  /\ 0 <= total_position w - req_qty req.
Proof.
  intros Hin Hside.
  destruct (sell_submitted api data w req Hin Hside) as [Hs ->].
  unfold sell_signal in Hs. apply andb_true_iff in Hs. destruct Hs as [Hs Hcan].
  apply andb_true_iff in Hs. destruct Hs as [Hhit _].
  unfold can_sell in Hcan. apply Qlt_bool_iff in Hcan.
  unfold bid_hit in Hhit. apply Qeq_bool_iff in Hhit.
  pose proof (min_le_r (quantity_per_trade (fst w)) (total_position w)) as Hle.
  split; [exact Hcan|]. split; [exact Hhit|]. split; [reflexivity|].
  split; [reflexivity|]. cbn [req_qty sell_request]. unfold sellable_quantity.
  split; lra.
Qed.

Lemma sell_within_total_position_witness :
  In (CallSubmitOrder sell_100_at_1000)
     (output_of (on_trade Scenario.broker trade_at_bid holding))
  /\ req_side sell_100_at_1000 = "sell"%string
  /\ req_qty sell_100_at_1000 <= total_position holding.
Proof.
  assert (Hin : In (CallSubmitOrder sell_100_at_1000)
                   (output_of (on_trade Scenario.broker trade_at_bid holding)))
    by (vm_compute; auto).
  split; [exact Hin|]. split; [reflexivity|].
  exact (proj1 (proj2 (proj2 (proj2 (proj2
           (sell_within_total_position Scenario.broker trade_at_bid holding
                                       sell_100_at_1000 Hin eq_refl)))))).
Defined.

(** A trade cannot hit the ask and the bid of a level that is [level_ok]
    with both imbalances. *)
Lemma signals_exclusive (w : world) (data : Trade) :
  level_ok (fst w) -> buy_signal w data = true -> sell_signal w data = true -> False.
Proof.
  unfold buy_signal, sell_signal, ask_hit, bid_hit, bid_imbalance, ask_imbalance.
  intros Hok Hb Hs.
  apply andb_true_iff in Hb. destruct Hb as [Hb _].
  apply andb_true_iff in Hb. destruct Hb as [Hask Hbi].
  apply andb_true_iff in Hs. destruct Hs as [Hs _].
  apply andb_true_iff in Hs. destruct Hs as [Hbid Hai].
  apply Qeq_bool_iff in Hask, Hbid. apply Qlt_bool_iff in Hbi, Hai.
  unfold IMBALANCE_THRESHOLD in *.
  destruct Hok as [[H0 H1] | Htick].
  - rewrite H0, H1 in Hbi. lra.
  - apply spread_tick_apart in Htick. apply Htick. rewrite <- Hask, <- Hbid. reflexivity.
Qed.

(** X7. On a level that is the empty one of [__init__] or has the spread
    0.01, one trade makes [on_trade] submit at most one order: the buy and the
    sell signal exclude each other. *)
Theorem one_order_per_trade (api : REST) (data : Trade) (w : world) :
  level_ok (fst w) ->
  (List.length (submitted (output_of (on_trade api data w))) <= 1)%nat.
Proof.
  intros Hok.
  destruct (ignore_trade (fst w) data) as [lines|] eqn:H.
  - destruct (on_trade_ignored api data w lines H) as [E _]. rewrite E.
    cbn [output_of fst snd]. rewrite submitted_prints. cbn. lia.
  - rewrite (on_trade_eq api data w H). cbv zeta.
    destruct (buy_signal w data) eqn:Hb.
    + change (sell_signal (mark_traded w) data) with (sell_signal w data).
      destruct (sell_signal w data) eqn:Hs.
      * exfalso. exact (signals_exclusive w data Hok Hb Hs).
      * cbn. lia.
    + destruct (sell_signal w data); cbn; lia.
Qed.

Lemma one_order_per_trade_witness :
  level_ok (fst (Scenario.at_level1 500))
  /\ (List.length (submitted (output_of
        (on_trade Scenario.broker Scenario.trade1 (Scenario.at_level1 500)))) <= 1)%nat.
Proof.
  assert (H : level_ok (fst (Scenario.at_level1 500))) by (right; reflexivity).
  split; [exact H|].
  exact (one_order_per_trade Scenario.broker Scenario.trade1 (Scenario.at_level1 500) H).
Defined.

End Trades.

(** ** What each notification can change *)

Section Frames.

Import TickTakerStrategy.

Lemma same_but_position_refl (s : t) : same_but_position s s.
Proof. repeat split. Qed.

Lemma same_but_position_trans (s1 s2 s3 : t) :
  same_but_position s1 s2 -> same_but_position s2 s3 -> same_but_position s1 s3.
Proof. unfold same_but_position. intuition congruence. Qed.

Lemma only_position_bind {A B : Type} (m : M world A) (k : A -> M world B) :
  only_position m -> (forall a, only_position (k a)) -> only_position (bind m k).
Proof.
  intros Hm Hk w. rewrite state_of_bind.
  destruct (result_of (m w)); [|apply Hm].
  eapply same_but_position_trans; [apply Hm | apply Hk].
Qed.

Lemma only_position_ret {A : Type} (a : A) : only_position (ret a).
Proof. intros w. apply same_but_position_refl. Qed.

Lemma only_position_raise {A : Type} (e : exn) : only_position (@raise world A e).
Proof. intros w. apply same_but_position_refl. Qed.

Lemma only_position_emit (x : Effect) : only_position (emit x).
Proof. intros w. apply same_but_position_refl. Qed.

Lemma only_position_get : only_position get.
Proof. intros w. apply same_but_position_refl. Qed.

Lemma only_position_deref (order : ref) : only_position (deref order).
Proof.
  unfold deref. apply only_position_bind; [apply only_position_get|]. intros w.
  destruct (Heap.read (Shared.heap (snd w)) order);
    [apply only_position_ret | apply only_position_raise].
Qed.

Lemma only_position_del_order (key : string) : only_position (del_order key).
Proof.
  unfold del_order. apply only_position_bind; [apply only_position_get|]. intros w.
  destruct (Py.del (Shared.orders (snd w)) key);
    [intros w'; apply same_but_position_refl | apply only_position_raise].
Qed.

Lemma only_position_on_order_settled (order : ref) : only_position (on_order_settled order).
Proof.
  unfold on_order_settled.
  apply only_position_bind; [apply only_position_deref | intros o].
  apply only_position_bind; [apply only_position_emit | intros _].
  apply only_position_bind; [apply only_position_get | intros w].
  apply only_position_bind; [intros w'; repeat split | intros _].
  apply only_position_del_order.
Qed.

Lemma only_position_on_order_cancelled (event : string) (order : ref) :
  only_position (on_order_cancelled event order).
Proof.
  unfold on_order_cancelled.
  apply only_position_bind; [apply only_position_deref | intros o].
  apply only_position_bind; [apply only_position_emit | intros _].
  apply only_position_del_order.
Qed.

Lemma only_position_on_trade_updates (event : string) (order : ref) (data : Order.Data) :
  only_position (on_trade_updates event order data).
Proof.
  unfold on_trade_updates.
  apply only_position_bind; [apply only_position_deref | intros o].
  apply only_position_bind; [apply only_position_get | intros w].
  destruct (negb (Order.symbol o =? symbol (fst w))%string); [apply only_position_ret|].
  apply only_position_bind.
  - destruct ((event =? "fill")%string || (event =? "partial_fill")%string);
      [|apply only_position_ret].
    apply only_position_bind; [intros w'; repeat split | intros _].
    apply only_position_bind; [apply only_position_deref | intros o'].
    destruct (Order.is_filled o');
      [apply only_position_on_order_settled | apply only_position_ret].
  - intros _.
    destruct ((event =? "canceled")%string || (event =? "rejected")%string);
      [apply only_position_on_order_cancelled | apply only_position_ret].
Qed.

Lemma only_position_deliver (data : Order.Data) :
  only_position (order <- Runner.lookup (Order.data_id data) ;;
                 on_trade_updates (Order.event data) order data).
Proof.
  apply only_position_bind; [|intros order; apply only_position_on_trade_updates].
  unfold Runner.lookup. apply only_position_bind; [apply only_position_get|]. intros w.
  destruct (Py.get (Shared.orders (snd w)) (Order.data_id data));
    [apply only_position_ret | apply only_position_raise].
Qed.

Lemma Forall2_refl_list {X : Type} (R : X -> X -> Prop) (l : list X) :
  (forall x, R x x) -> Forall2 R l l.
Proof. intros H. induction l; constructor; auto. Qed.

(** The loop over the strategies relates each strategy to its later state
    as its body does. *)
Lemma run_strategies_related (R : t -> t -> Prop) (body : M world unit) :
  (forall s, R s s) ->
  (forall w, R (fst w) (fst (state_of (body w)))) ->
  forall (ss : list t) (sh : Shared.t),
    Forall2 R ss (fst (state_of (Runner.run_strategies body ss sh))).
Proof.
  intros Hrefl Hbody ss. induction ss as [|s ss IH]; intros sh;
    cbn [Runner.run_strategies].
  - constructor.
  - specialize (Hbody (s, sh)).
    destruct (body (s, sh)) as [[[s' sh'] out] [u|e]]; cbn in Hbody.
    + specialize (IH sh').
      destruct (Runner.run_strategies body ss sh') as [[[ss' sh''] out'] r]; cbn in *.
      constructor; assumption.
    + cbn. constructor; [exact Hbody|].
      apply Forall2_refl_list. exact Hrefl.
Qed.

Lemma for_strategies_strategies (body : M world unit) (rn : Runner.t) :
  Runner.strategies (state_of (Runner.for_strategies body rn))
  = fst (state_of (Runner.run_strategies body (Runner.strategies rn) (Runner.shared rn))).
Proof.
  unfold Runner.for_strategies.
  destruct (Runner.run_strategies _ _ _) as [[[ss sh] out] r]. reflexivity.
Qed.

Lemma for_strategies_related (R : t -> t -> Prop) (body : M world unit) (rn : Runner.t) :
  (forall s, R s s) ->
  (forall w, R (fst w) (fst (state_of (body w)))) ->
  Forall2 R (Runner.strategies rn)
          (Runner.strategies (state_of (Runner.for_strategies body rn))).
Proof.
  intros Hrefl Hbody. rewrite for_strategies_strategies.
  apply run_strategies_related; assumption.
Qed.

Lemma Forall2_trans_list {X : Type} (R : X -> X -> Prop) (l1 l2 l3 : list X) :
  (forall x y z, R x y -> R y z -> R x z) ->
  Forall2 R l1 l2 -> Forall2 R l2 l3 -> Forall2 R l1 l3.
Proof.
  intros Ht H12. revert l3. induction H12 as [|x y l1 l2 Hxy _ IH]; intros l3 H23;
    inversion H23; subst; constructor; eauto.
Qed.

End Frames.

Section Related.

Import TickTakerStrategy.

Variable R : t -> t -> Prop.
Hypothesis R_refl : forall s, R s s.
Hypothesis R_trans : forall s1 s2 s3, R s1 s2 -> R s2 s3 -> R s1 s3.
Hypothesis R_on_quote :
  forall data w, R (fst w) (fst (state_of (on_quote (Quote.from_data data) w))).
Hypothesis R_on_trade :
  forall api data w, R (fst w) (fst (state_of (on_trade api data w))).
Hypothesis R_stop : forall api w, R (fst w) (fst (state_of (stop api w))).
Hypothesis R_update :
  forall data w,
    R (fst w)
      (fst (state_of ((order <- Runner.lookup (Order.data_id data) ;;
                       on_trade_updates (Order.event data) order data) w))).

(** A relation that every method of the strategy respects holds between the
    strategies before and after a notification. *)
Lemma dispatch_related (api : REST) (liquidate_at : Z) (ev : Runner.Event) (rn : Runner.t) :
  Forall2 R (Runner.strategies rn)
          (Runner.strategies (state_of (Runner.dispatch api liquidate_at ev rn))).
Proof.
  destruct ev as [now data|data|data]; cbn [Runner.dispatch].
  - unfold Runner.on_quote. rewrite state_of_bind.
    assert (H1 : Forall2 R (Runner.strategies rn)
                   (Runner.strategies (state_of (Runner.for_strategies
                      (on_quote (Quote.from_data data)) rn))))
      by (apply for_strategies_related; [exact R_refl | apply R_on_quote]).
    destruct (result_of _); [|exact H1].
    destruct (liquidate_at <=? now)%Z; [|exact H1].
    rewrite bind_emit. cbn [state_of fst].
    eapply Forall2_trans_list; [exact R_trans | exact H1 |].
    apply for_strategies_related; [exact R_refl | apply R_stop].
  - unfold Runner.on_trade. rewrite bind_emit. cbn [state_of fst].
    apply for_strategies_related; [exact R_refl | apply R_on_trade].
  - unfold Runner.on_trade_updates. rewrite bind_get.
    destruct (negb (Py.contains (Shared.orders (Runner.shared rn)) (Order.data_id data))).
    + rewrite bind_modify.
      change (Runner.strategies rn)
        with (Runner.strategies (Runner.register data rn)) at 1.
      apply for_strategies_related; [exact R_refl | apply R_update].
    + rewrite bind_ret.
      apply for_strategies_related; [exact R_refl | apply R_update].
Qed.

Lemma run_related (api : REST) (liquidate_at : Z) (evs : list Runner.Event) (rn : Runner.t) :
  Forall2 R (Runner.strategies rn)
          (Runner.strategies (state_of (Runner.run api liquidate_at evs rn))).
Proof.
  unfold Runner.run. revert rn. induction evs as [|ev evs IH]; intros rn; cbn [for_each].
  - apply Forall2_refl_list. exact R_refl.
  - rewrite state_of_bind.
    pose proof (dispatch_related api liquidate_at ev rn) as Hstep.
    destruct (result_of _); [|exact Hstep].
    eapply Forall2_trans_list; [exact R_trans | exact Hstep | apply IH].
Qed.

End Related.

(** ** Invariants of the strategies over a run *)

Section RunInvariants.

Import TickTakerStrategy.

Lemma keeps_all (P : t -> Prop) (l l' : list t) :
  Forall2 (keeps P) l l' -> Forall P l -> Forall P l'.
Proof.
  induction 1 as [|s s' l l' Hk _ IH]; intros Hall; [constructor|].
  inversion Hall; subst. constructor; [apply Hk; assumption | apply IH; assumption].
Qed.

Lemma stop_self (api : REST) (w : world) : fst (state_of (stop api w)) = fst w.
Proof.
  unfold stop. rewrite bind_get, bind_emit. unfold answer, ret, raise.
  destruct (close_position api (symbol (fst w))); reflexivity.
Qed.

(** A property of the two quotes, the counter, the symbol and the limits
    that [on_quote] and [on_trade] keep is kept by every run. *)
Lemma run_keeps (P : t -> Prop) :
  (forall s s', same_but_position s s' -> P s -> P s') ->
  (forall data w, P (fst w) -> P (fst (state_of (on_quote (Quote.from_data data) w)))) ->
  (forall w, P (fst w) -> P (fst (mark_traded w))) ->
  forall api liquidate_at evs rn,
    Forall P (Runner.strategies rn) ->
    Forall P (Runner.strategies (state_of (Runner.run api liquidate_at evs rn))).
Proof.
  intros Hpos Hquote Hmark api liquidate_at evs rn.
  apply keeps_all. apply run_related; unfold keeps.
  - auto.
  - auto.
  - exact Hquote.
  - intros api' data w Hp.
    destruct (on_trade_state api' data w) as [-> | ->]; [exact Hp | apply Hmark; exact Hp].
  - intros api' w Hp. rewrite stop_self. exact Hp.
  - intros data w. apply Hpos. apply only_position_deliver.
Qed.

(** X9. A strategy starts with [has_traded] false on both quotes, and no
    notification ever sets it: after any run of the stream, the current and
    the previous quote of every strategy still have [has_traded] false, so
    the second test of [on_trade] never holds. *)
Theorem has_traded_stays_false (api : REST) (liquidate_at : Z) (evs : list Runner.Event)
        (rn : Runner.t) :
  (forall _symbol max_quantity quantity_per_trade now1 now2,
      never_traded (init _symbol max_quantity quantity_per_trade now1 now2))
  /\ (Forall never_traded (Runner.strategies rn) ->
      Forall never_traded
             (Runner.strategies (state_of (Runner.run api liquidate_at evs rn)))).
Proof.
  split; [intros; split; reflexivity|].
  apply run_keeps.
  - intros s s' (_ & _ & _ & Hc & Hp & _) [H1 H2]. unfold never_traded.
    rewrite Hc, Hp. split; assumption.
  - intros data w [H1 H2]. rewrite on_quote_eq.
    destruct (level_changed (fst w) (Quote.from_data data)); [|split; assumption].
    split; [reflexivity | exact H1].
  - intros w H. exact H.
Qed.

Lemma has_traded_stays_false_witness :
  Forall never_traded (Runner.strategies Scenario.runner100)
  /\ Forall never_traded
            (Runner.strategies
               (state_of (Runner.run Scenario.broker Scenario.liquidate_at
                                     Scenario.late_reports Scenario.runner100))).
Proof.
  assert (H : Forall never_traded (Runner.strategies Scenario.runner100))
    by (repeat constructor).
  split; [exact H|].
  exact (proj2 (has_traded_stays_false Scenario.broker Scenario.liquidate_at
                  Scenario.late_reports Scenario.runner100) H).
Defined.

(** X3. A strategy starts on the empty level 0/0 with sizes 0, and a quote
    becomes its level only with the spread 0.01: after any run of the stream,
    the current level of every strategy is one of the two, on which a trade
    cannot raise both signals. *)
Theorem level_stays_ok (api : REST) (liquidate_at : Z) (evs : list Runner.Event)
        (rn : Runner.t) :
  (forall _symbol max_quantity quantity_per_trade now1 now2,
      level_ok (init _symbol max_quantity quantity_per_trade now1 now2))
  /\ (Forall level_ok (Runner.strategies rn) ->
      Forall level_ok (Runner.strategies (state_of (Runner.run api liquidate_at evs rn))))
  /\ (forall s sh data,
        level_ok s -> buy_signal (s, sh) data = true -> sell_signal (s, sh) data = true ->
        False).
Proof.
  split; [intros; left; split; reflexivity|].
  split.
  - apply run_keeps.
    + intros s s' (_ & _ & _ & Hc & _) H. unfold level_ok. rewrite Hc. exact H.
    + intros data w H. rewrite on_quote_eq.
      destruct (level_changed (fst w) (Quote.from_data data)) eqn:Hl; [|exact H].
      right. unfold level_changed in Hl. apply andb_true_iff in Hl.
      destruct Hl as [_ Hl]. apply Qeq_bool_iff in Hl. exact Hl.
    + intros w H. exact H.
  - intros s sh data. apply (signals_exclusive (s, sh) data).
Qed.

Lemma level_stays_ok_witness :
  Forall level_ok (Runner.strategies Scenario.runner100)
  /\ Forall level_ok
            (Runner.strategies
               (state_of (Runner.run Scenario.broker Scenario.liquidate_at
                                     Scenario.late_reports Scenario.runner100))).
Proof.
  assert (H : Forall level_ok (Runner.strategies Scenario.runner100)).
  { constructor; [left; split; reflexivity | constructor]. }
  split; [exact H|].
  exact (proj1 (proj2 (level_stays_ok Scenario.broker Scenario.liquidate_at
                  Scenario.late_reports Scenario.runner100)) H).
Defined.

End RunInvariants.

(** ** The callbacks of the Runner for market data *)

Section MarketData.

Import TickTakerStrategy.

Lemma same_position_refl (s : t) : same_position s s.
Proof. repeat split. Qed.

Lemma same_position_trans (s1 s2 s3 : t) :
  same_position s1 s2 -> same_position s2 s3 -> same_position s1 s3.
Proof. unfold same_position. intuition congruence. Qed.

Lemma on_quote_same_position (quote : Quote.t) (w : world) :
  same_position (fst w) (fst (state_of (on_quote quote w))).
Proof.
  rewrite on_quote_eq. destruct (level_changed (fst w) quote); repeat split.
Qed.

Lemma on_trade_same_position (api : REST) (data : Trade) (w : world) :
  same_position (fst w) (fst (state_of (on_trade api data w))).
Proof. destruct (on_trade_state api data w) as [-> | ->]; repeat split. Qed.

(** X10. A quote or a trade notification, whatever it leads to, changes the
    position, the symbol and the limits of no strategy, and leaves the
    registry and the Order objects as they were: positions move only in
    [start] and at the settlement of an order. *)
Theorem market_data_changes_no_position (api : REST) (liquidate_at : Z)
        (ev : Runner.Event) (rn : Runner.t) :
  (forall data, ev <> Runner.TradeUpdateEvent data) ->
  Forall2 same_position (Runner.strategies rn)
          (Runner.strategies (state_of (Runner.dispatch api liquidate_at ev rn)))
  /\ Runner.shared (state_of (Runner.dispatch api liquidate_at ev rn)) = Runner.shared rn.
Proof.
  intros Hev. split; [|apply market_data_keeps_shared; exact Hev].
  destruct ev as [now data|data|data]; cbn [Runner.dispatch].
  - unfold Runner.on_quote. rewrite state_of_bind.
    assert (H1 : Forall2 same_position (Runner.strategies rn)
                   (Runner.strategies (state_of (Runner.for_strategies
                      (on_quote (Quote.from_data data)) rn))))
      by (apply for_strategies_related;
          [apply same_position_refl | intros w; apply on_quote_same_position]).
    destruct (result_of _); [|exact H1].
    destruct (liquidate_at <=? now)%Z; [|exact H1].
    rewrite bind_emit. cbn [state_of fst].
    eapply Forall2_trans_list; [apply same_position_trans | exact H1 |].
    apply for_strategies_related; [apply same_position_refl|].
    intros w. rewrite stop_self. apply same_position_refl.
  - unfold Runner.on_trade. rewrite bind_emit. cbn [state_of fst].
    apply for_strategies_related;
      [apply same_position_refl | intros w; apply on_trade_same_position].
  - exfalso. exact (Hev data eq_refl).
Qed.

Lemma market_data_changes_no_position_witness :
  (forall data, Runner.TradeEvent Scenario.trade1 <> Runner.TradeUpdateEvent data)
  /\ Runner.shared (state_of (Runner.dispatch Scenario.broker Scenario.liquidate_at
                                (Runner.TradeEvent Scenario.trade1) Scenario.runner_x1))
     = Runner.shared Scenario.runner_x1.
Proof.
  assert (H : forall data, Runner.TradeEvent Scenario.trade1 <> Runner.TradeUpdateEvent data)
    by (intros data; discriminate).
  split; [exact H|].
  exact (proj2 (market_data_changes_no_position Scenario.broker Scenario.liquidate_at
                  (Runner.TradeEvent Scenario.trade1) Scenario.runner_x1 H)).
Defined.

(** X11. An order update, whatever its kind and whether or not its callback
    raises, changes at most the position of a strategy: the quotes, the
    counter of level changes, the symbol and the limits of every strategy stay
    as they were. *)
Theorem order_updates_change_only_positions (data : Order.Data) (rn : Runner.t) :
  Forall2 same_but_position (Runner.strategies rn)
          (Runner.strategies (state_of (Runner.on_trade_updates data rn))).
Proof.
  unfold Runner.on_trade_updates. rewrite bind_get.
  destruct (negb (Py.contains (Shared.orders (Runner.shared rn)) (Order.data_id data))).
  - rewrite bind_modify.
    change (Runner.strategies rn) with (Runner.strategies (Runner.register data rn)) at 1.
    apply for_strategies_related;
      [apply same_but_position_refl | apply only_position_deliver].
  - rewrite bind_ret.
    apply for_strategies_related;
      [apply same_but_position_refl | apply only_position_deliver].
Qed.

Lemma on_quote_step (quote : Quote.t) (sh : Shared.t) (s : t) :
  exists out,
    on_quote quote (s, sh) = ((after_quote quote sh s, sh), out, inl tt)
    /\ closed_positions out = [] /\ stream_effects out = [] /\ submitted out = [].
Proof.
  unfold after_quote. rewrite on_quote_eq. cbn [fst snd].
  destruct (level_changed s quote); eexists; repeat split.
Qed.

(** The loop of [on_quote] over the strategies. *)
Lemma run_on_quote (quote : Quote.t) (sh : Shared.t) (ss : list t) :
  exists out,
    Runner.run_strategies (on_quote quote) ss sh
    = ((map (after_quote quote sh) ss, sh), out, inl tt)
    /\ closed_positions out = [] /\ stream_effects out = [] /\ submitted out = [].
Proof.
  induction ss as [|s ss (out' & E' & Hc' & Hs' & Hb')]; cbn [Runner.run_strategies map].
  - exists []. repeat split.
  - destruct (on_quote_step quote sh s) as (out & E & Hc & Hs & Hb).
    rewrite E, E'. exists (out ++ out'). split; [reflexivity|].
    unfold closed_positions, stream_effects, submitted in *.
    rewrite !flat_map_app, filter_app, Hc, Hc', Hs, Hs', Hb, Hb'. repeat split.
Qed.

Lemma run_stop_ok (api : REST) (sh : Shared.t) (ss : list t) :
  Forall (can_close api) ss ->
  Runner.run_strategies (stop api) ss sh
  = ((ss, sh), map (fun s => CallClosePosition (symbol s)) ss, inl tt).
Proof.
  induction 1 as [|s ss Hs _ IH]; cbn [Runner.run_strategies map]; [reflexivity|].
  unfold stop at 1. rewrite bind_get, bind_emit. cbn [fst]. unfold can_close in Hs.
  rewrite Hs. cbn. rewrite IH. reflexivity.
Qed.

Lemma run_stop_raises (api : REST) (sh : Shared.t) (pre post : list t) (s : t) (e : exn) :
  Forall (can_close api) pre ->
  close_position api (symbol s) = inr e ->
  Runner.run_strategies (stop api) (pre ++ s :: post) sh
  = ((pre ++ s :: post, sh), map (fun s => CallClosePosition (symbol s)) (pre ++ [s]), inr e).
Proof.
  intros Hpre Hs.
  induction Hpre as [|s0 pre Hs0 _ IH]; cbn [Runner.run_strategies map app].
  - unfold stop. rewrite bind_get, bind_emit. cbn [fst]. rewrite Hs. reflexivity.
  - unfold stop at 1. rewrite bind_get, bind_emit. cbn [fst]. unfold can_close in Hs0.
    rewrite Hs0. cbn. rewrite IH. reflexivity.
Qed.

(** The loop of [stop]: the strategies and the registry are as before, and
    the positions of the first strategies were asked to be closed. *)
Lemma run_stop_shape (api : REST) (sh : Shared.t) (ss : list t) :
  exists k res,
    Runner.run_strategies (stop api) ss sh
    = ((ss, sh), map (fun s => CallClosePosition (symbol s)) (firstn k ss), res).
Proof.
  induction ss as [|s ss (k & res & IH)]; cbn [Runner.run_strategies].
  - exists 0%nat, (inl tt). reflexivity.
  - unfold stop at 1. rewrite bind_get, bind_emit. cbn [fst].
    destruct (close_position api (symbol s)) as [[]|e]; cbn.
    + rewrite IH. exists (S k), res. reflexivity.
    + exists 1%nat, (inr e). reflexivity.
Qed.

Lemma after_quote_symbol (quote : Quote.t) (sh : Shared.t) (s : t) :
  symbol (after_quote quote sh s) = symbol s.
Proof.
  unfold after_quote. rewrite on_quote_eq. cbn [fst].
  destruct (level_changed s quote); reflexivity.
Qed.

Lemma closed_positions_calls (ss : list t) :
  closed_positions (map (fun s => CallClosePosition (symbol s)) ss) = map symbol ss.
Proof. induction ss as [|s ss IH]; cbn; [reflexivity | rewrite <- IH; reflexivity]. Qed.

Lemma stream_effects_calls (ss : list t) :
  stream_effects (map (fun s => CallClosePosition (symbol s)) ss) = [].
Proof. induction ss as [|s ss IH]; cbn; [reflexivity | exact IH]. Qed.

Lemma closed_positions_app (o1 o2 : list Effect) :
  closed_positions (o1 ++ o2) = closed_positions o1 ++ closed_positions o2.
Proof. apply flat_map_app. Qed.

Lemma closed_positions_stop (out : list Effect) :
  closed_positions (ConnectionStop :: out) = closed_positions out.
Proof. reflexivity. Qed.

Lemma stream_effects_stop (out : list Effect) :
  stream_effects (ConnectionStop :: out) = ConnectionStop :: stream_effects out.
Proof. reflexivity. Qed.

Lemma can_close_after_quote (api : REST) (quote : Quote.t) (sh : Shared.t) (ss : list t) :
  Forall (can_close api) ss -> Forall (can_close api) (map (after_quote quote sh) ss).
Proof.
  intros H. apply Forall_map. eapply Forall_impl; [|exact H].
  intros s Hs. unfold can_close in *. rewrite after_quote_symbol. exact Hs.
Qed.

(** X4. Before the liquidation time the callback for a quote hands the same
    Quote to every strategy in turn and returns: each strategy is what its own
    [on_quote] makes of it, the registry is untouched, nothing is submitted,
    closed or stopped.  [on_quote] looks at the bid and the ask only, never at
    the symbol: a quote that changes the level of a strategy becomes its
    current quote whatever instrument it is for. *)
Theorem runner_on_quote_fans_out (api : REST) (liquidate_at now : Z) (data : Quote.Data)
        (rn : Runner.t) :
  (now < liquidate_at)%Z ->
  let quote := Quote.from_data data in
  let r := Runner.on_quote api liquidate_at now data rn in
  result_of r = inl tt
  /\ state_of r
     = Runner.mk (map (after_quote quote (Runner.shared rn)) (Runner.strategies rn))
                 (Runner.shared rn)
  /\ closed_positions (output_of r) = []
  /\ stream_effects (output_of r) = []
  /\ submitted (output_of r) = []
  /\ (forall s, level_changed s quote = true ->
                current_quote (after_quote quote (Runner.shared rn) s) = quote
                /\ previous_quote (after_quote quote (Runner.shared rn) s) = current_quote s)
  /\ (forall s data',
        Quote.bid_price data' = Quote.bid_price data ->
        Quote.ask_price data' = Quote.ask_price data ->
        level_changed s (Quote.from_data data') = level_changed s quote).
Proof.
  intros Hnow. cbv zeta. unfold Runner.on_quote.
  destruct (run_on_quote (Quote.from_data data) (Runner.shared rn) (Runner.strategies rn))
    as (out & E & Hc & Hs & Hb).
  rewrite (bind_eq _ _ _ _ _ _ (for_strategies_eq _ _ _ _ _ _ E)).
  assert (Hl : (liquidate_at <=? now)%Z = false) by (apply Z.leb_gt; exact Hnow).
  rewrite Hl. cbn [ret state_of output_of result_of fst snd]. rewrite app_nil_r.
  repeat (split; [assumption || reflexivity|]).
  split.
  - intros s Hlc. unfold after_quote. rewrite on_quote_eq. cbn [fst]. rewrite Hlc.
    split; reflexivity.
  - intros s data' Hbid Hask. unfold level_changed, Quote.spread. cbn.
    rewrite Hbid, Hask. reflexivity.
Qed.

Lemma runner_on_quote_fans_out_witness :
  (0 < Scenario.liquidate_at)%Z
  /\ result_of (Runner.on_quote Scenario.broker Scenario.liquidate_at 0
                                Scenario.quote2_data Scenario.runner_two) = inl tt.
Proof.
  assert (H : (0 < Scenario.liquidate_at)%Z) by reflexivity.
  split; [exact H|].
  exact (proj1 (runner_on_quote_fans_out Scenario.broker Scenario.liquidate_at 0
                  Scenario.quote2_data Scenario.runner_two H)).
Defined.

(** X5. From the liquidation time on, the callback for a quote, after the
    strategies have seen the quote, stops the stream and asks the broker to
    close the position of each strategy in turn.  When every call succeeds
    all positions are closed and the callback returns; when a call fails the
    callback raises that error and the strategies after it are not closed.
    Either way the strategies keep the position they had. *)
Theorem liquidation_at_deadline (api : REST) (liquidate_at now : Z) (data : Quote.Data)
        (rn : Runner.t) :
  (liquidate_at <= now)%Z ->
  let quote := Quote.from_data data in
  let r := Runner.on_quote api liquidate_at now data rn in
  state_of r
  = Runner.mk (map (after_quote quote (Runner.shared rn)) (Runner.strategies rn))
              (Runner.shared rn)
  /\ stream_effects (output_of r) = [ConnectionStop]
  /\ (Forall (can_close api) (Runner.strategies rn) ->
      result_of r = inl tt
      /\ closed_positions (output_of r) = map symbol (Runner.strategies rn))
  /\ (forall pre s post e,
        Runner.strategies rn = pre ++ s :: post ->
        Forall (can_close api) pre ->
        close_position api (symbol s) = inr e ->
        result_of r = inr e
        /\ closed_positions (output_of r) = map symbol (pre ++ [s])).
Proof.
  intros Hnow. cbv zeta. unfold Runner.on_quote.
  destruct (run_on_quote (Quote.from_data data) (Runner.shared rn) (Runner.strategies rn))
    as (out & E & Hc & Hs & Hb).
  rewrite (bind_eq _ _ _ _ _ _ (for_strategies_eq _ _ _ _ _ _ E)).
  assert (Hl : (liquidate_at <=? now)%Z = true) by (apply Z.leb_le; exact Hnow).
  rewrite Hl, bind_emit.
  cbn [state_of output_of result_of fst snd].
  set (quote := Quote.from_data data) in *.
  set (ss' := map (after_quote quote (Runner.shared rn)) (Runner.strategies rn)) in *.
  set (rn' := Runner.mk ss' (Runner.shared rn)) in *.
  assert (Hsym : map symbol ss' = map symbol (Runner.strategies rn)).
  { unfold ss'. rewrite map_map. apply map_ext. intros s. apply after_quote_symbol. }
  destruct (run_stop_shape api (Runner.shared rn) ss') as (k & res & Eshape).
  pose proof (for_strategies_eq _ rn' _ _ _ _ Eshape) as Eall.
  split; [rewrite Eall; reflexivity|].
  split.
  { rewrite Eall. cbn [output_of fst snd].
    rewrite stream_effects_app, Hs, stream_effects_stop, stream_effects_calls.
    reflexivity. }
  split.
  - intros Hall.
    pose proof (run_stop_ok api (Runner.shared rn) ss'
                  (can_close_after_quote api quote (Runner.shared rn) _ Hall)) as Eok.
    rewrite (for_strategies_eq _ rn' _ _ _ _ Eok). cbn [output_of result_of fst snd].
    split; [reflexivity|].
    rewrite closed_positions_app, Hc, closed_positions_stop, closed_positions_calls.
    exact Hsym.
  - intros pre s post e Hss Hpre Hfail.
    assert (Hss' : ss' = map (after_quote quote (Runner.shared rn)) pre
                         ++ after_quote quote (Runner.shared rn) s
                         :: map (after_quote quote (Runner.shared rn)) post).
    { unfold ss'. rewrite Hss, map_app. reflexivity. }
    assert (Hfail' : close_position api (symbol (after_quote quote (Runner.shared rn) s))
                     = inr e) by (rewrite after_quote_symbol; exact Hfail).
    pose proof (run_stop_raises api (Runner.shared rn) _
                  (map (after_quote quote (Runner.shared rn)) post) _ e
                  (can_close_after_quote api quote (Runner.shared rn) _ Hpre) Hfail')
      as Eraise.
    rewrite <- Hss' in Eraise.
    rewrite (for_strategies_eq _ rn' _ _ _ _ Eraise). cbn [output_of result_of fst snd].
    split; [reflexivity|].
    rewrite closed_positions_app, Hc, closed_positions_stop, closed_positions_calls.
    rewrite !map_app, !map_map. cbn [map app].
    rewrite after_quote_symbol. f_equal. apply map_ext. intros x. apply after_quote_symbol.
Qed.

Lemma liquidation_at_deadline_witness :
  (Scenario.liquidate_at <= Scenario.liquidate_at)%Z
  /\ stream_effects
       (output_of (Runner.on_quote Scenario.broker Scenario.liquidate_at
                                   Scenario.liquidate_at Scenario.quote2_data
                                   Scenario.runner_two))
     = [ConnectionStop].
Proof.
  assert (H : (Scenario.liquidate_at <= Scenario.liquidate_at)%Z) by apply Z.le_refl.
  split; [exact H|].
  exact (proj1 (proj2 (liquidation_at_deadline Scenario.broker Scenario.liquidate_at
                         Scenario.liquidate_at Scenario.quote2_data
                         Scenario.runner_two H))).
Defined.

End MarketData.

(** ** The registry of the Runner *)

Section RegistryUse.

Import TickTakerStrategy.

(** X12. The registry starts empty and well keyed, and every run of the
    stream keeps it so: its keys are distinct, and each key leads to an
    Order object whose id is that key. *)
Theorem registry_keyed_by_id (api : REST) (liquidate_at : Z) (evs : list Runner.Event)
        (rn : Runner.t) :
  registry_wf (Runner.shared Runner.init)
  /\ (registry_wf (Runner.shared rn) ->
      let sh' := Runner.shared (state_of (Runner.run api liquidate_at evs rn)) in
      NoDup (Py.keys (Shared.orders sh'))
      /\ forall k r, Py.get (Shared.orders sh') k = Some r ->
                     exists o, Heap.read (Shared.heap sh') r = Some o /\ Order.id o = k).
Proof.
  split; [apply init_wf|]. intros Hwf. cbv zeta.
  pose proof (run_wf api liquidate_at evs rn Hwf) as Hwf'.
  split; [apply Hwf'|]. intros k r Hg.
  destruct (lookup_registered _ _ _ Hwf' Hg) as (o & Hr & Hid & _).
  exists o. split; assumption.
Qed.

Lemma registry_keyed_by_id_witness :
  registry_wf (Runner.shared Scenario.runner100)
  /\ NoDup (Py.keys (Shared.orders (Runner.shared
              (state_of (Runner.run Scenario.broker Scenario.liquidate_at
                                    Scenario.late_reports Scenario.runner100))))).
Proof.
  assert (H : registry_wf (Runner.shared Scenario.runner100)) by apply init_wf.
  split; [exact H|].
  exact (proj1 (proj2 (registry_keyed_by_id Scenario.broker Scenario.liquidate_at
                         Scenario.late_reports Scenario.runner100) H)).
Defined.

Lemma get_app_new {V : Type} (d : Py.dict V) (k : string) (v : V) :
  ~ In k (Py.keys d) -> Py.get (d ++ [(k, v)]) k = Some v.
Proof.
  induction d as [|[k0 v0] d IH]; cbn; intros H.
  - rewrite String.eqb_refl. reflexivity.
  - destruct (String.eqb_spec k0 k) as [->|Hne]; [exfalso; apply H; left; reflexivity|].
    apply IH. tauto.
Qed.

Lemma get_app_other {V : Type} (d : Py.dict V) (k k' : string) (v : V) :
  k' <> k -> Py.get (d ++ [(k, v)]) k' = Py.get d k'.
Proof.
  intros Hne. induction d as [|[k0 v0] d IH]; cbn.
  - apply not_eq_sym in Hne. apply String.eqb_neq in Hne. rewrite Hne. reflexivity.
  - rewrite IH. reflexivity.
Qed.

(** X13. The first update for an id that the registry does not know, of a
    kind that is neither a fill nor a cancellation, registers one new Order
    built from the notification and does nothing else: the callback returns
    and prints nothing, no strategy changes, the new Order is found under the
    notified id, and all other ids and all Order objects are as before. *)
Theorem first_update_registers_order (data : Order.Data) (rn : Runner.t) :
  registry_wf (Runner.shared rn) ->
  Py.contains (Shared.orders (Runner.shared rn)) (Order.data_id data) = false ->
  ~ is_fill (Order.event data) ->
  ~ is_cancel (Order.event data) ->
  let r := Runner.on_trade_updates data rn in
  let sh' := Runner.shared (state_of r) in
  result_of r = inl tt
  /\ output_of r = []
  /\ Runner.strategies (state_of r) = Runner.strategies rn
  /\ (exists new,
        Py.get (Shared.orders sh') (Order.data_id data) = Some new
        /\ Heap.read (Shared.heap sh') new = Some (Order.from_data data))
  /\ (forall k, k <> Order.data_id data ->
                Py.get (Shared.orders sh') k = Py.get (Shared.orders (Runner.shared rn)) k)
  /\ (forall r0 o, Heap.read (Shared.heap (Runner.shared rn)) r0 = Some o ->
                   Heap.read (Shared.heap sh') r0 = Some o).
Proof.
  intros Hwf Hfresh Hf Hc. cbv zeta.
  rewrite (first_report_registers data rn Hwf Hfresh Hf Hc).
  cbn [state_of output_of result_of fst snd].
  destruct rn as [ss sh]. rewrite register_shared by exact Hfresh.
  cbn [Runner.shared Shared.orders Shared.heap] in *.
  apply contains_false_keys in Hfresh.
  repeat split.
  - exists (List.length (Shared.heap sh)). split.
    + apply get_app_new. exact Hfresh.
    + apply read_alloc_new.
  - intros k Hk. apply get_app_other. exact Hk.
  - intros r0 o Hr. apply read_alloc_old. exact Hr.
Qed.

Lemma first_update_registers_order_witness :
  registry_wf (Runner.shared Scenario.runner100)
  /\ Py.contains (Shared.orders (Runner.shared Scenario.runner100)) "x1" = false
  /\ Runner.on_trade_updates (acknowledgement "new" "x1" Scenario.buy_100_at_1001)
                             Scenario.runner100
     = (Runner.register (acknowledgement "new" "x1" Scenario.buy_100_at_1001)
                        Scenario.runner100, [], inl tt).
Proof.
  assert (H1 : registry_wf (Runner.shared Scenario.runner100)) by apply init_wf.
  assert (H2 : ~ is_fill "new") by (intros [H|H]; discriminate).
  assert (H3 : ~ is_cancel "new") by (intros [H|H]; discriminate).
  split; [exact H1|]. split; [reflexivity|].
  pose proof (first_update_registers_order
                (acknowledgement "new" "x1" Scenario.buy_100_at_1001)
                Scenario.runner100 H1 eq_refl H2 H3) as (Hr & Ho & _).
  rewrite (run_eta (Runner.on_trade_updates _ _)), Hr, Ho. reflexivity.
Defined.

End RegistryUse.

(** ** Orders of other instruments, partial fills and terminal updates *)

Section Lifecycle.

Import TickTakerStrategy.

(** X19. An order that is registered for another instrument is invisible to
    a strategy: its view of the orders and its total position are what they
    were. *)
Theorem other_symbol_order_is_invisible (self : t) (sh : Shared.t) (ss : list t)
        (data : Order.Data) :
  registry_wf sh ->
  Py.contains (Shared.orders sh) (Order.data_id data) = false ->
  Py.upper (Order.data_symbol data) <> symbol self ->
  let sh' := Runner.shared (Runner.register data (Runner.mk ss sh)) in
  Py.values (orders (self, sh')) = Py.values (orders (self, sh))
  /\ total_position (self, sh') = total_position (self, sh).
Proof.
  intros Hwf Hfresh Hsym. cbv zeta.
  assert (E : Py.values (orders (self, Runner.shared (Runner.register data (Runner.mk ss sh))))
              = Py.values (orders (self, sh))).
  { rewrite orders_wf by (apply register_wf; assumption).
    rewrite orders_wf by exact Hwf.
    unfold live_orders; cbn [fst snd]. rewrite register_registered by assumption.
    rewrite filter_app. cbn [filter].
    change (Order.symbol (Order.from_data data)) with (Py.upper (Order.data_symbol data)).
    apply String.eqb_neq in Hsym. rewrite Hsym. apply app_nil_r. }
  split; [exact E|]. unfold total_position. rewrite E. reflexivity.
Qed.

Lemma other_symbol_order_is_invisible_witness :
  registry_wf (snd Scenario.partly_filled)
  /\ Py.contains (Shared.orders (snd Scenario.partly_filled)) (Order.data_id new_uvxy) = false
  /\ Py.upper (Order.data_symbol new_uvxy) <> symbol (fst Scenario.partly_filled)
  /\ total_position
       (fst Scenario.partly_filled,
        Runner.shared (Runner.register new_uvxy (Runner.mk [] (snd Scenario.partly_filled))))
     = total_position Scenario.partly_filled.
Proof.
  assert (H1 : registry_wf (snd Scenario.partly_filled)).
  { split; [apply NoDup_cons; [intros [] | apply NoDup_nil]|].
    apply Forall_cons; [eexists; split; reflexivity | apply Forall_nil]. }
  assert (H3 : Py.upper (Order.data_symbol new_uvxy) <> symbol (fst Scenario.partly_filled))
    by (vm_compute; discriminate).
  split; [exact H1|]. split; [reflexivity|]. split; [exact H3|].
  exact (proj2 (other_symbol_order_is_invisible (fst Scenario.partly_filled)
                  (snd Scenario.partly_filled) [] new_uvxy H1 eq_refl H3)).
Defined.

(** X17. A partial fill followed by a cancellation or a rejection, as for an
    immediate-or-cancel order, removes the order and leaves the position where
    it was: the quantity that the partial fill notified is added to no
    position. *)
Theorem partial_fill_then_cancel_loses_fill (ev1 ev2 : string) (order : ref)
        (data1 data2 : Order.Data) (w : world) (o : Order.t) :
  Heap.read (Shared.heap (snd w)) order = Some o ->
  Py.get (Shared.orders (snd w)) (Order.id o) = Some order ->
  Order.symbol o = symbol (fst w) ->
  is_fill ev1 ->
  Order.is_filled (Order.set_filled_quantity o (Order.filled_qty data1)) = false ->
  is_cancel ev2 ->
  let w1 := state_of (on_trade_updates ev1 order data1 w) in
  let r2 := on_trade_updates ev2 order data2 w1 in
  Heap.read (Shared.heap (snd w1)) order
  = Some (Order.set_filled_quantity o (Order.filled_qty data1))
  /\ result_of r2 = inl tt
  /\ position (fst (state_of r2)) = position (fst w)
  /\ Shared.orders (snd (state_of r2)) = Py.remove (Shared.orders (snd w)) (Order.id o).
Proof.
  intros Hr Hg Hs Hf Hpart Hc. cbv zeta.
  rewrite (update_fill_partial ev1 order data1 w o Hr Hs Hf Hpart).
  cbn [state_of fst].
  set (o' := Order.set_filled_quantity o (Order.filled_qty data1)).
  set (w1 := write_order order o' w).
  assert (Hr1 : Heap.read (Shared.heap (snd w1)) order = Some o')
    by (apply (read_write_same _ _ o); exact Hr).
  split; [exact Hr1|].
  rewrite (update_cancel ev2 order data2 w1 o' Hr1 Hg Hs Hc).
  repeat split.
Qed.

Lemma partial_fill_then_cancel_loses_fill_witness :
  let w := Scenario.partly_filled in
  let w1 := state_of (on_trade_updates "partial_fill" 0%nat partial_60_x1 w) in
  Heap.read (Shared.heap (snd w)) 0%nat = Some Scenario.order_x1
  /\ position (fst (state_of (on_trade_updates "canceled" 0%nat cancel_x1 w1)))
     = position (fst w).
Proof.
  cbv zeta.
  assert (H1 : Heap.read (Shared.heap (snd Scenario.partly_filled)) 0%nat
               = Some Scenario.order_x1) by reflexivity.
  split; [exact H1|].
  exact (proj1 (proj2 (proj2
           (partial_fill_then_cancel_loses_fill
              "partial_fill" "canceled" 0%nat partial_60_x1 cancel_x1
              Scenario.partly_filled Scenario.order_x1 H1 eq_refl eq_refl
              (or_intror eq_refl) eq_refl (or_introl eq_refl))))).
Defined.

Lemma run_strategies_idle_prefix (body : M world unit) (sh sh' : Shared.t)
      (pre rest rest' : list t) (out : list Effect) (res : unit + exn) :
  Forall (fun p => body (p, sh) = ((p, sh), [], inl tt)) pre ->
  Runner.run_strategies body rest sh = ((rest', sh'), out, res) ->
  Runner.run_strategies body (pre ++ rest) sh = ((pre ++ rest', sh'), out, res).
Proof.
  intros Hpre Hrest. induction Hpre as [|p pre Hp _ IH]; cbn [app Runner.run_strategies].
  - exact Hrest.
  - rewrite Hp, IH. reflexivity.
Qed.

(** The body of the loop of [Runner.on_trade_updates] on a strategy for
    another instrument. *)
Lemma deliver_foreign (data : Order.Data) (p : t) (sh : Shared.t) (r : ref) (o : Order.t) :
  Py.get (Shared.orders sh) (Order.data_id data) = Some r ->
  Heap.read (Shared.heap sh) r = Some o ->
  symbol p <> Order.symbol o ->
  (order <- Runner.lookup (Order.data_id data) ;;
   on_trade_updates (Order.event data) order data) (p, sh)
  = ((p, sh), [], inl tt).
Proof.
  intros Hg Hr Hs. unfold Runner.lookup. rewrite bind_assoc, bind_get. cbn [snd].
  rewrite Hg, bind_ret.
  apply (update_foreign _ _ _ (p, sh) o Hr). apply not_eq_sym. exact Hs.
Qed.

(** The same body once the order is gone from the registry. *)
Lemma deliver_missing (data : Order.Data) (p : t) (sh : Shared.t) :
  Py.get (Shared.orders sh) (Order.data_id data) = None ->
  (order <- Runner.lookup (Order.data_id data) ;;
   on_trade_updates (Order.event data) order data) (p, sh)
  = ((p, sh), [], inr (KeyError (Order.data_id data))).
Proof.
  intros Hg. unfold Runner.lookup. rewrite bind_assoc, bind_get. cbn [snd].
  rewrite Hg. reflexivity.
Qed.

(** The loop of [Runner.on_trade_updates] for an update that ends the life
    of a registered order: the strategies before its owner ignore it, the
    owner settles or drops it, and the look-up for the next strategy fails. *)
Lemma terminal_loop (data : Order.Data) (sh : Shared.t) (pre post : list t) (s : t)
      (r : ref) (o : Order.t) :
  registry_wf sh ->
  Py.get (Shared.orders sh) (Order.data_id data) = Some r ->
  Heap.read (Shared.heap sh) r = Some o ->
  Forall (fun p => symbol p <> Order.symbol o) pre ->
  symbol s = Order.symbol o ->
  terminal data o ->
  exists s' h' out,
    Runner.run_strategies
      (order <- Runner.lookup (Order.data_id data) ;;
       on_trade_updates (Order.event data) order data)
      (pre ++ s :: post) sh
    = ((pre ++ s' :: post,
        Shared.mk h' (Py.remove (Shared.orders sh) (Order.data_id data))),
       out,
       match post with [] => inl tt | _ :: _ => inr (KeyError (Order.data_id data)) end)
    /\ same_but_position s s'
    /\ (is_cancel (Order.event data) -> position s' = position s)
    /\ (is_fill (Order.event data) ->
        position s' = position s + Order.directional_quantity o).
Proof.
  intros Hwf Hg Hr Hpre Hs Hterm.
  destruct (lookup_registered _ _ _ Hwf Hg) as (o0 & Hr0 & Hid & Hg').
  assert (o0 = o) by congruence. subst o0.
  set (body := (order <- Runner.lookup (Order.data_id data) ;;
                on_trade_updates (Order.event data) order data)).
  set (d' := Py.remove (Shared.orders sh) (Order.data_id data)).
  assert (Hgone : forall h', Py.get (Shared.orders (Shared.mk h' d')) (Order.data_id data)
                             = None).
  { intros h'. apply get_remove_same. apply Hwf. }
  assert (Howner :
    exists s' h' out,
      body (s, sh) = ((s', Shared.mk h' d'), out, inl tt)
      /\ same_but_position s s'
      /\ (is_cancel (Order.event data) -> position s' = position s)
      /\ (is_fill (Order.event data) ->
          position s' = position s + Order.directional_quantity o)).
  { unfold body, Runner.lookup. rewrite bind_assoc, bind_get. cbn [snd].
    rewrite Hg, bind_ret. symmetry in Hs.
    destruct Hterm as [Hc | [Hf Hfull]].
    - rewrite (update_cancel _ _ data (s, sh) o Hr Hg' Hs Hc).
      do 3 eexists. split; [unfold d'; rewrite <- Hid; reflexivity|].
      split; [apply same_but_position_refl|]. split; [reflexivity|].
      intros Hf. exfalso. exact (is_fill_not_cancel _ Hf Hc).
    - rewrite (update_fill_settles _ _ data (s, sh) o Hr Hg' Hs Hf Hfull).
      do 3 eexists. split; [unfold d'; rewrite <- Hid; reflexivity|].
      split; [repeat split|]. split; [|reflexivity].
      intros Hc. exfalso. exact (is_fill_not_cancel _ Hf Hc). }
  destruct Howner as (s' & h' & out & Eowner & Hsame & Hpc & Hpf).
  exists s', h', out. split; [|split; [exact Hsame | split; assumption]].
  apply run_strategies_idle_prefix.
  - eapply Forall_impl; [|exact Hpre]. intros p Hp.
    apply (deliver_foreign data p sh r o Hg Hr Hp).
  - cbn [Runner.run_strategies]. fold body. rewrite Eowner.
    destruct post as [|p post]; cbn [Runner.run_strategies].
    + rewrite app_nil_r. reflexivity.
    + fold body. unfold body at 1.
      rewrite (deliver_missing data p (Shared.mk h' d') (Hgone h')).
      rewrite app_nil_r. reflexivity.
Qed.

(** X14. An update that ends the life of a registered order (a cancellation,
    a rejection or a complete fill) is handled by the first strategy for the
    order's symbol and by no other: the strategies before it ignore it, that
    strategy alone changes, in its position and only on a fill, by the
    directional quantity, and the order leaves the registry.  When no strategy
    follows, the callback returns; when one does, looking the order up for it
    raises [KeyError] and the strategies after the owner are not called. *)
Theorem terminal_update_settles_once (data : Order.Data) (rn : Runner.t)
        (pre post : list t) (s : t) (r : ref) (o : Order.t) :
  registry_wf (Runner.shared rn) ->
  Py.get (Shared.orders (Runner.shared rn)) (Order.data_id data) = Some r ->
  Heap.read (Shared.heap (Runner.shared rn)) r = Some o ->
  Runner.strategies rn = pre ++ s :: post ->
  Forall (fun p => symbol p <> Order.symbol o) pre ->
  symbol s = Order.symbol o ->
  terminal data o ->
  let res := Runner.on_trade_updates data rn in
  exists s',
    Runner.strategies (state_of res) = pre ++ s' :: post
    /\ same_but_position s s'
    /\ (is_cancel (Order.event data) -> position s' = position s)
    /\ (is_fill (Order.event data) ->
        position s' = position s + Order.directional_quantity o)
    /\ Shared.orders (Runner.shared (state_of res))
       = Py.remove (Shared.orders (Runner.shared rn)) (Order.data_id data)
    /\ (post = [] -> result_of res = inl tt)
    /\ (post <> [] -> result_of res = inr (KeyError (Order.data_id data))).
Proof.
  intros Hwf Hg Hr Hss Hpre Hs Hterm. cbv zeta.
  destruct (terminal_loop data (Runner.shared rn) pre post s r o Hwf Hg Hr Hpre Hs Hterm)
    as (s' & h' & out & E & Hsame & Hpc & Hpf).
  rewrite <- Hss in E.
  unfold Runner.on_trade_updates. rewrite bind_get.
  unfold Py.contains. rewrite Hg. cbn [negb]. rewrite bind_ret.
  rewrite (for_strategies_eq _ rn _ _ _ _ E). cbn [state_of result_of fst snd].
  exists s'. repeat (split; [assumption || reflexivity|]).
  split.
  - intros ->. reflexivity.
  - intros Hne. destruct post; [congruence | reflexivity].
Qed.

Lemma terminal_update_settles_once_witness :
  registry_wf (Runner.shared runner_two_x1)
  /\ Py.get (Shared.orders (Runner.shared runner_two_x1)) (Order.data_id cancel_x1)
     = Some 0%nat
  /\ terminal cancel_x1 Scenario.order_x1
  /\ result_of (Runner.on_trade_updates cancel_x1 runner_two_x1) = inr (KeyError "x1").
Proof.
  assert (H1 : registry_wf (Runner.shared runner_two_x1)).
  { split; [apply NoDup_cons; [intros [] | apply NoDup_nil]|].
    apply Forall_cons; [eexists; split; reflexivity | apply Forall_nil]. }
  assert (H2 : terminal cancel_x1 Scenario.order_x1) by (left; left; reflexivity).
  split; [exact H1|]. split; [reflexivity|]. split; [exact H2|].
  destruct (terminal_update_settles_once
              cancel_x1 runner_two_x1 [] [init "UVXY" 500 100 0 0]
              (init "SNAP" 500 100 0 0) 0%nat Scenario.order_x1
              H1 eq_refl eq_refl eq_refl (Forall_nil _) eq_refl H2)
    as (s' & _ & _ & _ & _ & _ & _ & Hraise).
  apply Hraise. discriminate.
Defined.

Lemma remove_app_new {V : Type} (d : Py.dict V) (k : string) (v : V) :
  ~ In k (Py.keys d) -> Py.remove (d ++ [(k, v)]) k = d.
Proof.
  induction d as [|[k0 v0] d IH]; cbn; intros H.
  - rewrite String.eqb_refl. reflexivity.
  - destruct (String.eqb_spec k0 k) as [->|Hne]; [exfalso; apply H; left; reflexivity|].
    rewrite IH; [reflexivity | tauto].
Qed.

(** X15. The complete fill of an order that the registry does not know is
    settled at once: the Runner builds the Order from the notification, the
    first strategy for its symbol adds the whole directional quantity to its
    position, and the registry is again as it was before.  A complete fill
    that is notified once more after its settlement is therefore settled once
    more. *)
Theorem unknown_fill_settles_at_once (data : Order.Data) (rn : Runner.t)
        (pre post : list t) (s : t) :
  registry_wf (Runner.shared rn) ->
  Py.contains (Shared.orders (Runner.shared rn)) (Order.data_id data) = false ->
  is_fill (Order.event data) ->
  Qeq_bool (Order.qty data) (Order.filled_qty data) = true ->
  Runner.strategies rn = pre ++ s :: post ->
  Forall (fun p => symbol p <> Py.upper (Order.data_symbol data)) pre ->
  symbol s = Py.upper (Order.data_symbol data) ->
  let res := Runner.on_trade_updates data rn in
  exists s',
    Runner.strategies (state_of res) = pre ++ s' :: post
    /\ same_but_position s s'
    /\ position s' = position s + Order.directional_quantity (Order.from_data data)
    /\ Shared.orders (Runner.shared (state_of res)) = Shared.orders (Runner.shared rn).
Proof.
  intros Hwf Hfresh Hf Hfull Hss Hpre Hs. cbv zeta.
  destruct rn as [ss sh]. cbn [Runner.shared Runner.strategies] in *. subst ss.
  pose proof (register_wf data (pre ++ s :: post) sh Hwf Hfresh) as Hwf'.
  pose proof (register_shared data (pre ++ s :: post) sh Hfresh) as Hsh.
  assert (Hkeys : ~ In (Order.data_id data) (Py.keys (Shared.orders sh)))
    by (apply contains_false_keys; exact Hfresh).
  set (rn' := Runner.register data (Runner.mk (pre ++ s :: post) sh)) in *.
  assert (Hg : Py.get (Shared.orders (Runner.shared rn')) (Order.data_id data)
               = Some (List.length (Shared.heap sh)))
    by (rewrite Hsh; apply get_app_new; exact Hkeys).
  assert (Hr : Heap.read (Shared.heap (Runner.shared rn')) (List.length (Shared.heap sh))
               = Some (Order.from_data data))
    by (rewrite Hsh; apply read_alloc_new).
  assert (Hterm : terminal data (Order.from_data data)) by (right; split; assumption).
  destruct (terminal_loop data (Runner.shared rn') pre post s _ _ Hwf' Hg Hr Hpre Hs Hterm)
    as (s' & h' & out & E & Hsame & _ & Hpf).
  unfold Runner.on_trade_updates. rewrite bind_get. cbn [Runner.shared].
  rewrite Hfresh. cbn [negb]. rewrite bind_modify. fold rn'.
  assert (Hss' : Runner.strategies rn' = pre ++ s :: post) by reflexivity.
  rewrite <- Hss' in E.
  rewrite (for_strategies_eq _ rn' _ _ _ _ E). cbn [state_of fst snd Runner.strategies
                                                    Runner.shared Shared.orders].
  exists s'. split; [reflexivity|]. split; [exact Hsame|]. split; [exact (Hpf Hf)|].
  rewrite Hsh. cbn [Shared.orders]. apply remove_app_new. exact Hkeys.
Qed.

Lemma unknown_fill_settles_at_once_witness :
  registry_wf (Runner.shared Scenario.runner_two)
  /\ Py.contains (Shared.orders (Runner.shared Scenario.runner_two))
                 (Order.data_id fill_y1) = false
  /\ is_fill (Order.event fill_y1)
  /\ Shared.orders (Runner.shared (state_of (Runner.on_trade_updates fill_y1
                                               Scenario.runner_two)))
     = Shared.orders (Runner.shared Scenario.runner_two).
Proof.
  assert (H1 : registry_wf (Runner.shared Scenario.runner_two)) by apply init_wf.
  assert (H3 : is_fill (Order.event fill_y1)) by (left; reflexivity).
  split; [exact H1|]. split; [reflexivity|]. split; [exact H3|].
  destruct (unknown_fill_settles_at_once
              fill_y1 Scenario.runner_two [] [init "UVXY" 500 100 0 0]
              (init "SNAP" 500 100 0 0) H1 eq_refl H3 eq_refl eq_refl
              (Forall_nil _) eq_refl)
    as (s' & _ & _ & _ & Ho).
  exact Ho.
Defined.

End Lifecycle.

(** ** Start-up and submissions of the Runner *)

Section RunnerCalls.

Import TickTakerStrategy.

(** X16. [Runner.start] with the toggle as the module sets it
    ([ABORT_IF_CLOSED = False]).  When the clock query fails, [start] raises
    that error at once: no strategy is started and nothing is subscribed.
    When it answers, [start] goes on whether the market is open or closed: it
    prints the liquidation time, five minutes before the next close, and, if
    every strategy starts, subscribes and runs the stream. *)
Theorem start_with_module_toggle (api : REST) (rn : Runner.t) :
  (forall e, get_clock api = inr e ->
     Runner.start ABORT_IF_CLOSED api rn
     = (rn, [Print LogCreatingAPI; CallGetClock], inr e))
  /\ (forall clock, get_clock api = inl clock ->
        Forall (position_known api) (Runner.strategies rn) ->
        let r := Runner.start ABORT_IF_CLOSED api rn in
        let symbols := map symbol (Runner.strategies rn) in
        result_of r = inl tt
        /\ In (Print (LogWillLiquidate (next_close clock - minutes5))) (output_of r)
        /\ position_queries (output_of r) = symbols
        /\ stream_effects (output_of r)
           = [SubscribeQuotes symbols; SubscribeTrades symbols;
              SubscribeTradeUpdates; ConnectionRun]).
Proof.
  split.
  - intros e He. unfold Runner.start. rewrite !bind_emit, He. reflexivity.
  - intros clock Hclock Hall. cbv zeta. unfold Runner.start.
    rewrite !bind_emit, Hclock. cbn [answer]. rewrite !bind_ret.
    change (ABORT_IF_CLOSED && negb (is_open clock)) with false. cbv iota.
    rewrite bind_emit.
    destruct (run_start_ok api (Runner.shared rn) _ Hall) as (out & E & Hq & Hst).
    rewrite (bind_eq _ _ _ _ _ _ (for_strategies_eq _ _ _ _ _ _ E)).
    rewrite bind_get, !bind_emit.
    cbn [state_of output_of result_of fst snd emit Runner.strategies].
    assert (Hsym : map symbol (map (started api (Runner.shared rn)) (Runner.strategies rn))
                   = map symbol (Runner.strategies rn)).
    { rewrite map_map. apply map_ext. intros s. apply started_symbol. }
    rewrite Hsym. split; [reflexivity|].
    split; [right; right; left; reflexivity|].
    unfold position_queries, stream_effects in *.
    cbn [flat_map filter is_stream_effect app].
    rewrite flat_map_app, filter_app, Hq, Hst. cbn.
    rewrite app_nil_r. split; reflexivity.
Qed.

Lemma in_submitted (req : OrderRequest) (out : list Effect) :
  In req (submitted out) <-> In (CallSubmitOrder req) out.
Proof.
  unfold submitted. rewrite in_flat_map. split.
  - intros (x & Hx & Hin). destruct x; try contradiction.
    destruct Hin as [<-|[]]. exact Hx.
  - intros H. exists (CallSubmitOrder req). split; [exact H | left; reflexivity].
Qed.

(** What a strategy submits for a trade is a limit order, immediate or
    cancel, for its own symbol, which is the symbol of the trade. *)
Lemma on_trade_submits (api : REST) (data : Trade) (w : world) (req : OrderRequest) :
  In (CallSubmitOrder req) (output_of (on_trade api data w)) ->
  req_symbol req = trade_symbol data
  /\ req_symbol req = symbol (fst w)
  /\ req_type req = "limit"%string
  /\ req_time_in_force req = "ioc"%string
  /\ (req_side req = "buy"%string \/ req_side req = "sell"%string).
Proof.
  intros Hin.
  destruct (ignore_trade (fst w) data) as [lines|] eqn:H.
  - destruct (on_trade_ignored api data w lines H) as [E _]. rewrite E in Hin.
    cbn in Hin. apply in_map_iff in Hin. destruct Hin as (l & El & _). discriminate.
  - assert (Hsym : trade_symbol data = symbol (fst w))
      by (apply ignore_trade_None in H; apply H).
    rewrite (on_trade_eq api data w H) in Hin. cbv zeta in Hin.
    unfold output_of in Hin; cbn [fst snd] in Hin.
    destruct Hin as [E|Hin]; [discriminate|]. apply in_app_or in Hin.
    assert (Hreq : req = buy_request w \/ req = sell_request w).
    { destruct (buy_signal w data).
      - destruct Hin as [[E|[E|[]]] | Hin]; try discriminate.
        + inversion E. left; reflexivity.
        + destruct (sell_signal (mark_traded w) data);
            [destruct Hin as [E|[E|[]]] | destruct Hin as [E|[]]]; try discriminate.
          inversion E. right; reflexivity.
      - destruct Hin as [[E|[]] | Hin]; try discriminate.
        destruct (sell_signal w data);
          [destruct Hin as [E|[E|[]]] | destruct Hin as [E|[]]]; try discriminate.
        inversion E. right; reflexivity. }
    destruct Hreq as [-> | ->]; cbn; rewrite Hsym; repeat split; auto.
Qed.

Lemma run_on_trade_submits (api : REST) (data : Trade) (ss : list t) (sh : Shared.t)
      (req : OrderRequest) :
  In (CallSubmitOrder req)
     (output_of (Runner.run_strategies (on_trade api data) ss sh)) ->
  exists s, In s ss /\ In (CallSubmitOrder req) (output_of (on_trade api data (s, sh))).
Proof.
  induction ss as [|s ss IH]; cbn [Runner.run_strategies]; [intros []|].
  pose proof (on_trade_returns api data (s, sh)) as Hret.
  pose proof (on_trade_keeps_shared api data (s, sh)) as Hsh.
  destruct (on_trade api data (s, sh)) as [[[s' sh'] out] res] eqn:E.
  cbn in Hret, Hsh. subst res sh'.
  destruct (Runner.run_strategies (on_trade api data) ss sh) as [[[ss' sh''] out'] r].
  cbn [output_of fst snd] in *. intros Hin. apply in_app_or in Hin.
  destruct Hin as [Hin|Hin].
  - exists s. split; [left; reflexivity | rewrite E; exact Hin].
  - destruct (IH Hin) as (s0 & Hs0 & Hin0). exists s0. split; [right; exact Hs0 | exact Hin0].
Qed.

(** X18. Every order that the callback for a trade submits is a limit order,
    immediate or cancel, to buy or to sell the instrument of that trade, from
    a strategy for that instrument: strategies for other instruments submit
    nothing. *)
Theorem trade_submissions_are_ioc_limits (api : REST) (data : Trade) (rn : Runner.t)
        (req : OrderRequest) :
  In req (submitted (output_of (Runner.on_trade api data rn))) ->
  req_symbol req = trade_symbol data
  /\ req_type req = "limit"%string
  /\ req_time_in_force req = "ioc"%string
  /\ (req_side req = "buy"%string \/ req_side req = "sell"%string)
  /\ exists s, In s (Runner.strategies rn) /\ symbol s = trade_symbol data.
Proof.
  intros Hin. apply in_submitted in Hin.
  unfold Runner.on_trade in Hin. rewrite bind_emit in Hin.
  cbn [output_of fst snd] in Hin. destruct Hin as [E|Hin]; [discriminate|].
  unfold Runner.for_strategies in Hin.
  assert (Hin' : In (CallSubmitOrder req)
                    (output_of (Runner.run_strategies (on_trade api data)
                                  (Runner.strategies rn) (Runner.shared rn)))).
  { destruct (Runner.run_strategies _ _ _) as [[[ss sh] out] r]. exact Hin. }
  destruct (run_on_trade_submits api data _ _ req Hin') as (s & Hs & Hreq).
  destruct (on_trade_submits api data _ req Hreq) as (H1 & H2 & H3 & H4 & H5).
  repeat (split; [assumption|]).
  exists s. split; [exact Hs|]. cbn in H2. congruence.
Qed.

Lemma trade_submissions_are_ioc_limits_witness :
  In Scenario.buy_100_at_1001
     (submitted (output_of (Runner.on_trade Scenario.broker Scenario.trade1
        (Runner.mk [fst (Scenario.at_level1 500)] (snd (Scenario.at_level1 500))))))
  /\ req_time_in_force Scenario.buy_100_at_1001 = "ioc"%string.
Proof.
  assert (H : In Scenario.buy_100_at_1001
                (submitted (output_of (Runner.on_trade Scenario.broker Scenario.trade1
                   (Runner.mk [fst (Scenario.at_level1 500)]
                              (snd (Scenario.at_level1 500)))))))
    by (vm_compute; auto).
  split; [exact H|].
  exact (proj1 (proj2 (proj2 (trade_submissions_are_ioc_limits _ _ _ _ H)))).
Defined.

End RunnerCalls.

(** ** Order objects over a stream *)

Section OrderInvariants.

Import TickTakerStrategy.

Lemma write_length (h : Heap.t) (r : ref) (o : Order.t) :
  List.length (Heap.write h r o) = List.length h.
Proof.
  revert r; induction h as [|x h IH]; intros [|r]; cbn; try reflexivity.
  rewrite IH. reflexivity.
Qed.

Lemma read_defined (h : Heap.t) (r : ref) :
  (r < List.length h)%nat -> exists o, Heap.read h r = Some o.
Proof.
  intros H. unfold Heap.read. destruct (nth_error h r) as [o|] eqn:E.
  - exists o. reflexivity.
  - apply nth_error_None in E. lia.
Qed.

Lemma read_bound (h : Heap.t) (r : ref) (o : Order.t) :
  Heap.read h r = Some o -> (r < List.length h)%nat.
Proof. intros H. apply nth_error_Some. unfold Heap.read in H. congruence. Qed.

Lemma Forall_read (P : Order.t -> Prop) (h : Heap.t) :
  Forall P h <-> forall r o, Heap.read h r = Some o -> P o.
Proof.
  rewrite Forall_forall. split.
  - intros H r o Hr. apply H. apply (nth_error_In h r). exact Hr.
  - intros H o Hin. destruct (In_nth_error h o Hin) as [r Hr]. exact (H r o Hr).
Qed.

Lemma get_remove_Some {V : Type} (d : Py.dict V) (k k' : string) (v : V) :
  NoDup (Py.keys d) -> Py.get (Py.remove d k) k' = Some v -> Py.get d k' = Some v.
Proof.
  intros Hnd. destruct (string_dec k' k) as [->|Hne].
  - rewrite get_remove_same by exact Hnd. discriminate.
  - rewrite get_remove_other by exact Hne. tauto.
Qed.

Lemma update_step_refl (data : Order.Data) (sh : Shared.t) : update_step data sh sh.
Proof.
  split; [reflexivity|]. split; [tauto|].
  intros r o Hr. exists o. split; [exact Hr|].
  split; [apply same_order_refl | left; reflexivity].
Qed.

Lemma update_step_trans (data : Order.Data) (sh1 sh2 sh3 : Shared.t) :
  update_step data sh1 sh2 -> update_step data sh2 sh3 -> update_step data sh1 sh3.
Proof.
  intros (L12 & G12 & H12) (L23 & G23 & H23).
  split; [congruence|]. split; [intros k r Hg; apply G12, G23, Hg|].
  intros r o Hr.
  destruct (H12 r o Hr) as (o2 & Hr2 & Hs2 & Hf2).
  destruct (H23 r o2 Hr2) as (o3 & Hr3 & Hs3 & Hf3).
  exists o3. split; [exact Hr3|]. split; [eapply same_order_trans; eassumption|].
  destruct Hf3 as [Hf3|(He3 & Hg3 & Hf3)].
  - rewrite Hf3. exact Hf2.
  - right. split; [exact He3|]. split; [apply G12; exact Hg3 | exact Hf3].
Qed.

Lemma update_step_write (data : Order.Data) (h : Heap.t) (d : Py.dict ref) (order : ref)
      (o : Order.t) :
  is_fill (Order.event data) ->
  Py.get d (Order.data_id data) = Some order ->
  Heap.read h order = Some o ->
  update_step data (Shared.mk h d)
    (Shared.mk (Heap.write h order (Order.set_filled_quantity o (Order.filled_qty data))) d).
Proof.
  intros Hev Hg Ho. split; [apply write_length|]. split; [tauto|].
  cbn [Shared.heap Shared.orders]. intros r o0 Hr.
  destruct (Nat.eq_dec order r) as [<-|Hne].
  - exists (Order.set_filled_quantity o (Order.filled_qty data)).
    split; [apply (read_write_same _ _ o); exact Ho|].
    assert (o0 = o) by congruence. subst o0.
    split; [repeat split | right; split; [exact Hev | split; [exact Hg | reflexivity]]].
  - exists o0. split; [rewrite read_write_other by exact Hne; exact Hr|].
    split; [apply same_order_refl | left; reflexivity].
Qed.

Lemma update_step_remove (data : Order.Data) (h : Heap.t) (d : Py.dict ref) (k : string) :
  NoDup (Py.keys d) ->
  update_step data (Shared.mk h d) (Shared.mk h (Py.remove d k)).
Proof.
  intros Hnd. split; [reflexivity|]. split.
  - intros k' r. apply get_remove_Some. exact Hnd.
  - intros r o Hr. exists o. split; [exact Hr|].
    split; [apply same_order_refl | left; reflexivity].
Qed.

(** The body of the loop of [Runner.on_trade_updates]: the only Order object
    it writes to is the one registered under the id of the notification. *)
Lemma deliver_update_step (data : Order.Data) (w : world) :
  registry_wf (snd w) ->
  update_step data (snd w)
    (snd (state_of
       ((order <- Runner.lookup (Order.data_id data) ;;
         on_trade_updates (Order.event data) order data) w))).
Proof.
  intros Hwf. unfold Runner.lookup. rewrite bind_assoc, bind_get.
  destruct (Py.get (Shared.orders (snd w)) (Order.data_id data)) as [order|] eqn:Hg;
    [|apply update_step_refl].
  rewrite bind_ret.
  destruct (lookup_registered _ _ _ Hwf Hg) as (o & Hr & Hid & Hg').
  destruct w as [self [h d]]. cbn [fst snd Shared.heap Shared.orders] in *.
  assert (Hnd : NoDup (Py.keys d)) by exact (proj1 Hwf).
  destruct (string_dec (Order.symbol o) (symbol self)) as [Hs|Hs].
  2:{ rewrite (update_foreign _ _ _ (self, Shared.mk h d) o Hr Hs). apply update_step_refl. }
  destruct (is_fill_dec (Order.event data)) as [Hf|Hf].
  - destruct (Order.is_filled (Order.set_filled_quantity o (Order.filled_qty data))) eqn:Hfull.
    + rewrite (update_fill_settles _ _ _ (self, Shared.mk h d) o Hr Hg' Hs Hf Hfull).
      cbn [state_of fst snd set_orders set_position write_order Shared.heap Shared.orders].
      eapply update_step_trans; [apply update_step_write; eassumption|].
      apply update_step_remove. exact Hnd.
    + rewrite (update_fill_partial _ _ _ (self, Shared.mk h d) o Hr Hs Hf Hfull).
      cbn [state_of fst snd write_order Shared.heap Shared.orders].
      apply update_step_write; assumption.
  - destruct (is_cancel_dec (Order.event data)) as [Hc|Hc].
    + rewrite (update_cancel _ _ data (self, Shared.mk h d) o Hr Hg' Hs Hc).
      cbn [state_of fst snd set_orders Shared.heap Shared.orders].
      apply update_step_remove. exact Hnd.
    + rewrite (update_other _ _ _ (self, Shared.mk h d) o Hr Hf Hc). apply update_step_refl.
Qed.

Lemma run_strategies_update_step (data : Order.Data) (body : M world unit) :
  (forall w, registry_wf (snd w) ->
             registry_wf (snd (state_of (body w)))
             /\ update_step data (snd w) (snd (state_of (body w)))) ->
  forall (ss : list t) (sh : Shared.t),
    registry_wf sh ->
    update_step data sh (snd (state_of (Runner.run_strategies body ss sh))).
Proof.
  intros Hbody ss. induction ss as [|s ss IH]; intros sh Hwf; cbn [Runner.run_strategies].
  - apply update_step_refl.
  - destruct (Hbody (s, sh) Hwf) as [Hwf' Hstep].
    destruct (body (s, sh)) as [[[s' sh'] out] [u|e]]; cbn in Hwf', Hstep.
    + specialize (IH sh' Hwf').
      destruct (Runner.run_strategies body ss sh') as [[[ss' sh''] out'] r]; cbn in *.
      eapply update_step_trans; eassumption.
    + exact Hstep.
Qed.

Lemma loop_update_step (data : Order.Data) (rn : Runner.t) :
  registry_wf (Runner.shared rn) ->
  update_step data (Runner.shared rn)
    (Runner.shared (state_of
       (Runner.for_strategies
          (order <- Runner.lookup (Order.data_id data) ;;
           on_trade_updates (Order.event data) order data) rn))).
Proof.
  intros Hwf. rewrite for_strategies_shared.
  apply run_strategies_update_step; [|exact Hwf].
  intros w Hw. split; [apply deliver_wf | apply deliver_update_step]; exact Hw.
Qed.

Lemma grown_refl (o : Order.t) : grown o o.
Proof. split; [apply same_order_refl | apply Qle_refl]. Qed.

Lemma grown_trans (o1 o2 o3 : Order.t) : grown o1 o2 -> grown o2 o3 -> grown o1 o3.
Proof.
  intros [S12 L12] [S23 L23].
  split; [eapply same_order_trans; eassumption | eapply Qle_trans; eassumption].
Qed.

Lemma heap_grown_refl (h : Heap.t) : heap_grown h h.
Proof. intros r o Hr. exists o. split; [exact Hr | apply grown_refl]. Qed.

Lemma heap_grown_trans (h1 h2 h3 : Heap.t) :
  heap_grown h1 h2 -> heap_grown h2 h3 -> heap_grown h1 h3.
Proof.
  intros H12 H23 r o Hr.
  destruct (H12 r o Hr) as (o2 & Hr2 & G2).
  destruct (H23 r o2 Hr2) as (o3 & Hr3 & G3).
  exists o3. split; [exact Hr3 | eapply grown_trans; eassumption].
Qed.

Lemma within_quantity_same (o o' : Order.t) :
  same_order o o' ->
  Order.filled_quantity o' = Order.filled_quantity o ->
  within_quantity o -> within_quantity o'.
Proof.
  intros (_ & _ & _ & Hq) Hf. unfold within_quantity. rewrite Hq, Hf. tauto.
Qed.

(** One order update for an id of the registry. *)
Lemma known_update_invariants (data : Order.Data) (rn : Runner.t) :
  registry_wf (Runner.shared rn) ->
  Forall within_quantity (Shared.heap (Runner.shared rn)) ->
  well_formed data (Runner.shared rn) ->
  Py.contains (Shared.orders (Runner.shared rn)) (Order.data_id data) = true ->
  let rn' := state_of (Runner.on_trade_updates data rn) in
  Forall within_quantity (Shared.heap (Runner.shared rn'))
  /\ heap_grown (Shared.heap (Runner.shared rn)) (Shared.heap (Runner.shared rn')).
Proof.
  intros Hwf Hin Hdata Hc. cbv zeta. unfold Runner.on_trade_updates.
  rewrite bind_get, Hc. cbn [negb]. rewrite bind_ret.
  destruct (loop_update_step data rn Hwf) as (Hlen & _ & Hobj).
  rewrite Forall_read in Hin.
  assert (Hstep : forall r o, Heap.read (Shared.heap (Runner.shared rn)) r = Some o ->
            exists o', Heap.read (Shared.heap (Runner.shared (state_of
                         (Runner.for_strategies
                            (order <- Runner.lookup (Order.data_id data) ;;
                             on_trade_updates (Order.event data) order data) rn)))) r = Some o'
                       /\ grown o o' /\ within_quantity o').
  { intros r o Hr. destruct (Hobj r o Hr) as (o' & Hr' & Hs & Hf).
    exists o'. split; [exact Hr'|].
    pose proof (Hin r o Hr) as [H0 H1].
    destruct Hf as [Hf|(Hev & Hg & Hf)].
    - split; [split; [exact Hs | rewrite Hf; apply Qle_refl]|].
      apply (within_quantity_same o o' Hs Hf). split; assumption.
    - unfold well_formed in Hdata. rewrite Hg, Hr in Hdata.
      destruct (Hdata Hev) as [Hlo Hhi].
      destruct Hs as (Hi & Hsy & Hsd & Hq).
      split; [split; [repeat split; assumption | rewrite Hf; exact Hlo]|].
      unfold within_quantity. rewrite Hf, Hq. split; [eapply Qle_trans; eassumption | exact Hhi]. }
  split.
  - apply Forall_read. intros r o' Hr'.
    pose proof (read_bound _ _ _ Hr') as Hb. rewrite Hlen in Hb.
    destruct (read_defined _ _ Hb) as [o Hr].
    destruct (Hstep r o Hr) as (o'' & Hr'' & _ & Hw).
    assert (o'' = o') by congruence. subst o''. exact Hw.
  - intros r o Hr. destruct (Hstep r o Hr) as (o' & Hr' & Hg & _).
    exists o'. split; assumption.
Qed.

(** One order update for an id that the registry does not know. *)
Lemma unknown_update_invariants (data : Order.Data) (rn : Runner.t) :
  registry_wf (Runner.shared rn) ->
  Forall within_quantity (Shared.heap (Runner.shared rn)) ->
  well_formed data (Runner.shared rn) ->
  Py.contains (Shared.orders (Runner.shared rn)) (Order.data_id data) = false ->
  let rn' := state_of (Runner.on_trade_updates data rn) in
  Forall within_quantity (Shared.heap (Runner.shared rn'))
  /\ heap_grown (Shared.heap (Runner.shared rn)) (Shared.heap (Runner.shared rn')).
Proof.
  intros Hwf Hin Hdata Hc. cbv zeta. unfold Runner.on_trade_updates.
  rewrite bind_get, Hc. cbn [negb]. rewrite bind_modify.
  destruct rn as [ss sh]. cbn [Runner.shared] in *.
  pose proof (register_wf data ss sh Hwf Hc) as Hwf1.
  pose proof (register_shared data ss sh Hc) as Hsh1.
  destruct (loop_update_step data (Runner.register data (Runner.mk ss sh)) Hwf1)
    as (Hlen & _ & Hobj).
  rewrite Hsh1 in Hlen, Hobj. cbn [Shared.heap Shared.orders] in Hlen, Hobj.
  rewrite get_app_new in Hobj by (apply contains_false_keys; exact Hc).
  rewrite Forall_read in Hin.
  assert (Hnone : Py.get (Shared.orders sh) (Order.data_id data) = None).
  { unfold Py.contains in Hc. destruct (Py.get _ _); [discriminate | reflexivity]. }
  unfold well_formed in Hdata. rewrite Hnone in Hdata. destruct Hdata as [Hqty Hdata].
  assert (Hold : forall r o, Heap.read (Shared.heap sh) r = Some o ->
            exists o', Heap.read (Shared.heap (Runner.shared (state_of
                         (Runner.for_strategies
                            (order <- Runner.lookup (Order.data_id data) ;;
                             on_trade_updates (Order.event data) order data)
                            (Runner.register data (Runner.mk ss sh)))))) r = Some o'
                       /\ grown o o' /\ within_quantity o').
  { intros r o Hr.
    destruct (Hobj r o (read_alloc_old _ _ _ _ Hr)) as (o' & Hr' & Hs & Hf).
    exists o'. split; [exact Hr'|].
    destruct Hf as [Hf|(_ & Hg & Hf)].
    - split; [split; [exact Hs | rewrite Hf; apply Qle_refl]|].
      apply (within_quantity_same o o' Hs Hf). exact (Hin r o Hr).
    - exfalso. apply read_bound in Hr. inversion Hg. lia. }
  split.
  - apply Forall_read. intros r o' Hr'.
    pose proof (read_bound _ _ _ Hr') as Hb. rewrite Hlen, length_app in Hb.
    cbn [List.length] in Hb.
    destruct (Nat.eq_dec r (List.length (Shared.heap sh))) as [->|Hne].
    + destruct (Hobj _ _ (read_alloc_new (Shared.heap sh) (Order.from_data data)))
        as (o'' & Hr'' & (_ & _ & _ & Hq) & Hf).
      assert (o'' = o') by congruence. subst o''.
      unfold within_quantity. rewrite Hq.
      change (Order.quantity (Order.from_data data)) with (Order.qty data).
      destruct Hf as [Hf|(Hev & _ & Hf)]; rewrite Hf.
      * change (Order.filled_quantity (Order.from_data data)) with 0.
        split; [apply Qle_refl | exact Hqty].
      * exact (Hdata Hev).
    + assert (Hb' : (r < List.length (Shared.heap sh))%nat) by lia.
      destruct (read_defined _ _ Hb') as [o Hr].
      destruct (Hold r o Hr) as (o'' & Hr'' & _ & Hw).
      assert (o'' = o') by congruence. subst o''. exact Hw.
  - intros r o Hr. destruct (Hold r o Hr) as (o' & Hr' & Hg & _).
    exists o'. split; assumption.
Qed.

(** One notification of the stream. *)
Lemma after_event_invariants (api : REST) (liquidate_at : Z) (ev : Runner.Event)
      (rn : Runner.t) :
  registry_wf (Runner.shared rn) ->
  Forall within_quantity (Shared.heap (Runner.shared rn)) ->
  match ev with
  | Runner.TradeUpdateEvent data => well_formed data (Runner.shared rn)
  | _ => True
  end ->
  let rn' := after_event api liquidate_at rn ev in
  registry_wf (Runner.shared rn')
  /\ Forall within_quantity (Shared.heap (Runner.shared rn'))
  /\ heap_grown (Shared.heap (Runner.shared rn)) (Shared.heap (Runner.shared rn')).
Proof.
  intros Hwf Hin Hev. cbv zeta. unfold after_event.
  split; [apply dispatch_wf; exact Hwf|].
  destruct ev as [now data|data|data].
  - rewrite market_data_keeps_shared by discriminate.
    split; [exact Hin | apply heap_grown_refl].
  - rewrite market_data_keeps_shared by discriminate.
    split; [exact Hin | apply heap_grown_refl].
  - cbn [Runner.dispatch].
    destruct (Py.contains (Shared.orders (Runner.shared rn)) (Order.data_id data)) eqn:Hc.
    + apply known_update_invariants; assumption.
    + apply unknown_update_invariants; assumption.
Qed.

Lemma after_events_invariants (api : REST) (liquidate_at : Z) (evs : list Runner.Event) :
  forall rn : Runner.t,
    registry_wf (Runner.shared rn) ->
    Forall within_quantity (Shared.heap (Runner.shared rn)) ->
    well_formed_stream api liquidate_at evs rn ->
    let rn' := after_events api liquidate_at evs rn in
    registry_wf (Runner.shared rn')
    /\ Forall within_quantity (Shared.heap (Runner.shared rn'))
    /\ heap_grown (Shared.heap (Runner.shared rn)) (Shared.heap (Runner.shared rn')).
Proof.
  induction evs as [|ev evs IH]; intros rn Hwf Hin Hs; cbv zeta.
  - split; [exact Hwf|]. split; [exact Hin | apply heap_grown_refl].
  - destruct Hs as [Hev Hs].
    destruct (after_event_invariants api liquidate_at ev rn Hwf Hin Hev) as (Hwf1 & Hin1 & Hg1).
    destruct (IH _ Hwf1 Hin1 Hs) as (Hwf2 & Hin2 & Hg2).
    split; [exact Hwf2|]. split; [exact Hin2|].
    eapply heap_grown_trans; eassumption.
Qed.

Lemma well_formed_stream_app (api : REST) (liquidate_at : Z) (evs1 evs2 : list Runner.Event) :
  forall rn : Runner.t,
    well_formed_stream api liquidate_at (evs1 ++ evs2) rn ->
    well_formed_stream api liquidate_at evs1 rn
    /\ well_formed_stream api liquidate_at evs2 (after_events api liquidate_at evs1 rn).
Proof.
  induction evs1 as [|ev evs1 IH]; intros rn H; cbn [app well_formed_stream] in *.
  - split; [exact I | exact H].
  - destruct H as [Hev H]. destruct (IH _ H) as [H1 H2].
    split; [split; assumption | exact H2].
Qed.

(** Whatever the stream delivers, an Order object stays in place and is the
    same order. *)
Lemma after_events_same_order (api : REST) (liquidate_at : Z) (evs : list Runner.Event) :
  forall (rn : Runner.t) (r : ref) (o : Order.t),
    Heap.read (Shared.heap (Runner.shared rn)) r = Some o ->
    exists o',
      Heap.read (Shared.heap (Runner.shared (after_events api liquidate_at evs rn))) r = Some o'
      /\ same_order o o'.
Proof.
  induction evs as [|ev evs IH]; intros rn r o Hr.
  - exists o. split; [exact Hr | apply same_order_refl].
  - assert (H1 : exists o1,
               Heap.read (Shared.heap (Runner.shared (after_event api liquidate_at rn ev))) r
               = Some o1 /\ same_order o o1).
    { unfold after_event. destruct ev as [now data|data|data].
      - rewrite market_data_keeps_shared by discriminate.
        exists o. split; [exact Hr | apply same_order_refl].
      - rewrite market_data_keeps_shared by discriminate.
        exists o. split; [exact Hr | apply same_order_refl].
      - destruct (on_trade_updates_heap_step data rn r o Hr) as (o1 & Hr1 & Hs1 & _).
        exists o1. split; assumption. }
    destruct H1 as (o1 & Hr1 & Hs1).
    destruct (IH _ r o1 Hr1) as (o2 & Hr2 & Hs2).
    exists o2. split; [exact Hr2 | eapply same_order_trans; eassumption].
Qed.

(** C7.  An Order is built with the filled quantity 0.  Whatever the stream
    delivers, between any two times every Order object stays in place with
    its id, symbol, side and quantity.  When the broker's order updates are
    well formed (no order has a negative quantity, and each fill or partial
    fill notifies a cumulative filled quantity that is not below the one the
    order holds and not above the order's quantity), every Order object has a
    filled quantity between 0 and its quantity at all times, and between any
    two times its filled quantity does not decrease. *)
Theorem order_invariants (api : REST) (liquidate_at : Z) (evs1 evs2 : list Runner.Event)
        (rn : Runner.t) :
  let heap_at (rn : Runner.t) := Shared.heap (Runner.shared rn) in
  let rn1 := after_events api liquidate_at evs1 rn in
  let rn2 := after_events api liquidate_at evs2 rn1 in
  (forall data, Order.filled_quantity (Order.from_data data) = 0)
  /\ (forall r o, Heap.read (heap_at rn1) r = Some o ->
        exists o', Heap.read (heap_at rn2) r = Some o'
                   /\ Order.id o' = Order.id o
                   /\ Order.symbol o' = Order.symbol o
                   /\ Order.side o' = Order.side o
                   /\ Order.quantity o' = Order.quantity o)
  /\ (registry_wf (Runner.shared rn) ->
      Forall within_quantity (heap_at rn) ->
      well_formed_stream api liquidate_at (evs1 ++ evs2) rn ->
      Forall within_quantity (heap_at rn1)
      /\ Forall within_quantity (heap_at rn2)
      /\ forall r o, Heap.read (heap_at rn1) r = Some o ->
           exists o', Heap.read (heap_at rn2) r = Some o'
                      /\ Order.filled_quantity o <= Order.filled_quantity o').
Proof.
  cbv zeta. split; [reflexivity|]. split.
  - intros r o Hr.
    destruct (after_events_same_order api liquidate_at evs2 _ r o Hr) as (o' & Hr' & Hs).
    exists o'. split; [exact Hr' | exact Hs].
  - intros Hwf Hin Hs.
    destruct (well_formed_stream_app api liquidate_at evs1 evs2 rn Hs) as [Hs1 Hs2].
    destruct (after_events_invariants api liquidate_at evs1 rn Hwf Hin Hs1)
      as (Hwf1 & Hin1 & _).
    destruct (after_events_invariants api liquidate_at evs2 _ Hwf1 Hin1 Hs2)
      as (_ & Hin2 & Hg).
    split; [exact Hin1|]. split; [exact Hin2|].
    intros r o Hr. destruct (Hg r o Hr) as (o' & Hr' & _ & Hle).
    exists o'. split; assumption.
Qed.

Lemma order_invariants_witness :
  let heap_at (rn : Runner.t) := Shared.heap (Runner.shared rn) in
  let rn1 :=
    after_events Scenario.broker Scenario.liquidate_at stream_x1_begin Scenario.runner100 in
  let rn2 := after_events Scenario.broker Scenario.liquidate_at stream_x1_end rn1 in
  registry_wf (Runner.shared Scenario.runner100)
  /\ Forall within_quantity (heap_at Scenario.runner100)
  /\ well_formed_stream Scenario.broker Scenario.liquidate_at
       (stream_x1_begin ++ stream_x1_end) Scenario.runner100
  /\ option_map Order.filled_quantity (Heap.read (heap_at rn1) 0%nat) = Some 40
  /\ option_map Order.filled_quantity (Heap.read (heap_at rn2) 0%nat) = Some 100
  /\ Forall within_quantity (heap_at rn1)
  /\ Forall within_quantity (heap_at rn2).
Proof.
  cbv zeta.
  assert (Hwf : registry_wf (Runner.shared Scenario.runner100)) by apply init_wf.
  assert (Hin : Forall within_quantity (Shared.heap (Runner.shared Scenario.runner100)))
    by apply Forall_nil.
  assert (Hs : well_formed_stream Scenario.broker Scenario.liquidate_at
                 (stream_x1_begin ++ stream_x1_end) Scenario.runner100).
  { repeat split; vm_compute; discriminate. }
  split; [exact Hwf|]. split; [exact Hin|]. split; [exact Hs|].
  split; [reflexivity|]. split; [reflexivity|].
  destruct (proj2 (proj2 (order_invariants Scenario.broker Scenario.liquidate_at
                            stream_x1_begin stream_x1_end Scenario.runner100))
                  Hwf Hin Hs) as (H1 & H2 & _).
  split; [exact H1 | exact H2].
Defined.

End OrderInvariants.
